(** * The [aws_launch_configuration] resource
    (aws/resource_aws_launch_configuration.go)

    A shallow embedding of the resource's schema, of its Create, Read and
    Delete callbacks and of the block-device conversion helpers, followed
    by the properties established about them.

    Conventions of the embedding.
    - A Go [interface{}] is a [value]; a type assertion [v.(T)] is a
      partial function that panics on another dynamic type, its comma-ok
      form [v, ok := x.(T)] returns an [option].
    - A Go pointer field of an SDK structure is an [option]; [None] is
      the nil pointer and dereferencing it panics.
    - A run-time panic is the [Panic] outcome.  A Go [error] result is an
      ordinary returned value, [None] standing for the nil error.
    - Calls to the EC2 and Auto Scaling services are recorded, in order,
      in the log of remote calls carried by the state; what a service
      answers is given by a [Remote], which may depend on everything that
      was requested before.
    - [log.Printf] lines have no counterpart: they call no service and
      change nothing the callbacks read. *)

From stdpp Require Import gmap strings list fin_maps.
From Stdlib Require Import ZArith Lia.

Set Warnings "-register-all".
Local Open Scope string_scope.
Local Open Scope list_scope.
Local Open Scope Z_scope.

(** ** Go values *)

Inductive value : Type :=
| VNil                                   (* the nil interface value *)
| VString (s : string)
| VBool (b : bool)
| VInt (n : Z)                           (* int *)
| VInt64 (n : Z)                         (* int64 *)
| VList (l : list value)                 (* []interface{} *)
| VSet (l : list value)                  (* *schema.Set, in the order of List() *)
| VMap (m : gmap string value)           (* map[string]interface{} *)
| VMaps (l : list (gmap string value)).  (* []map[string]interface{} *)

Inductive outcome (A : Type) : Type :=
| Ret (a : A)
| Panic.
Arguments Ret {A} a.
Arguments Panic {A}.

#[global] Instance outcome_ret : MRet outcome := fun A a => Ret a.
#[global] Instance outcome_bind : MBind outcome := fun A B k o =>
  match o with
  | Ret a => k a
  | Panic => Panic
  end.

(** [m[k]] on a Go map: the nil interface when the key is absent. *)
Definition mapIndex (m : gmap string value) (k : string) : value :=
  default VNil (m !! k).

(** Panicking type assertions [v.(T)]. *)
Definition assertString (v : value) : outcome string :=
  match v with VString s => Ret s | _ => Panic end.
Definition assertBool (v : value) : outcome bool :=
  match v with VBool b => Ret b | _ => Panic end.
Definition assertList (v : value) : outcome (list value) :=
  match v with VList l => Ret l | _ => Panic end.
Definition assertSet (v : value) : outcome (list value) :=
  match v with VSet l => Ret l | _ => Panic end.
Definition assertMap (v : value) : outcome (gmap string value) :=
  match v with VMap m => Ret m | _ => Panic end.
Definition assertMaps (v : value) : outcome (list (gmap string value)) :=
  match v with VMaps l => Ret l | _ => Panic end.

(** Comma-ok type assertions [x, ok := v.(T)]. *)
Definition okString (v : value) : option string :=
  match v with VString s => Some s | _ => None end.
Definition okBool (v : value) : option bool :=
  match v with VBool b => Some b | _ => None end.
Definition okInt (v : value) : option Z :=
  match v with VInt n => Some n | _ => None end.

(** Dereference of a pointer. *)
Definition deref {A} (p : option A) : outcome A :=
  match p with Some a => Ret a | None => Panic end.

(** Pointers handed to [d.Set] as [interface{}]. *)
Definition ofStringPtr (p : option string) : value :=
  match p with Some s => VString s | None => VNil end.
Definition ofBoolPtr (p : option bool) : value :=
  match p with Some b => VBool b | None => VNil end.

(** ** SDK structures (package autoscaling) *)

Record autoscaling_Ebs : Type := {
  DeleteOnTermination : option bool;
  Encrypted : option bool;
  Iops : option Z;
  SnapshotId : option string;
  VolumeSize : option Z;
  VolumeType : option string }.

Record autoscaling_BlockDeviceMapping : Type := {
  DeviceName : option string;
  Ebs : option autoscaling_Ebs;
  NoDevice : option bool;
  VirtualName : option string }.

(** The zero structure [&autoscaling.BlockDeviceMapping{}]. *)
Definition BlockDeviceMapping_zero : autoscaling_BlockDeviceMapping :=
  {| DeviceName := None; Ebs := None; NoDevice := None; VirtualName := None |}.

Definition set_DeviceName (p : option string) (b : autoscaling_BlockDeviceMapping) :=
  {| DeviceName := p; Ebs := Ebs b; NoDevice := NoDevice b; VirtualName := VirtualName b |}.
Definition set_Ebs (p : option autoscaling_Ebs) (b : autoscaling_BlockDeviceMapping) :=
  {| DeviceName := DeviceName b; Ebs := p; NoDevice := NoDevice b; VirtualName := VirtualName b |}.
Definition set_NoDevice (p : option bool) (b : autoscaling_BlockDeviceMapping) :=
  {| DeviceName := DeviceName b; Ebs := Ebs b; NoDevice := p; VirtualName := VirtualName b |}.
Definition set_VirtualName (p : option string) (b : autoscaling_BlockDeviceMapping) :=
  {| DeviceName := DeviceName b; Ebs := Ebs b; NoDevice := NoDevice b; VirtualName := p |}.

Record autoscaling_InstanceMonitoring : Type := { Enabled : option bool }.

Record autoscaling_CreateLaunchConfigurationInput : Type := {
  opts_LaunchConfigurationName : option string;
  opts_ImageId : option string;
  opts_InstanceType : option string;
  opts_EbsOptimized : option bool;
  opts_UserData : option string;
  opts_InstanceMonitoring : option autoscaling_InstanceMonitoring;
  opts_IamInstanceProfile : option string;
  opts_PlacementTenancy : option string;
  opts_AssociatePublicIpAddress : option bool;
  opts_KeyName : option string;
  opts_SpotPrice : option string;
  opts_SecurityGroups : list (option string);
  opts_ClassicLinkVPCId : option string;
  opts_ClassicLinkVPCSecurityGroups : list (option string);
  opts_BlockDeviceMappings : list (option autoscaling_BlockDeviceMapping) }.

Record autoscaling_LaunchConfiguration : Type := {
  LaunchConfigurationName : option string;
  ImageId : option string;
  InstanceType : option string;
  KeyName : option string;
  IamInstanceProfile : option string;
  EbsOptimized : option bool;
  SpotPrice : option string;
  InstanceMonitoring : option autoscaling_InstanceMonitoring;
  SecurityGroups : list (option string);
  AssociatePublicIpAddress : option bool;
  ClassicLinkVPCId : option string;
  ClassicLinkVPCSecurityGroups : list (option string);
  BlockDeviceMappings : list (option autoscaling_BlockDeviceMapping) }.

(** ** Errors

    An error is either an [awserr.Error] of the SDK, with its code and
    message, or one built by [fmt.Errorf], kept as the format together
    with its arguments. *)

Inductive error : Type :=
| awserr_Error (code message : string)
| fmt_Errorf (format : string) (args : list fmt_arg)
with fmt_arg : Type :=
| ArgString (s : string)
| ArgError (e : error)
| ArgLaunchConfigurations (l : list (option autoscaling_LaunchConfiguration)).

(** [resource.RetryError]: what the function given to [resource.Retry]
    returns, built by [resource.RetryableError] and
    [resource.NonRetryableError]. *)
Record RetryError : Type := { Err : error; Retryable : bool }.
Definition resource_RetryableError (e : error) : RetryError :=
  {| Err := e; Retryable := true |}.
Definition resource_NonRetryableError (e : error) : RetryError :=
  {| Err := e; Retryable := false |}.

(** ** The schema (package helper/schema)

    A [schema.Schema] literal is kept as its [Type], the list of the
    other fields it sets and its [Elem].  The function-valued fields
    ([ValidateFunc], [StateFunc], [Set]) are left out: nothing below
    reads them. *)

Inductive ValueType : Type :=
| TypeBool | TypeInt | TypeString | TypeList | TypeSet.

Inductive SchemaField : Type :=
| Optional
| Required
| Computed
| ForceNew
| Default (v : value)
| MaxItems (n : nat)
| ConflictsWith (keys : list string)
| Deprecated (message : string).

Inductive Schema : Type :=
| mkSchema (ty : ValueType) (fields : list SchemaField) (elem : SchemaElem)
with SchemaElem : Type :=
| NoElem
| ElemSchema (s : Schema)
| ElemResource (r : list (string * Schema)).

Definition Type_ (s : Schema) : ValueType :=
  match s with mkSchema ty _ _ => ty end.
Definition fields (s : Schema) : list SchemaField :=
  match s with mkSchema _ fs _ => fs end.
Definition Elem (s : Schema) : SchemaElem :=
  match s with mkSchema _ _ e => e end.

Definition isOptional (s : Schema) : bool :=
  existsb (fun f => match f with Optional => true | _ => false end) (fields s).
Definition isRequired (s : Schema) : bool :=
  existsb (fun f => match f with Required => true | _ => false end) (fields s).
Definition isComputed (s : Schema) : bool :=
  existsb (fun f => match f with Computed => true | _ => false end) (fields s).
Definition isForceNew (s : Schema) : bool :=
  existsb (fun f => match f with ForceNew => true | _ => false end) (fields s).
Definition defaultOf (s : Schema) : option value :=
  head (omap (fun f => match f with Default v => Some v | _ => None end) (fields s)).

(** The six attributes of an EBS volume, shared (up to [device_name]) by
    the [ebs] block of [block_device_mapping] and by [ebs_block_device]. *)
Definition ebsVolumeSchema : list (string * Schema) :=
  [ ("delete_on_termination", mkSchema TypeBool [Optional; Default (VBool true); ForceNew] NoElem);
    ("iops", mkSchema TypeInt [Optional; Computed; ForceNew] NoElem);
    ("snapshot_id", mkSchema TypeString [Optional; Computed; ForceNew] NoElem);
    ("volume_size", mkSchema TypeInt [Optional; Computed; ForceNew] NoElem);
    ("volume_type", mkSchema TypeString [Optional; Computed; ForceNew] NoElem);
    ("encrypted", mkSchema TypeBool [Optional; Computed; ForceNew] NoElem) ].

(** [resourceAwsLaunchConfiguration().Schema], in the order of the source. *)
Definition resourceAwsLaunchConfiguration_Schema : list (string * Schema) :=
  [ ("name", mkSchema TypeString
       [Optional; Computed; ForceNew; ConflictsWith ["name_prefix"]] NoElem);
    ("name_prefix", mkSchema TypeString [Optional; ForceNew] NoElem);
    ("image_id", mkSchema TypeString [Required; ForceNew] NoElem);
    ("instance_type", mkSchema TypeString [Required; ForceNew] NoElem);
    ("iam_instance_profile", mkSchema TypeString [Optional; ForceNew] NoElem);
    ("key_name", mkSchema TypeString [Optional; Computed; ForceNew] NoElem);
    ("user_data", mkSchema TypeString [Optional; ForceNew] NoElem);
    ("security_groups", mkSchema TypeSet [Optional; ForceNew]
       (ElemSchema (mkSchema TypeString [] NoElem)));
    ("vpc_classic_link_id", mkSchema TypeString [Optional; ForceNew] NoElem);
    ("vpc_classic_link_security_groups", mkSchema TypeSet [Optional; ForceNew]
       (ElemSchema (mkSchema TypeString [] NoElem)));
    ("associate_public_ip_address", mkSchema TypeBool
       [Optional; ForceNew; Default (VBool false)] NoElem);
    ("spot_price", mkSchema TypeString [Optional; ForceNew] NoElem);
    ("ebs_optimized", mkSchema TypeBool [Optional; ForceNew; Computed] NoElem);
    ("placement_tenancy", mkSchema TypeString [Optional; ForceNew] NoElem);
    ("enable_monitoring", mkSchema TypeBool
       [Optional; ForceNew; Default (VBool true)] NoElem);
    ("block_device_mapping", mkSchema TypeSet
       [Optional; ForceNew;
        ConflictsWith ["ebs_block_device"; "ephemeral_block_device"; "root_block_device"]]
       (ElemResource
          [ ("device_name", mkSchema TypeString [Optional; ForceNew] NoElem);
            ("virtual_name", mkSchema TypeString [Optional; ForceNew] NoElem);
            ("no_device", mkSchema TypeBool [Optional; ForceNew] NoElem);
            ("is_root_device", mkSchema TypeBool [Optional; ForceNew] NoElem);
            ("ebs", mkSchema TypeList [MaxItems 1; Optional; ForceNew]
               (ElemResource ebsVolumeSchema)) ]));
    ("ebs_block_device", mkSchema TypeSet
       [Optional; Computed; Deprecated "Use 'block_device_mapping' instead."]
       (ElemResource
          (("device_name", mkSchema TypeString [Required; ForceNew] NoElem)
             :: ebsVolumeSchema)));
    ("ephemeral_block_device", mkSchema TypeSet
       [Optional; ForceNew; Deprecated "Use 'block_device_mapping' instead."]
       (ElemResource
          [ ("device_name", mkSchema TypeString [Required] NoElem);
            ("virtual_name", mkSchema TypeString [Required] NoElem) ]));
    ("root_block_device", mkSchema TypeList
       [Optional; Computed; MaxItems 1; Deprecated "Use 'block_device_mapping' instead."]
       (ElemResource
          [ ("delete_on_termination", mkSchema TypeBool
               [Optional; Default (VBool true); ForceNew] NoElem);
            ("iops", mkSchema TypeInt [Optional; Computed; ForceNew] NoElem);
            ("volume_size", mkSchema TypeInt [Optional; Computed; ForceNew] NoElem);
            ("volume_type", mkSchema TypeString [Optional; Computed; ForceNew] NoElem) ])) ].

(** An attribute the configuration can set: [Optional] or [Required]. *)
Definition userSettable (s : Schema) : bool := isOptional s || isRequired s.

(** The user-settable attributes that do not carry [ForceNew], each with
    its path from the top of the schema. *)
Fixpoint notForceNew (path : list string) (k : string) (s : Schema) {struct s}
  : list (list string) :=
  (if userSettable s && negb (isForceNew s) then [path ++ [k]] else [])
  ++ match Elem s with
     | NoElem => []
     | ElemSchema _ => []
     | ElemResource r =>
         (fix go (r : list (string * Schema)) : list (list string) :=
            match r with
            | [] => []
            | (k', s') :: r' => notForceNew (path ++ [k]) k' s' ++ go r'
            end) r
     end.

Definition notForceNewIn (r : list (string * Schema)) : list (list string) :=
  concat (map (fun ks => notForceNew [] ks.1 ks.2) r).

(** A change under an attribute is caught by a [ForceNew] mark when the
    attribute carries the mark, or an enclosing attribute does, or every
    user-settable attribute nested in it is caught in turn. *)
Fixpoint changeForcesNew (above : bool) (s : Schema) {struct s} : bool :=
  above || isForceNew s ||
  match Elem s with
  | NoElem => false
  | ElemSchema _ => false
  | ElemResource r =>
      (fix go (r : list (string * Schema)) : bool :=
         match r with
         | [] => true
         | (_, s') :: r' =>
             (negb (userSettable s') || changeForcesNew (above || isForceNew s) s') && go r'
         end) r
  end.

(** ** The host's record of one resource (schema.ResourceData)

    The record holds the identifier and the attribute values.  What the
    library guarantees to a callback is modelled as follows: [d.Get]
    returns a value of the type the schema gives the attribute (the
    stored value, or the attribute's [Default], or the zero value of
    the type); [d.GetOk] also tells whether that value differs from
    the zero value; [d.Set] converts what it is given to the
    attribute's type and fails on a value of another shape. *)

Fixpoint lookupKey {A} (k : string) (l : list (string * A)) : option A :=
  match l with
  | [] => None
  | (k', a) :: l' => if String.eqb k k' then Some a else lookupKey k l'
  end.

Definition zeroValue (t : ValueType) : value :=
  match t with
  | TypeBool => VBool false
  | TypeInt => VInt 0
  | TypeString => VString EmptyString
  | TypeList => VList []
  | TypeSet => VSet []
  end.

Definition hasType (t : ValueType) (v : value) : bool :=
  match t, v with
  | TypeBool, VBool _ | TypeInt, VInt _ | TypeString, VString _
  | TypeList, VList _ | TypeSet, VSet _ => true
  | _, _ => false
  end.

Definition isZero (v : value) : bool :=
  match v with
  | VNil | VBool false | VInt 0 | VInt64 0 | VString EmptyString
  | VList [] | VSet [] | VMaps [] => true
  | _ => false
  end.

Definition coerce (t : ValueType) (v : value) : option value :=
  match t, v with
  | _, VNil => Some (zeroValue t)
  | TypeBool, VBool _ | TypeInt, VInt _ | TypeString, VString _
  | TypeList, VList _ | TypeSet, VSet _ => Some v
  | TypeInt, VInt64 n => Some (VInt n)
  | TypeList, VMaps l => Some (VList (VMap <$> l))
  | TypeSet, VList l => Some (VSet l)
  | TypeSet, VMaps l => Some (VSet (VMap <$> l))
  | _, _ => None
  end.

Record ResourceData : Type := { rd_Id : string; rd_attrs : gmap string value }.

Definition Get (d : ResourceData) (k : string) : value :=
  match lookupKey k resourceAwsLaunchConfiguration_Schema with
  | None => VNil
  | Some s =>
      match rd_attrs d !! k with
      | Some v => if hasType (Type_ s) v then v else zeroValue (Type_ s)
      | None => default (zeroValue (Type_ s)) (defaultOf s)
      end
  end.

Definition GetOk (d : ResourceData) (k : string) : value * bool :=
  (Get d k, negb (isZero (Get d k))).

Definition SetAttr (d : ResourceData) (k : string) (v : value)
  : option error * ResourceData :=
  match lookupKey k resourceAwsLaunchConfiguration_Schema ≫= fun s => coerce (Type_ s) v with
  | Some v' => (None, {| rd_Id := rd_Id d; rd_attrs := <[k := v']> (rd_attrs d) |})
  | None => (Some (fmt_Errorf "%s: invalid value" [ArgString k]), d)
  end.

(** ** Remote calls and the state of a callback *)

Inductive call : Type :=
| CallFetchRootDeviceName (amiId : string)
| CallCreateLaunchConfiguration (input : autoscaling_CreateLaunchConfigurationInput)
| CallDescribeLaunchConfigurations (names : list (option string))
| CallDeleteLaunchConfiguration (name : option string).

Definition isCreateCall (c : call) : bool :=
  match c with CallCreateLaunchConfiguration _ => true | _ => false end.
Definition isDescribeCall (c : call) : bool :=
  match c with CallDescribeLaunchConfigurations _ => true | _ => false end.
Definition isAutoscalingCall (c : call) : bool :=
  match c with CallFetchRootDeviceName _ => false | _ => true end.

(** The services: the answer to a call, given the calls made before it.
    A Go result pair [(x, err)] is kept as a pair. *)
Record Remote : Type := {
  rootDeviceNameOf : list call -> string -> option string * option error;
  createLaunchConfigurationReply :
    list call -> autoscaling_CreateLaunchConfigurationInput -> option error;
  describeLaunchConfigurationsReply :
    list call -> list (option string)
    -> list (option autoscaling_LaunchConfiguration) * option error;
  deleteLaunchConfigurationReply : list call -> option string -> option error }.

Record state : Type := { st_d : ResourceData; st_calls : list call }.

(** A callback step: it ends normally or panics, and leaves a state
    either way (the calls issued before a panic stay issued). *)
Definition M (A : Type) : Type := state -> outcome A * state.

#[global] Instance M_ret : MRet M := fun A a st => (Ret a, st).
#[global] Instance M_bind : MBind M := fun A B k m st =>
  match m st with
  | (Ret a, st') => k a st'
  | (Panic, st') => (Panic, st')
  end.
Definition panic {A} : M A := fun st => (Panic, st).
Definition lift {A} (o : outcome A) : M A := fun st => (o, st).

(** [d.Id()], [d.SetId], [d.Get], [d.GetOk], [d.Set]. *)
Definition d_Id : M string := fun st => (Ret (rd_Id (st_d st)), st).
Definition d_SetId (id : string) : M unit :=
  fun st => (Ret tt, {| st_d := {| rd_Id := id; rd_attrs := rd_attrs (st_d st) |};
                        st_calls := st_calls st |}).
Definition d_Get (k : string) : M value := fun st => (Ret (Get (st_d st) k), st).
Definition d_GetOk (k : string) : M (value * bool) :=
  fun st => (Ret (GetOk (st_d st) k), st).
Definition d_Set (k : string) (v : value) : M (option error) :=
  fun st => let '(err, d') := SetAttr (st_d st) k v in
            (Ret err, {| st_d := d'; st_calls := st_calls st |}).

Definition issue {A} (c : call) (reply : list call -> A) : M A :=
  fun st => (Ret (reply (st_calls st)),
             {| st_d := st_d st; st_calls := st_calls st ++ [c] |}).

(** ** Conversion of an EBS volume description *)

(** [if v, ok := x.(T); ok && cond(v) { field = &v }]: the field is set
    only when the assertion holds and the condition does. *)
Definition setWhen {A} (x : option A) (cond : A -> bool) : option A :=
  match x with
  | Some v => if cond v then Some v else None
  | None => None
  end.

Definition nonEmpty (s : string) : bool := negb (String.eqb s EmptyString).

(** [expandAutoscalingEbs].  [int64(v)] of an [int] keeps the number. *)
Definition expandAutoscalingEbs (inp : list value) : outcome (option autoscaling_Ebs) :=
  match inp with
  | [] => Ret None
  | VNil :: _ => Ret None
  | in0 :: _ =>
      m ← assertMap in0;
      deleteOnTermination ← assertBool (mapIndex m "delete_on_termination");
      Ret (Some {|
        DeleteOnTermination := Some deleteOnTermination;
        SnapshotId := setWhen (okString (mapIndex m "snapshot_id")) nonEmpty;
        Encrypted := setWhen (okBool (mapIndex m "encrypted")) (fun v => v);
        VolumeSize := setWhen (okInt (mapIndex m "volume_size")) (fun v => negb (v =? 0));
        VolumeType := setWhen (okString (mapIndex m "volume_type")) nonEmpty;
        Iops := setWhen (okInt (mapIndex m "iops")) (fun v => 0 <? v) |})
  end.

(** [if p != nil { m[k] = *p }]. *)
Definition putIf (k : string) (p : option value) (m : gmap string value)
  : gmap string value :=
  match p with
  | Some v => <[k := v]> m
  | None => m
  end.

(** [flattenAutoscalingEbs]. *)
Definition flattenAutoscalingEbs (inp : option autoscaling_Ebs) : list value :=
  match inp with
  | None => []
  | Some e =>
      let m := ∅ in
      let m := putIf "delete_on_termination" (VBool <$> DeleteOnTermination e) m in
      let m := putIf "encrypted" (VBool <$> Encrypted e) m in
      let m := putIf "iops" (VInt64 <$> Iops e) m in
      let m := putIf "snapshot_id" (VString <$> SnapshotId e) m in
      let m := putIf "volume_size" (VInt64 <$> VolumeSize e) m in
      let m := putIf "volume_type" (VString <$> VolumeType e) m in
      [VMap m]
  end.

(** [out[i].Field = x] on a slice of pointers: the element is read and
    the field is stored through the pointer, which panics on nil. *)
Definition assignThrough (out : list (option autoscaling_BlockDeviceMapping)) (i : nat)
    (store : autoscaling_BlockDeviceMapping -> autoscaling_BlockDeviceMapping)
  : outcome (list (option autoscaling_BlockDeviceMapping)) :=
  match out !! i with
  | Some (Some b) => Ret (<[i := Some (store b)]> out)
  | Some None => Panic
  | None => Panic
  end.

(** The block-device description read back for the deprecated
    attributes (lines 700-712 of readBlockDevicesFromLaunchConfiguration). *)
Definition readBlockDevice_common (bdm : autoscaling_BlockDeviceMapping)
  : gmap string value :=
  let bd := ∅ in
  let bd := putIf "delete_on_termination"
              (Ebs bdm ≫= fun e => VBool <$> DeleteOnTermination e) bd in
  let bd := putIf "volume_size" (Ebs bdm ≫= fun e => VInt64 <$> VolumeSize e) bd in
  let bd := putIf "volume_type" (Ebs bdm ≫= fun e => VString <$> VolumeType e) bd in
  let bd := putIf "iops" (Ebs bdm ≫= fun e => VInt64 <$> Iops e) bd in
  bd.

(** Whether the mapping is the root device (line 714). *)
Definition isRootMapping (rootDeviceName : string) (bdm : autoscaling_BlockDeviceMapping)
  : bool :=
  match DeviceName bdm with
  | Some n => String.eqb n rootDeviceName
  | None => false
  end.

(** The loop of readBlockDevicesFromLaunchConfiguration (lines 699-733). *)
Fixpoint readBlockDevices_loop (rootDeviceName : string)
    (bdms : list (option autoscaling_BlockDeviceMapping))
    (blockDevices : gmap string value) : outcome (gmap string value) :=
  match bdms with
  | [] => Ret blockDevices
  | p :: rest =>
      bdm ← deref p;
      let bd := readBlockDevice_common bdm in
      blockDevices ←
        (if isRootMapping rootDeviceName bdm then
           Ret (<["root" := VMap bd]> blockDevices)
         else
           let bd := putIf "encrypted" (Ebs bdm ≫= fun e => VBool <$> Encrypted e) bd in
           let bd := putIf "device_name" (VString <$> DeviceName bdm) bd in
           match VirtualName bdm with
           | Some vn =>
               let bd := <["virtual_name" := VString vn]> bd in
               l ← assertMaps (mapIndex blockDevices "ephemeral");
               Ret (<["ephemeral" := VMaps (l ++ [bd])]> blockDevices)
           | None =>
               let bd := putIf "snapshot_id"
                           (Ebs bdm ≫= fun e => VString <$> SnapshotId e) bd in
               l ← assertMaps (mapIndex blockDevices "ebs");
               Ret (<["ebs" := VMaps (l ++ [bd])]> blockDevices)
           end);
      readBlockDevices_loop rootDeviceName rest blockDevices
  end.

(** ** The callbacks *)

Section Callbacks.

(** The EC2 and Auto Scaling services. *)
Variable remote : Remote.

(** Helpers of the provider that are defined in other files, and the
    host's name generators: [isAWSErr err code message] tells whether
    [err] is an SDK error of that code whose message has [message] in
    it; [expandStringList] turns the members of a set of strings into
    SDK strings. *)
Variable isAWSErr : error -> string -> string -> bool.
Variable base64Encode : string -> string.
Variable expandStringList : list value -> list (option string).
Variable resource_UniqueId : string.
Variable resource_PrefixedUniqueId : string -> string.

(** [resource.Retry] runs its function until it succeeds, fails with a
    non-retryable error, or the time is over, in which case the last
    error is returned.  The wall-clock window is kept as the number of
    further attempts that fit in it after the first. *)
Variable attemptsWithin : Z -> nat.

Fixpoint retryLoop (more : nat) (f : M (option RetryError)) : M (option error) :=
  r ← f;
  match r with
  | None => mret None
  | Some rerr =>
      if Retryable rerr then
        match more with
        | O => mret (Some (Err rerr))
        | S more' => retryLoop more' f
        end
      else mret (Some (Err rerr))
  end.

Definition resource_Retry (seconds : Z) (f : M (option RetryError))
  : M (option error) :=
  retryLoop (attemptsWithin seconds) f.

(** Modelled from the spec: [fetchRootDeviceName] is defined in another
    file of the provider.  The spec has the image's registered
    root-device name "fetched from the image metadata -- an external
    lookup, not stored locally": a call through the EC2 connection
    that yields the name, or no name, or an error. *)
Definition fetchRootDeviceName (amiId : string) : M (option string * option error) :=
  issue (CallFetchRootDeviceName amiId) (fun calls => rootDeviceNameOf remote calls amiId).

Definition autoscalingconn_CreateLaunchConfiguration
    (input : autoscaling_CreateLaunchConfigurationInput) : M (option error) :=
  issue (CallCreateLaunchConfiguration input)
        (fun calls => createLaunchConfigurationReply remote calls input).

Definition autoscalingconn_DescribeLaunchConfigurations (names : list (option string))
  : M (list (option autoscaling_LaunchConfiguration) * option error) :=
  issue (CallDescribeLaunchConfigurations names)
        (fun calls => describeLaunchConfigurationsReply remote calls names).

Definition autoscalingconn_DeleteLaunchConfiguration (name : option string)
  : M (option error) :=
  issue (CallDeleteLaunchConfiguration name)
        (fun calls => deleteLaunchConfigurationReply remote calls name).

(** *** expandAutoscalingBlockDeviceMappings *)

(** One turn of the loop (lines 744-767) for element [bdm] at index
    [i].  The result is the slice and the error of an early
    [return nil, err].  In [out[i].DeviceName, err = fetchRootDeviceName(...)]
    the call is made first and the store through [out[i]] comes next,
    before [err] is looked at. *)
Definition expand_entry (amiId : string) (i : nat) (bdm : value)
    (out : list (option autoscaling_BlockDeviceMapping))
  : M (list (option autoscaling_BlockDeviceMapping) * option error) :=
  m ← lift (assertMap bdm);
  '(out, err) ←
    match m !! "is_root_device" with
    | Some v =>
        isRoot ← lift (assertBool v);
        if isRoot : bool then
          '(name, err) ← fetchRootDeviceName amiId;
          out ← lift (assignThrough out i (set_DeviceName name));
          mret (out, err)
        else mret (out, None)
    | None => mret (out, None)
    end;
  match err with
  | Some e => mret ([], Some e)
  | None =>
      out ← match m !! "device_name" with
            | Some v =>
                s ← lift (assertString v);
                lift (assignThrough out i (set_DeviceName (Some s)))
            | None => mret out
            end;
      out ← match m !! "ebs" with
            | Some v =>
                ebs ← lift (l ← assertList v; expandAutoscalingEbs l);
                lift (assignThrough out i (set_Ebs ebs))
            | None => mret out
            end;
      out ← match m !! "no_device" with
            | Some v =>
                b ← lift (assertBool v);
                lift (assignThrough out i (set_NoDevice (Some b)))
            | None => mret out
            end;
      out ← match m !! "virtual_name" with
            | Some v =>
                s ← lift (assertString v);
                lift (assignThrough out i (set_VirtualName (Some s)))
            | None => mret out
            end;
      mret (out, None)
  end.

Fixpoint expand_loop (amiId : string) (i : nat) (inp : list value)
    (out : list (option autoscaling_BlockDeviceMapping))
  : M (list (option autoscaling_BlockDeviceMapping) * option error) :=
  match inp with
  | [] => mret (out, None)
  | bdm :: rest =>
      '(out, err) ← expand_entry amiId i bdm out;
      match err with
      | Some e => mret ([], Some e)
      | None => expand_loop amiId (S i) rest out
      end
  end.

Definition expandAutoscalingBlockDeviceMappings (inp : list value) (amiId : string)
  : M (list (option autoscaling_BlockDeviceMapping) * option error) :=
  match inp with
  | [] => mret ([], None)
  | VNil :: _ => mret ([], None)
  | _ =>
      (* out := make([]*autoscaling.BlockDeviceMapping, len(in), len(in)) *)
      let out := replicate (length inp) None in
      expand_loop amiId 0 inp out
  end.

(** *** flattenAutoscalingBlockDeviceMappings *)

Definition flatten_entry (amiId : string) (p : option autoscaling_BlockDeviceMapping)
  : M (gmap string value * option error) :=
  bdm ← lift (deref p);
  let m := ∅ in
  '(m, err) ←
    match DeviceName bdm with
    | Some deviceName =>
        let m := <["device_name" := VString deviceName]> m in
        '(rootDeviceName, err) ← fetchRootDeviceName amiId;
        match err with
        | Some e => mret (m, Some e)
        | None =>
            root ← lift (deref rootDeviceName);
            mret (<["is_root_device" := VBool (String.eqb root deviceName)]> m, None)
        end
    | None => mret (m, None)
    end;
  match err with
  | Some e => mret (m, Some e)
  | None =>
      let m := match Ebs bdm with
               | Some e => <["ebs" := VList (flattenAutoscalingEbs (Some e))]> m
               | None => m
               end in
      let m := putIf "no_device" (VBool <$> NoDevice bdm) m in
      let m := putIf "virtual_name" (VString <$> VirtualName bdm) m in
      mret (m, None)
  end.

Fixpoint flatten_loop (amiId : string) (i : nat)
    (inp : list (option autoscaling_BlockDeviceMapping)) (out : list value)
  : M (list value * option error) :=
  match inp with
  | [] => mret (out, None)
  | p :: rest =>
      '(m, err) ← flatten_entry amiId p;
      match err with
      | Some e => mret ([], Some e)
      | None => flatten_loop amiId (S i) rest (<[i := VMap m]> out)
      end
  end.

Definition flattenAutoscalingBlockDeviceMappings
    (inp : list (option autoscaling_BlockDeviceMapping)) (amiId : string)
  : M (list value * option error) :=
  match inp with
  | [] => mret ([], None)
  | _ =>
      (* out := make([]interface{}, len(in), len(in)) *)
      let out := replicate (length inp) VNil in
      flatten_loop amiId 0 inp out
  end.

(** *** readBlockDevicesFromLaunchConfiguration and readLCBlockDevices *)

(** The result map of the early [return nil, nil] is the nil map,
    which reads as the empty one. *)
Definition readBlockDevicesFromLaunchConfiguration (lc : autoscaling_LaunchConfiguration)
  : M (gmap string value * option error) :=
  let blockDevices : gmap string value :=
    <["root" := VNil]> (<["ephemeral" := VMaps []]> (<["ebs" := VMaps []]> ∅)) in
  match BlockDeviceMappings lc with
  | [] => mret (∅, None)
  | _ =>
      imageId ← (v ← d_Get "image_id"; lift (assertString v));
      '(rootDeviceName, err) ← fetchRootDeviceName imageId;
      match err with
      | Some e => mret (∅, Some e)
      | None =>
          let rootDeviceName := default EmptyString rootDeviceName in
          blockDevices ← lift (readBlockDevices_loop rootDeviceName
                                 (BlockDeviceMappings lc) blockDevices);
          mret (blockDevices, None)
      end
  end.

Definition readLCBlockDevices (lc : autoscaling_LaunchConfiguration) : M (option error) :=
  '(ibds, err) ← readBlockDevicesFromLaunchConfiguration lc;
  match err with
  | Some e => mret (Some e)
  | None =>
      err ← d_Set "ebs_block_device" (mapIndex ibds "ebs");
      match err with
      | Some e => mret (Some e)
      | None =>
          err ← d_Set "ephemeral_block_device" (mapIndex ibds "ephemeral");
          match err with
          | Some e => mret (Some e)
          | None =>
              match mapIndex ibds "root" with
              | VNil => d_Set "root_block_device" (VList []);; mret None
              | root =>
                  err ← d_Set "root_block_device" (VList [root]);
                  match err with
                  | Some e => mret (Some e)
                  | None => mret None
                  end
              end
          end
      end
  end.

(** *** resourceAwsLaunchConfigurationRead *)

Definition resourceAwsLaunchConfigurationRead : M (option error) :=
  id ← d_Id;
  '(describConfs, err) ← autoscalingconn_DescribeLaunchConfigurations [Some id];
  match err with
  | Some e =>
      mret (Some (fmt_Errorf "Error retrieving launch configuration: %s" [ArgError e]))
  | None =>
      match describConfs with
      | [] => d_SetId EmptyString;; mret None
      | first :: _ =>
          (* Verify AWS returned our launch configuration *)
          lc ← lift (deref first);
          name ← lift (deref (LaunchConfigurationName lc));
          id ← d_Id;
          if negb (String.eqb name id) then
            mret (Some (fmt_Errorf "Unable to find launch configuration: %#v"
                          [ArgLaunchConfigurations describConfs]))
          else
            d_Set "key_name" (ofStringPtr (KeyName lc));;
            d_Set "image_id" (ofStringPtr (ImageId lc));;
            d_Set "instance_type" (ofStringPtr (InstanceType lc));;
            d_Set "name" (ofStringPtr (LaunchConfigurationName lc));;
            d_Set "iam_instance_profile" (ofStringPtr (IamInstanceProfile lc));;
            d_Set "ebs_optimized" (ofBoolPtr (EbsOptimized lc));;
            d_Set "spot_price" (ofStringPtr (SpotPrice lc));;
            monitoring ← lift (deref (InstanceMonitoring lc));
            d_Set "enable_monitoring" (ofBoolPtr (Enabled monitoring));;
            d_Set "security_groups" (VList (ofStringPtr <$> SecurityGroups lc));;
            d_Set "associate_public_ip_address" (ofBoolPtr (AssociatePublicIpAddress lc));;
            d_Set "vpc_classic_link_id" (ofStringPtr (ClassicLinkVPCId lc));;
            d_Set "vpc_classic_link_security_groups"
                  (VList (ofStringPtr <$> ClassicLinkVPCSecurityGroups lc));;
            imageId ← lift (deref (ImageId lc));
            '(bdms, err) ← flattenAutoscalingBlockDeviceMappings (BlockDeviceMappings lc) imageId;
            match err with
            | Some e => mret (Some e)
            | None =>
                err ← d_Set "block_device_mapping" (VList bdms);
                match err with
                | Some e => mret (Some e)
                | None =>
                    err ← readLCBlockDevices lc;
                    match err with
                    | Some e => mret (Some e)
                    | None => mret None
                    end
                end
            end
      end
  end.

(** *** resourceAwsLaunchConfigurationDelete *)

Definition resourceAwsLaunchConfigurationDelete : M (option error) :=
  id ← d_Id;
  err ← autoscalingconn_DeleteLaunchConfiguration (Some id);
  match err with
  | Some e =>
      if isAWSErr e "InvalidConfiguration.NotFound" EmptyString then mret None
      else mret (Some e)
  | None => mret None
  end.

(** *** resourceAwsLaunchConfigurationCreate *)

(** [d.Get(k).(string)] and [d.Get(k).(bool)]. *)
Definition getString (k : string) : M string := v ← d_Get k; lift (assertString v).
Definition getBool (k : string) : M bool := v ← d_Get k; lift (assertBool v).

(** [if v, ok := d.GetOk(k); ok { field = conv(v.(T)) }]. *)
Definition whenOk {A B} (k : string) (assertT : value -> outcome A) (conv : A -> B)
    (unset : B) : M B :=
  '(v, ok) ← d_GetOk k;
  if ok : bool then x ← lift (assertT v); mret (conv x) else mret unset.

(** The deprecated attributes: one [ebs_block_device] (lines 445-478).
    The result is the mapping to append, or the error to return. *)
Definition create_ebs_block_device (rootDeviceName : string) (v : value)
  : outcome (autoscaling_BlockDeviceMapping + error) :=
  bd ← assertMap v;
  deleteOnTermination ← assertBool (mapIndex bd "delete_on_termination");
  let ebs := {|
    DeleteOnTermination := Some deleteOnTermination;
    SnapshotId := setWhen (okString (mapIndex bd "snapshot_id")) nonEmpty;
    Encrypted := setWhen (okBool (mapIndex bd "encrypted")) (fun v => v);
    VolumeSize := setWhen (okInt (mapIndex bd "volume_size")) (fun v => negb (v =? 0));
    VolumeType := setWhen (okString (mapIndex bd "volume_type")) nonEmpty;
    Iops := setWhen (okInt (mapIndex bd "iops")) (fun v => 0 <? v) |} in
  deviceName ← assertString (mapIndex bd "device_name");
  if String.eqb deviceName rootDeviceName then
    Ret (inr (fmt_Errorf
      "Root device (%s) declared as an 'ebs_block_device'.  Use 'root_block_device' keyword."
      [ArgString rootDeviceName]))
  else
    Ret (inl {| DeviceName := Some deviceName; Ebs := Some ebs;
                NoDevice := None; VirtualName := None |}).

Fixpoint create_ebs_block_devices (rootDeviceName : string) (vL : list value)
    (blockDevices : list (option autoscaling_BlockDeviceMapping))
  : outcome (list (option autoscaling_BlockDeviceMapping) * option error) :=
  match vL with
  | [] => Ret (blockDevices, None)
  | v :: rest =>
      r ← create_ebs_block_device rootDeviceName v;
      match r with
      | inr e => Ret (blockDevices, Some e)
      | inl bdm => create_ebs_block_devices rootDeviceName rest (blockDevices ++ [Some bdm])
      end
  end.

(** One [ephemeral_block_device] (lines 485-489). *)
Definition create_ephemeral_block_device (v : value)
  : outcome autoscaling_BlockDeviceMapping :=
  bd ← assertMap v;
  deviceName ← assertString (mapIndex bd "device_name");
  virtualName ← assertString (mapIndex bd "virtual_name");
  Ret {| DeviceName := Some deviceName; Ebs := None;
         NoDevice := None; VirtualName := Some virtualName |}.

Fixpoint create_ephemeral_block_devices (vL : list value)
    (blockDevices : list (option autoscaling_BlockDeviceMapping))
  : outcome (list (option autoscaling_BlockDeviceMapping)) :=
  match vL with
  | [] => Ret blockDevices
  | v :: rest =>
      bdm ← create_ephemeral_block_device v;
      create_ephemeral_block_devices rest (blockDevices ++ [Some bdm])
  end.

(** The [root_block_device] loop (lines 495-526). *)
Fixpoint create_root_block_devices (vL : list value)
    (blockDevices : list (option autoscaling_BlockDeviceMapping))
  : M (list (option autoscaling_BlockDeviceMapping) * option error) :=
  match vL with
  | [] => mret (blockDevices, None)
  | v :: rest =>
      bd ← lift (assertMap v);
      deleteOnTermination ← lift (assertBool (mapIndex bd "delete_on_termination"));
      let ebs := {|
        DeleteOnTermination := Some deleteOnTermination;
        SnapshotId := None;
        Encrypted := None;
        VolumeSize := setWhen (okInt (mapIndex bd "volume_size")) (fun v => negb (v =? 0));
        VolumeType := setWhen (okString (mapIndex bd "volume_type")) nonEmpty;
        Iops := setWhen (okInt (mapIndex bd "iops")) (fun v => 0 <? v) |} in
      imageId ← getString "image_id";
      '(dn, err) ← fetchRootDeviceName imageId;
      match err with
      | None =>
          match dn with
          | None =>
              imageId ← getString "image_id";
              mret (blockDevices,
                    Some (fmt_Errorf
                      "Expected to find a Root Device name for AMI (%s), but got none"
                      [ArgString imageId]))
          | Some _ =>
              create_root_block_devices rest
                (blockDevices ++ [Some {| DeviceName := dn; Ebs := Some ebs;
                                          NoDevice := None; VirtualName := None |}])
          end
      | Some e => mret (blockDevices, Some e)
      end
  end.

(** The block-device part of Create (lines 420-532): the mappings of
    the request, or the error Create returns at once.  A nil slice
    and an empty one are the same list, so the test of line 529
    leaves no trace. *)
Definition create_block_device_mappings
  : M (list (option autoscaling_BlockDeviceMapping) * option error) :=
  '(v, ok) ← d_GetOk "block_device_mapping";
  if ok : bool then
    amiId ← getString "image_id";
    inp ← lift (assertList v);
    expandAutoscalingBlockDeviceMappings inp amiId
  else
    (* We'll use this to detect if we're declaring it incorrectly as an
       ebs_block_device. *)
    imageId ← getString "image_id";
    '(rootDeviceName, err) ← fetchRootDeviceName imageId;
    match err with
    | Some e => mret ([], Some e)
    | None =>
        let rootDeviceName := default EmptyString rootDeviceName in
        let blockDevices := [] in
        '(blockDevices, err) ←
          ('(v, ok) ← d_GetOk "ebs_block_device";
           if ok : bool then
             vL ← lift (assertSet v);
             lift (create_ebs_block_devices rootDeviceName vL blockDevices)
           else mret (blockDevices, None));
        match err with
        | Some e => mret ([], Some e)
        | None =>
            blockDevices ←
              ('(v, ok) ← d_GetOk "ephemeral_block_device";
               if ok : bool then
                 vL ← lift (assertSet v);
                 lift (create_ephemeral_block_devices vL blockDevices)
               else mret blockDevices);
            '(blockDevices, err) ←
              ('(v, ok) ← d_GetOk "root_block_device";
               if ok : bool then
                 vL ← lift (assertList v);
                 create_root_block_devices vL blockDevices
               else mret (blockDevices, None));
            match err with
            | Some e => mret ([], Some e)
            | None => mret (blockDevices, None)
            end
        end
    end.

(** The request of Create and the name of the launch configuration
    (lines 369-542), or the error Create returns before any request
    is made. *)
Definition create_request
  : M (autoscaling_CreateLaunchConfigurationInput * string + error) :=
  name ← getString "name";
  imageId ← getString "image_id";
  instanceType ← getString "instance_type";
  ebsOptimized ← getBool "ebs_optimized";
  userData ← whenOk "user_data" assertString (fun s => Some (base64Encode s)) None;
  enableMonitoring ← getBool "enable_monitoring";
  iamInstanceProfile ← whenOk "iam_instance_profile" assertString Some None;
  placementTenancy ← whenOk "placement_tenancy" assertString Some None;
  associatePublicIpAddress ← whenOk "associate_public_ip_address" assertBool Some None;
  keyName ← whenOk "key_name" assertString Some None;
  spotPrice ← whenOk "spot_price" assertString Some None;
  securityGroups ← whenOk "security_groups" assertSet expandStringList [];
  classicLinkVPCId ← whenOk "vpc_classic_link_id" assertString Some None;
  classicLinkVPCSecurityGroups ←
    whenOk "vpc_classic_link_security_groups" assertSet expandStringList [];
  '(blockDeviceMappings, err) ← create_block_device_mappings;
  match err with
  | Some e => mret (inr e)
  | None =>
      lcName ←
        ('(v, ok) ← d_GetOk "name";
         if ok : bool then lift (assertString v)
         else
           '(v, ok) ← d_GetOk "name_prefix";
           if ok : bool then s ← lift (assertString v); mret (resource_PrefixedUniqueId s)
           else mret resource_UniqueId);
      mret (inl ({|
        opts_LaunchConfigurationName := Some lcName;
        opts_ImageId := Some imageId;
        opts_InstanceType := Some instanceType;
        opts_EbsOptimized := Some ebsOptimized;
        opts_UserData := userData;
        opts_InstanceMonitoring := Some {| Enabled := Some enableMonitoring |};
        opts_IamInstanceProfile := iamInstanceProfile;
        opts_PlacementTenancy := placementTenancy;
        opts_AssociatePublicIpAddress := associatePublicIpAddress;
        opts_KeyName := keyName;
        opts_SpotPrice := spotPrice;
        opts_SecurityGroups := securityGroups;
        opts_ClassicLinkVPCId := classicLinkVPCId;
        opts_ClassicLinkVPCSecurityGroups := classicLinkVPCSecurityGroups;
        opts_BlockDeviceMappings := blockDeviceMappings |}, lcName))
  end.

(** The function retried for 90 seconds (lines 548-560). *)
Definition create_attempt (opts : autoscaling_CreateLaunchConfigurationInput)
  : M (option RetryError) :=
  err ← autoscalingconn_CreateLaunchConfiguration opts;
  match err with
  | Some e =>
      if isAWSErr e "ValidationError" "Invalid IamInstanceProfile" then
        mret (Some (resource_RetryableError e))
      else if isAWSErr e "ValidationError"
                "You are not authorized to perform this operation" then
        mret (Some (resource_RetryableError e))
      else mret (Some (resource_NonRetryableError e))
  | None => mret None
  end.

(** The function retried for 30 seconds (lines 570-576). *)
Definition read_back_attempt : M (option RetryError) :=
  err ← resourceAwsLaunchConfigurationRead;
  match err with
  | Some e => mret (Some (resource_RetryableError e))
  | None => mret None
  end.

(** The creation request and the read-back (lines 544-576). *)
Definition create_and_read_back (opts : autoscaling_CreateLaunchConfigurationInput)
    (lcName : string) : M (option error) :=
  err ← resource_Retry 90 (create_attempt opts);
  match err with
  | Some e =>
      mret (Some (fmt_Errorf "Error creating launch configuration: %s" [ArgError e]))
  | None =>
      d_SetId lcName;;
      resource_Retry 30 read_back_attempt
  end.

Definition resourceAwsLaunchConfigurationCreate : M (option error) :=
  r ← create_request;
  match r with
  | inr e => mret (Some e)
  | inl (opts, lcName) => create_and_read_back opts lcName
  end.

End Callbacks.

(** ** A sample environment

    Concrete services and helpers on which the callbacks can be run. *)

Module Sample.

(** An SDK error of the given code whose message has [message] in it. *)
Definition isAWSErr (e : error) (code message : string) : bool :=
  match e with
  | awserr_Error c m =>
      String.eqb c code &&
      match String.index 0 message m with Some _ => true | None => false end
  | fmt_Errorf _ _ => false
  end.

Definition expandStringList (l : list value) : list (option string) :=
  omap (fun v => match v with
                 | VString s => if nonEmpty s then Some (Some s) else None
                 | _ => None
                 end) l.

(** Services that know one image, with the given root-device name,
    answer every creation and deletion with [createReply] and
    [deleteReply], and describe the launch configurations [described]. *)
Definition services (rootDeviceName : option string) (createReply deleteReply : option error)
    (described : list (option autoscaling_LaunchConfiguration)) : Remote :=
  {| rootDeviceNameOf := fun _ _ => (rootDeviceName, None);
     createLaunchConfigurationReply := fun _ _ => createReply;
     describeLaunchConfigurationsReply := fun _ _ => (described, None);
     deleteLaunchConfigurationReply := fun _ _ => deleteReply |}.

Definition create (r : Remote) : M (option error) :=
  resourceAwsLaunchConfigurationCreate r isAWSErr (fun s => s) expandStringList
    "terraform-0001" (fun p => p +:+ "0001") (fun _ => 2%nat).

Definition start (attrs : gmap string value) : state :=
  {| st_d := {| rd_Id := EmptyString; rd_attrs := attrs |}; st_calls := [] |}.

Definition baseAttrs : gmap string value :=
  <["image_id" := VString "ami-0abc"]> (<["instance_type" := VString "t2.micro"]> ∅).

(** A configuration that declares the image's root device /dev/sda1
    as an [ebs_block_device]. *)
Definition rootAsEbs : gmap string value :=
  <["ebs_block_device" :=
      VSet [VMap (<["device_name" := VString "/dev/sda1"]>
                   (<["delete_on_termination" := VBool true]> ∅))]]> baseAttrs.

(** A configuration with one [block_device_mapping]. *)
Definition mapping : gmap string value :=
  <["device_name" := VString "/dev/sdb"]>
    (<["ebs" := VList [VMap (<["delete_on_termination" := VBool true]>
                              (<["volume_size" := VInt 10]> ∅))]]> ∅).

Definition withMapping : gmap string value :=
  <["block_device_mapping" := VSet [VMap mapping]]> baseAttrs.

(** An EBS description with a negative [iops]. *)
Definition negativeIops : gmap string value :=
  <["delete_on_termination" := VBool true]> (<["iops" := VInt (-1)]> ∅).

Definition ebsVolume : gmap string value :=
  <["delete_on_termination" := VBool true]>
    (<["iops" := VInt 100]> (<["volume_size" := VInt 8]> ∅)).

Definition sdb : autoscaling_BlockDeviceMapping :=
  {| DeviceName := Some "/dev/sdb"; Ebs := None; NoDevice := None; VirtualName := None |}.

Definition sda1 : autoscaling_BlockDeviceMapping :=
  {| DeviceName := Some "/dev/sda1"; Ebs := None; NoDevice := None; VirtualName := None |}.

Definition ephemeral0 : autoscaling_BlockDeviceMapping :=
  {| DeviceName := Some "/dev/sdc"; Ebs := None; NoDevice := None;
     VirtualName := Some "ephemeral0" |}.

Definition launchConfiguration (name : string)
    (bdms : list (option autoscaling_BlockDeviceMapping)) : autoscaling_LaunchConfiguration :=
  {| LaunchConfigurationName := Some name;
     ImageId := Some "ami-0abc";
     InstanceType := Some "t2.micro";
     KeyName := None;
     IamInstanceProfile := None;
     EbsOptimized := Some false;
     SpotPrice := None;
     InstanceMonitoring := Some {| Enabled := Some true |};
     SecurityGroups := [];
     AssociatePublicIpAddress := None;
     ClassicLinkVPCId := None;
     ClassicLinkVPCSecurityGroups := [];
     BlockDeviceMappings := bdms |}.

End Sample.

(** ** Notions used in the statements *)

(** The state after one more remote call. *)
Definition called (st : state) (c : call) : state :=
  {| st_d := st_d st; st_calls := st_calls st ++ [c] |}.

(** What a request carries for the two numbers of a description [m]:
    the volume size when it is an [int] other than zero and the iops
    when it is an [int] above zero, nothing otherwise. *)
Definition numbersCarried (m : gmap string value) (ebs : autoscaling_Ebs) : Prop :=
  (m !! "volume_size" = Some (VInt 0) -> VolumeSize ebs = None)
  /\ (forall n, m !! "volume_size" = Some (VInt n) -> n <> 0 -> VolumeSize ebs = Some n)
  /\ (forall n, m !! "iops" = Some (VInt n) -> n <= 0 -> Iops ebs = None)
  /\ (forall n, m !! "iops" = Some (VInt n) -> 0 < n -> Iops ebs = Some n).

(** The image of the record: its [image_id] attribute. *)
Definition imageIdOf (d : ResourceData) : string :=
  match Get d "image_id" with
  | VString s => s
  | _ => EmptyString
  end.

(** The three kinds of block device the deprecated attributes tell
    apart: the device named as the image's root device, and among the
    others those with a virtual name and those without. *)
Inductive deviceClass : Type := RootDevice | EphemeralDevice | EbsDevice.

(** Equality of kinds is decidable. *)
#[global] Instance deviceClass_eq_dec : EqDecision deviceClass.
Proof. solve_decision. Defined.

(** The kind of a mapping, for an image with the given root-device name. *)
Definition classOf (rootDeviceName : string) (bdm : autoscaling_BlockDeviceMapping)
  : deviceClass :=
  if bool_decide (DeviceName bdm = Some rootDeviceName) then RootDevice
  else match VirtualName bdm with
       | Some _ => EphemeralDevice
       | None => EbsDevice
       end.

(** The mappings of one kind, in the order of the list. *)
Definition devicesOf (c : deviceClass) (rootDeviceName : string)
    (bdms : list autoscaling_BlockDeviceMapping) : list autoscaling_BlockDeviceMapping :=
  filter (fun bdm => classOf rootDeviceName bdm = c) bdms.

(** A description in one of the two lists stands for a mapping when it
    carries the mapping's device name and virtual name. *)
Definition describes (bdm : autoscaling_BlockDeviceMapping) (bd : gmap string value) : Prop :=
  bd !! "device_name" = VString <$> DeviceName bdm
  /\ bd !! "virtual_name" = VString <$> VirtualName bdm.

(** The description appended to the ephemeral list (lines 717-725). *)
Definition ephemeralDescription (bdm : autoscaling_BlockDeviceMapping) (vn : string)
  : gmap string value :=
  <["virtual_name" := VString vn]>
    (putIf "device_name" (VString <$> DeviceName bdm)
       (putIf "encrypted" (Ebs bdm ≫= fun e => VBool <$> Encrypted e)
          (readBlockDevice_common bdm))).

(** The description appended to the EBS list (lines 717-722, 727-730). *)
Definition ebsDescription (bdm : autoscaling_BlockDeviceMapping) : gmap string value :=
  putIf "snapshot_id" (Ebs bdm ≫= fun e => VString <$> SnapshotId e)
    (putIf "device_name" (VString <$> DeviceName bdm)
       (putIf "encrypted" (Ebs bdm ≫= fun e => VBool <$> Encrypted e)
          (readBlockDevice_common bdm))).

(** The description of a mapping that is not the root device. *)
Definition descriptionOf (bdm : autoscaling_BlockDeviceMapping) : gmap string value :=
  match VirtualName bdm with
  | Some vn => ephemeralDescription bdm vn
  | None => ebsDescription bdm
  end.

(** The keys of a [block_device_mapping] element for which the loop of
    expandAutoscalingBlockDeviceMappings stores a field. *)
Definition storesField (m : gmap string value) : Prop :=
  m !! "is_root_device" = Some (VBool true)
  \/ is_Some (m !! "device_name")
  \/ is_Some (m !! "ebs")
  \/ is_Some (m !! "no_device")
  \/ is_Some (m !! "virtual_name").

(** The translation to the SDK's form and back. *)
Definition expand_then_flatten (remote : Remote) (inp : list value) (amiId : string)
  : M (list value * option error) :=
  '(bdms, err) ← expandAutoscalingBlockDeviceMappings remote inp amiId;
  match err with
  | Some e => mret ([], Some e)
  | None => flattenAutoscalingBlockDeviceMappings remote bdms amiId
  end.

(** A step that only reads the record: it ends normally and leaves the
    state as it was. *)
Definition readsOnly {A} (m : M A) : Prop :=
  forall st, exists a, m st = (Ret a, st).

(** An [ebs_block_device] element as the schema shapes it: a map with
    the [delete_on_termination] flag and the [device_name]. *)
Definition wellFormedEbs (v : value) : Prop :=
  exists (m : gmap string value) (b : bool) (n : string),
    v = VMap m
    /\ m !! "delete_on_termination" = Some (VBool b)
    /\ m !! "device_name" = Some (VString n).

(** An element whose [device_name] is the given name. *)
Definition namesDevice (deviceName : string) (v : value) : Prop :=
  exists m : gmap string value, v = VMap m /\ m !! "device_name" = Some (VString deviceName).

(** The error of line 472. *)
Definition rootAsEbsError (rootDeviceName : string) : error :=
  fmt_Errorf
    "Root device (%s) declared as an 'ebs_block_device'.  Use 'root_block_device' keyword."
    [ArgString rootDeviceName].

(** The calls of one kind among those a step issues. *)
Definition countCalls (p : call -> bool) (calls : list call) : nat :=
  length (List.filter p calls).

(** A step adds between [lo] and [hi] calls of kind [p] to the log,
    whether it ends normally or panics. *)
Definition adds (p : call -> bool) (lo hi : nat) {A} (m : M A) : Prop :=
  forall st, exists new,
    st_calls (m st).2 = st_calls st ++ new
    /\ (lo <= countCalls p new)%nat /\ (countCalls p new <= hi)%nat.

(** A step issues no call of kind [p]. *)
Definition silent (p : call -> bool) {A} (m : M A) : Prop := adds p 0 0 m.

(** The state once the identifier has been set. *)
Definition withId (id : string) (st : state) : state :=
  {| st_d := {| rd_Id := id; rd_attrs := rd_attrs (st_d st) |}; st_calls := st_calls st |}.

(** The two signatures of a validation error that is retried. *)
Definition notYetPropagated (isAWSErr : error -> string -> string -> bool) (e : error) : bool :=
  isAWSErr e "ValidationError" "Invalid IamInstanceProfile"
  || isAWSErr e "ValidationError" "You are not authorized to perform this operation".

(** The error of line 562. *)
Definition creationError (e : error) : error :=
  fmt_Errorf "Error creating launch configuration: %s" [ArgError e].

(** ** Further notions *)

(** A string or boolean of an EBS description as it comes back from
    the SDK's structure: kept when it passed the test of
    expandAutoscalingEbs, dropped otherwise. *)
Definition keptString (v : option value) : option value :=
  match v with
  | Some (VString s) => if nonEmpty s then Some (VString s) else None
  | _ => None
  end.

Definition keptTrue (v : option value) : option value :=
  match v with
  | Some (VBool true) => Some (VBool true)
  | _ => None
  end.

(** A number of an EBS description as it comes back: the same number,
    now an [int64], when it passed the test. *)
Definition keptNumber (test : Z -> bool) (v : option value) : option value :=
  match v with
  | Some (VInt n) => if test n then Some (VInt64 n) else None
  | _ => None
  end.

(** The root-device-name lookups flattenAutoscalingBlockDeviceMappings
    makes: one for each mapping that has a device name. *)
Definition flattenLookups (amiId : string) (bdms : list autoscaling_BlockDeviceMapping)
  : list call :=
  flat_map (fun bdm => match DeviceName bdm with
                       | Some _ => [CallFetchRootDeviceName amiId]
                       | None => []
                       end) bdms.

(** The element flattenAutoscalingBlockDeviceMappings returns for a
    mapping, on an image with the given root-device name. *)
Definition flattened (root : string) (bdm : autoscaling_BlockDeviceMapping) (v : value) : Prop :=
  exists m : gmap string value,
    v = VMap m
    /\ m !! "device_name" = VString <$> DeviceName bdm
    /\ m !! "is_root_device" = (fun n => VBool (String.eqb root n)) <$> DeviceName bdm
    /\ m !! "ebs" = (fun e => VList (flattenAutoscalingEbs (Some e))) <$> Ebs bdm
    /\ m !! "no_device" = VBool <$> NoDevice bdm
    /\ m !! "virtual_name" = VString <$> VirtualName bdm.

(** The map built in one turn of the loop of
    flattenAutoscalingBlockDeviceMappings (lines 812-835). *)
Definition flatten_map (root : string) (bdm : autoscaling_BlockDeviceMapping)
  : gmap string value :=
  let m := match DeviceName bdm with
           | Some n => <["is_root_device" := VBool (String.eqb root n)]>
                         (<["device_name" := VString n]> ∅)
           | None => ∅
           end in
  let m := match Ebs bdm with
           | Some e => <["ebs" := VList (flattenAutoscalingEbs (Some e))]> m
           | None => m
           end in
  putIf "virtual_name" (VString <$> VirtualName bdm)
    (putIf "no_device" (VBool <$> NoDevice bdm) m).

(** The state after more remote calls. *)
Definition calledAll (st : state) (calls : list call) : state :=
  {| st_d := st_d st; st_calls := st_calls st ++ calls |}.

(** The state once attribute [k] of the record holds [v]. *)
Definition stored (k : string) (v : value) (st : state) : state :=
  {| st_d := {| rd_Id := rd_Id (st_d st); rd_attrs := <[k := v]> (rd_attrs (st_d st)) |};
     st_calls := st_calls st |}.

(** The value of an attribute as the record holds it. *)
Definition attributeOf (st : state) (k : string) : option value := rd_attrs (st_d st) !! k.

(** What the record holds once a string or a boolean of the SDK has
    been set: a nil pointer reads as the zero value. *)
Definition storedString (p : option string) : value := VString (default EmptyString p).
Definition storedBool (p : option bool) : value := VBool (default false p).

(** The twelve attributes Read sets from the fields of the launch
    configuration (lines 607-620), in the order of the source. *)
Definition simpleAttributes (lc : autoscaling_LaunchConfiguration)
    (monitoring : autoscaling_InstanceMonitoring) : list (string * value) :=
  [ ("key_name", storedString (KeyName lc));
    ("image_id", storedString (ImageId lc));
    ("instance_type", storedString (InstanceType lc));
    ("name", storedString (LaunchConfigurationName lc));
    ("iam_instance_profile", storedString (IamInstanceProfile lc));
    ("ebs_optimized", storedBool (EbsOptimized lc));
    ("spot_price", storedString (SpotPrice lc));
    ("enable_monitoring", storedBool (Enabled monitoring));
    ("security_groups", VSet (ofStringPtr <$> SecurityGroups lc));
    ("associate_public_ip_address", storedBool (AssociatePublicIpAddress lc));
    ("vpc_classic_link_id", storedString (ClassicLinkVPCId lc));
    ("vpc_classic_link_security_groups",
     VSet (ofStringPtr <$> ClassicLinkVPCSecurityGroups lc)) ].

(** The state once each of the attributes holds its value. *)
Definition storedAll (l : list (string * value)) (st : state) : state :=
  foldl (fun st kv => stored kv.1 kv.2 st) st l.

(** The attributes Read sets: the twelve above and the four that
    describe the block devices. *)
Definition readAttributes : list string :=
  [ "key_name"; "image_id"; "instance_type"; "name"; "iam_instance_profile";
    "ebs_optimized"; "spot_price"; "enable_monitoring"; "security_groups";
    "associate_public_ip_address"; "vpc_classic_link_id";
    "vpc_classic_link_security_groups"; "block_device_mapping";
    "ebs_block_device"; "ephemeral_block_device"; "root_block_device" ].

(** The descriptions of the devices of one kind, as elements of an
    attribute. *)
Definition descriptionsOf (c : deviceClass) (rootDeviceName : string)
    (bdms : list autoscaling_BlockDeviceMapping) : list value :=
  VMap <$> (descriptionOf <$> devicesOf c rootDeviceName bdms).

(** The elements of [root_block_device]: the description of the last
    mapping named as the root device, when there is one. *)
Definition rootDescription (rootDeviceName : string)
    (bdms : list autoscaling_BlockDeviceMapping) : list value :=
  match last (devicesOf RootDevice rootDeviceName bdms) with
  | Some bdm => [VMap (readBlockDevice_common bdm)]
  | None => []
  end.

(** The lookup readBlockDevicesFromLaunchConfiguration makes: one when
    there are mappings, none otherwise. *)
Definition readLookups (imageId : string) (bdms : list autoscaling_BlockDeviceMapping)
  : list call :=
  match bdms with
  | [] => []
  | _ => [CallFetchRootDeviceName imageId]
  end.

(** A step leaves an observation [f] of the state as it was, whether
    it ends normally or panics. *)
Definition keeps {X A} (f : state -> X) (m : M A) : Prop :=
  forall st, f (m st).2 = f st.

(** The identifier of the record. *)
Definition identifierOf (st : state) : string := rd_Id (st_d st).

(** The first launch configuration of a describe response lacks
    something Read dereferences without a test: it is nil, or has no
    name (line 599), or carries the identifier [id] but no monitoring
    (line 615) or no image (line 622). *)
Definition lacksField (id : string) (first : option autoscaling_LaunchConfiguration) : Prop :=
  match first with
  | None => True
  | Some lc =>
      LaunchConfigurationName lc = None
      \/ (LaunchConfigurationName lc = Some id
          /\ (InstanceMonitoring lc = None \/ ImageId lc = None))
  end.

(** An [ephemeral_block_device] element as the schema shapes it: a
    map with the [device_name] and the [virtual_name]. *)
Definition wellFormedEphemeral (v : value) : Prop :=
  exists (m : gmap string value) (n vn : string),
    v = VMap m
    /\ m !! "device_name" = Some (VString n)
    /\ m !! "virtual_name" = Some (VString vn).

(** A [root_block_device] element as the schema shapes it: a map with
    the [delete_on_termination] flag. *)
Definition wellFormedRoot (v : value) : Prop :=
  exists (m : gmap string value) (b : bool),
    v = VMap m /\ m !! "delete_on_termination" = Some (VBool b).

(** The mapping of a request that stands for an [ebs_block_device]
    element: the element's device name, no virtual name, and an EBS
    volume with the element's numbers. *)
Definition ebsMapping (v : value) (bdm : autoscaling_BlockDeviceMapping) : Prop :=
  exists (m : gmap string value) (n : string) (e : autoscaling_Ebs),
    v = VMap m
    /\ m !! "device_name" = Some (VString n)
    /\ bdm = {| DeviceName := Some n; Ebs := Some e; NoDevice := None; VirtualName := None |}
    /\ numbersCarried m e.

(** The mapping that stands for an [ephemeral_block_device] element:
    its device name and virtual name, and no EBS volume. *)
Definition ephemeralMapping (v : value) (bdm : autoscaling_BlockDeviceMapping) : Prop :=
  exists (m : gmap string value) (n vn : string),
    v = VMap m
    /\ m !! "device_name" = Some (VString n)
    /\ m !! "virtual_name" = Some (VString vn)
    /\ bdm = {| DeviceName := Some n; Ebs := None; NoDevice := None; VirtualName := Some vn |}.

(** The mapping that stands for a [root_block_device] element: the
    root-device name of the image, no virtual name, and an EBS volume
    with the element's numbers and neither snapshot nor encryption. *)
Definition rootMapping (rootDeviceName : string) (v : value)
    (bdm : autoscaling_BlockDeviceMapping) : Prop :=
  exists (m : gmap string value) (e : autoscaling_Ebs),
    v = VMap m
    /\ bdm = {| DeviceName := Some rootDeviceName; Ebs := Some e;
                NoDevice := None; VirtualName := None |}
    /\ SnapshotId e = None
    /\ Encrypted e = None
    /\ numbersCarried m e.

(** The error of line 515. *)
Definition noRootDeviceNameError (imageId : string) : error :=
  fmt_Errorf "Expected to find a Root Device name for AMI (%s), but got none"
    [ArgString imageId].

(** The string, the boolean and the set that [d.Get] returns for an
    attribute of that type. *)
Definition stringOf (d : ResourceData) (k : string) : string :=
  match Get d k with
  | VString s => s
  | _ => EmptyString
  end.

Definition boolOf (d : ResourceData) (k : string) : bool :=
  match Get d k with
  | VBool b => b
  | _ => false
  end.

Definition setOf (d : ResourceData) (k : string) : list value :=
  match Get d k with
  | VSet l => l
  | _ => []
  end.

(** A string of the request: sent when it is not empty. *)
Definition whenSet (s : string) : option string :=
  if nonEmpty s then Some s else None.

(** The name Create gives the launch configuration (lines 534-541):
    the [name] when there is one, else a unique name that starts with
    the [name_prefix] when there is one, else a unique name. *)
Definition launchConfigurationName (uniqueId : string) (prefixedUniqueId : string -> string)
    (d : ResourceData) : string :=
  if nonEmpty (stringOf d "name") then stringOf d "name"
  else if nonEmpty (stringOf d "name_prefix")
       then prefixedUniqueId (stringOf d "name_prefix")
       else uniqueId.

(** The request Create builds from the record and the block-device
    mappings (lines 369-418 and 542). *)
Definition requestOf (base64Encode : string -> string)
    (expandStringList : list value -> list (option string))
    (uniqueId : string) (prefixedUniqueId : string -> string) (d : ResourceData)
    (bdms : list (option autoscaling_BlockDeviceMapping))
  : autoscaling_CreateLaunchConfigurationInput :=
  {| opts_LaunchConfigurationName :=
       Some (launchConfigurationName uniqueId prefixedUniqueId d);
     opts_ImageId := Some (stringOf d "image_id");
     opts_InstanceType := Some (stringOf d "instance_type");
     opts_EbsOptimized := Some (boolOf d "ebs_optimized");
     opts_UserData := base64Encode <$> whenSet (stringOf d "user_data");
     opts_InstanceMonitoring := Some {| Enabled := Some (boolOf d "enable_monitoring") |};
     opts_IamInstanceProfile := whenSet (stringOf d "iam_instance_profile");
     opts_PlacementTenancy := whenSet (stringOf d "placement_tenancy");
     opts_AssociatePublicIpAddress :=
       if boolOf d "associate_public_ip_address" then Some true else None;
     opts_KeyName := whenSet (stringOf d "key_name");
     opts_SpotPrice := whenSet (stringOf d "spot_price");
     opts_SecurityGroups :=
       match setOf d "security_groups" with
       | [] => []
       | l => expandStringList l
       end;
     opts_ClassicLinkVPCId := whenSet (stringOf d "vpc_classic_link_id");
     opts_ClassicLinkVPCSecurityGroups :=
       match setOf d "vpc_classic_link_security_groups" with
       | [] => []
       | l => expandStringList l
       end;
     opts_BlockDeviceMappings := bdms |}.

(** ** Further sample settings *)

Module Fixture.

(** Services whose lookup of the root-device name is refused. *)
Definition refusing (e : error) : Remote :=
  {| rootDeviceNameOf := fun _ _ => (None, Some e);
     createLaunchConfigurationReply := fun _ _ => None;
     describeLaunchConfigurationsReply := fun _ _ => ([], None);
     deleteLaunchConfigurationReply := fun _ _ => None |}.

(** Services that create a launch configuration and then fail to
    describe it. *)
Definition undescribed (e : error) : Remote :=
  {| rootDeviceNameOf := fun _ _ => (None, None);
     createLaunchConfigurationReply := fun _ _ => None;
     describeLaunchConfigurationsReply := fun _ _ => ([], Some e);
     deleteLaunchConfigurationReply := fun _ _ => None |}.

(** The elements of the three deprecated attributes. *)
Definition ebsElement : gmap string value :=
  <["device_name" := VString "/dev/sdb"]> Sample.ebsVolume.

Definition ephemeralElement : gmap string value :=
  <["device_name" := VString "/dev/sdc"]> (<["virtual_name" := VString "ephemeral0"]> ∅).

Definition rootElement : gmap string value :=
  <["delete_on_termination" := VBool true]> (<["volume_size" := VInt 8]> ∅).

(** A configuration with a [root_block_device] only. *)
Definition rootOnly : gmap string value :=
  <["root_block_device" := VList [VMap rootElement]]> Sample.baseAttrs.

(** A configuration with one element in each deprecated attribute. *)
Definition legacy : gmap string value :=
  <["ebs_block_device" := VSet [VMap ebsElement]]>
    (<["ephemeral_block_device" := VSet [VMap ephemeralElement]]> rootOnly).

(** The mappings that stand for the ephemeral and the root element. *)
Definition ephemeralDevice : autoscaling_BlockDeviceMapping :=
  {| DeviceName := Some "/dev/sdc"; Ebs := None; NoDevice := None;
     VirtualName := Some "ephemeral0" |}.

Definition rootDevice : autoscaling_BlockDeviceMapping :=
  {| DeviceName := Some "/dev/sda1";
     Ebs := Some {| DeleteOnTermination := Some true; Encrypted := None; Iops := None;
                    SnapshotId := None; VolumeSize := Some 8; VolumeType := None |};
     NoDevice := None; VirtualName := None |}.

(** Create with the helpers of the sample environment. *)
Definition request (d : ResourceData) (bdms : list (option autoscaling_BlockDeviceMapping))
  : autoscaling_CreateLaunchConfigurationInput :=
  requestOf (fun s => s) Sample.expandStringList "terraform-0001" (fun p => p +:+ "0001")
    d bdms.

End Fixture.

(** * Properties *)

(** ** Running a callback step by step *)

Lemma bind_run {A B} (m : M A) (k : A -> M B) st a st' :
  m st = (Ret a, st') -> (m ≫= k) st = k a st'.
Proof. intros H. unfold mbind, M_bind. now rewrite H. Qed.

Lemma bind_panic {A B} (m : M A) (k : A -> M B) st st' :
  m st = (Panic, st') -> (m ≫= k) st = (Panic, st').
Proof. intros H. unfold mbind, M_bind. now rewrite H. Qed.

Lemma issue_run {A} (c : call) (reply : list call -> A) st :
  issue c reply st = (Ret (reply (st_calls st)), called st c).
Proof. reflexivity. Qed.

Ltac munfold :=
  unfold mbind, mret, M_bind, M_ret, outcome_bind, outcome_ret, lift, panic,
    d_Id, d_SetId, d_Get, d_GetOk, d_Set, issue; cbn beta iota.

(** ** The schema *)

(** C2, as the spec states it, fails: [ebs_block_device] can be set by
    the configuration and does not carry [ForceNew] (neither does
    [root_block_device]). *)
Lemma schema_ebs_block_device_not_ForceNew :
  (userSettable <$> lookupKey "ebs_block_device" resourceAwsLaunchConfiguration_Schema) = Some true
  /\ (isForceNew <$> lookupKey "ebs_block_device" resourceAwsLaunchConfiguration_Schema) = Some false
  /\ (userSettable <$> lookupKey "root_block_device" resourceAwsLaunchConfiguration_Schema) = Some true
  /\ (isForceNew <$> lookupKey "root_block_device" resourceAwsLaunchConfiguration_Schema) = Some false.
Proof. repeat split; reflexivity. Qed.

(** C2, amended: the user-settable attributes without [ForceNew] are
    exactly [ebs_block_device], [root_block_device] and the two
    attributes nested in [ephemeral_block_device]; every other
    user-settable attribute, nested ones included, carries the mark.
    For the four, the mark sits next to them: every attribute nested
    in [ebs_block_device] and in [root_block_device] carries it, and so
    does [ephemeral_block_device] itself, so that a change under any
    top-level attribute meets a [ForceNew] mark. *)
Theorem schema_ForceNew_marks :
  notForceNewIn resourceAwsLaunchConfiguration_Schema =
    [ ["ebs_block_device"];
      ["ephemeral_block_device"; "device_name"];
      ["ephemeral_block_device"; "virtual_name"];
      ["root_block_device"] ]
  /\ Forall (fun ks => userSettable ks.2 = true -> changeForcesNew false ks.2 = true)
            resourceAwsLaunchConfiguration_Schema.
Proof.
  split; [reflexivity|].
  unfold resourceAwsLaunchConfiguration_Schema.
  repeat (apply Forall_cons; split; [intros _; reflexivity|]).
  apply Forall_nil; exact I.
Qed.

(** ** Delete *)

(** C8: Delete issues one deletion request for the resource's
    identifier; it returns no error when the request succeeds and when
    it fails with InvalidConfiguration.NotFound, and returns the
    request's error otherwise. *)
Theorem Delete_tolerates_not_found (remote : Remote)
    (isAWSErr : error -> string -> string -> bool) (st : state) :
  let request := CallDeleteLaunchConfiguration (Some (rd_Id (st_d st))) in
  let reply := deleteLaunchConfigurationReply remote (st_calls st) (Some (rd_Id (st_d st))) in
  (reply = None ->
     resourceAwsLaunchConfigurationDelete remote isAWSErr st = (Ret None, called st request))
  /\ (forall e, reply = Some e ->
        isAWSErr e "InvalidConfiguration.NotFound" EmptyString = true ->
        resourceAwsLaunchConfigurationDelete remote isAWSErr st = (Ret None, called st request))
  /\ (forall e, reply = Some e ->
        isAWSErr e "InvalidConfiguration.NotFound" EmptyString = false ->
        resourceAwsLaunchConfigurationDelete remote isAWSErr st = (Ret (Some e), called st request)).
Proof.
  intros request reply. subst request reply.
  unfold resourceAwsLaunchConfigurationDelete, autoscalingconn_DeleteLaunchConfiguration.
  munfold.
  repeat split.
  - intros H. now rewrite H.
  - intros e H Hnf. now rewrite H, Hnf.
  - intros e H Hnf. now rewrite H, Hnf.
Qed.

(** C8 at a deletion answered with InvalidConfiguration.NotFound. *)
Lemma Delete_tolerates_not_found_witness :
  resourceAwsLaunchConfigurationDelete
    (Sample.services None None (Some (awserr_Error "InvalidConfiguration.NotFound" "Launch configuration name not found")) [])
    Sample.isAWSErr (Sample.start ∅)
  = (Ret None, called (Sample.start ∅) (CallDeleteLaunchConfiguration (Some EmptyString))).
Proof.
  refine (proj1 (proj2 (Delete_tolerates_not_found _ Sample.isAWSErr (Sample.start ∅))) _ _ _);
    reflexivity.
Defined.
(** ** Read *)

(** C9: when the describe request returns at least one launch
    configuration and the first one carries a name other than the
    resource's identifier, Read returns an error after that single
    request and leaves the record, identifier included, as it was. *)
Theorem Read_rejects_other_name (remote : Remote) (st : state)
    (lc : autoscaling_LaunchConfiguration)
    (others : list (option autoscaling_LaunchConfiguration)) (name : string) :
  let id := rd_Id (st_d st) in
  describeLaunchConfigurationsReply remote (st_calls st) [Some id] = (Some lc :: others, None) ->
  LaunchConfigurationName lc = Some name ->
  name <> id ->
  resourceAwsLaunchConfigurationRead remote st =
    (Ret (Some (fmt_Errorf "Unable to find launch configuration: %#v"
                  [ArgLaunchConfigurations (Some lc :: others)])),
     called st (CallDescribeLaunchConfigurations [Some id])).
Proof.
  intros id Hreply Hname Hne. subst id.
  unfold resourceAwsLaunchConfigurationRead, autoscalingconn_DescribeLaunchConfigurations.
  munfold. rewrite Hreply. cbn. rewrite Hname. cbn.
  apply String.eqb_neq in Hne. rewrite Hne. reflexivity.
Qed.

(** C9 at a record named lc-a for which the service describes lc-b. *)
Lemma Read_rejects_other_name_witness :
  let st := {| st_d := {| rd_Id := "lc-a"; rd_attrs := ∅ |}; st_calls := [] |} in
  let lc := Sample.launchConfiguration "lc-b" [] in
  resourceAwsLaunchConfigurationRead (Sample.services None None None [Some lc]) st =
    (Ret (Some (fmt_Errorf "Unable to find launch configuration: %#v"
                  [ArgLaunchConfigurations [Some lc]])),
     called st (CallDescribeLaunchConfigurations [Some "lc-a"])).
Proof.
  intros st lc.
  apply (Read_rejects_other_name (Sample.services None None None [Some lc]) st lc [] "lc-b");
    [reflexivity | reflexivity | discriminate].
Defined.
(** ** The EBS volume of a request *)

Lemma numbersCarried_intro (m : gmap string value) (ebs : autoscaling_Ebs) :
  VolumeSize ebs = setWhen (okInt (mapIndex m "volume_size")) (fun v => negb (v =? 0)) ->
  Iops ebs = setWhen (okInt (mapIndex m "iops")) (fun v => 0 <? v) ->
  numbersCarried m ebs.
Proof.
  intros Hsize Hiops. unfold mapIndex in *. repeat split.
  - intros H. now rewrite Hsize, H.
  - intros n H Hn. rewrite Hsize, H. cbn.
    destruct (Z.eqb_spec n 0); [contradiction | reflexivity].
  - intros n H Hn. rewrite Hiops, H. cbn.
    destruct (Z.ltb_spec 0 n); [lia | reflexivity].
  - intros n H Hn. rewrite Hiops, H. cbn.
    destruct (Z.ltb_spec 0 n); [reflexivity | lia].
Qed.

(** C7, as the spec states it, fails: a negative iops is not zero, yet
    it is left out of the request. *)
Lemma expandAutoscalingEbs_drops_negative_iops :
  Sample.negativeIops !! "iops" = Some (VInt (-1))
  /\ exists ebs, expandAutoscalingEbs [VMap Sample.negativeIops] = Ret (Some ebs)
                 /\ Iops ebs = None.
Proof. split; [reflexivity|]. eexists. split; reflexivity. Qed.

(** C7, amended: for every EBS description with its
    [delete_on_termination] flag, [expandAutoscalingEbs] and the
    [ebs_block_device] loop of Create build an EBS structure in which a
    zero volume size and a zero or negative iops stay unset, while a
    non-zero volume size and a positive iops are carried unchanged. *)
Theorem expandAutoscalingEbs_numbers (m : gmap string value) (deleteOnTermination : bool) :
  m !! "delete_on_termination" = Some (VBool deleteOnTermination) ->
  (exists ebs, expandAutoscalingEbs [VMap m] = Ret (Some ebs) /\ numbersCarried m ebs)
  /\ (forall rootDeviceName deviceName,
        m !! "device_name" = Some (VString deviceName) ->
        deviceName <> rootDeviceName ->
        exists ebs,
          create_ebs_block_device rootDeviceName (VMap m)
          = Ret (inl {| DeviceName := Some deviceName; Ebs := Some ebs;
                        NoDevice := None; VirtualName := None |})
          /\ numbersCarried m ebs).
Proof.
  intros Hdot. split.
  - assert (Hd : mapIndex m "delete_on_termination" = VBool deleteOnTermination)
      by (unfold mapIndex; now rewrite Hdot).
    unfold expandAutoscalingEbs. munfold. cbn [assertMap]. rewrite Hd. cbn [assertBool].
    eexists. split; [reflexivity|]. now apply numbersCarried_intro.
  - intros rootDeviceName deviceName Hname Hne.
    assert (Hd : mapIndex m "delete_on_termination" = VBool deleteOnTermination)
      by (unfold mapIndex; now rewrite Hdot).
    assert (Hn : mapIndex m "device_name" = VString deviceName)
      by (unfold mapIndex; now rewrite Hname).
    apply String.eqb_neq in Hne.
    unfold create_ebs_block_device. munfold. cbn [assertMap].
    rewrite Hd, Hn. cbn [assertBool assertString]. rewrite Hne.
    eexists. split; [reflexivity|]. now apply numbersCarried_intro.
Qed.

(** C7, amended, at an EBS description with 8 GiB and 100 iops. *)
Lemma expandAutoscalingEbs_numbers_witness :
  exists ebs, expandAutoscalingEbs [VMap Sample.ebsVolume] = Ret (Some ebs)
              /\ numbersCarried Sample.ebsVolume ebs.
Proof.
  exact (proj1 (expandAutoscalingEbs_numbers Sample.ebsVolume true eq_refl)).
Defined.
(** ** What [d.Get] returns *)

Lemma Get_string (d : ResourceData) (k : string) (s : Schema) :
  lookupKey k resourceAwsLaunchConfiguration_Schema = Some s ->
  Type_ s = TypeString -> defaultOf s = None ->
  exists str, Get d k = VString str.
Proof.
  intros Hk Hty Hdef. unfold Get. rewrite Hk, Hty, Hdef.
  destruct (rd_attrs d !! k) as [v|]; [destruct v|]; cbn; eauto.
Qed.

Lemma Get_bool (d : ResourceData) (k : string) (s : Schema) (b0 : bool) :
  lookupKey k resourceAwsLaunchConfiguration_Schema = Some s ->
  Type_ s = TypeBool ->
  default (VBool false) (defaultOf s) = VBool b0 ->
  exists b, Get d k = VBool b.
Proof.
  intros Hk Hty Hdef. unfold Get. rewrite Hk, Hty. cbn [zeroValue]. rewrite Hdef.
  destruct (rd_attrs d !! k) as [v|]; [destruct v|]; cbn; eauto.
Qed.

Lemma Get_set (d : ResourceData) (k : string) (s : Schema) :
  lookupKey k resourceAwsLaunchConfiguration_Schema = Some s ->
  Type_ s = TypeSet -> defaultOf s = None ->
  exists l, Get d k = VSet l.
Proof.
  intros Hk Hty Hdef. unfold Get. rewrite Hk, Hty, Hdef.
  destruct (rd_attrs d !! k) as [v|]; [destruct v|]; cbn; eauto.
Qed.

Lemma Get_list (d : ResourceData) (k : string) (s : Schema) :
  lookupKey k resourceAwsLaunchConfiguration_Schema = Some s ->
  Type_ s = TypeList -> defaultOf s = None ->
  exists l, Get d k = VList l.
Proof.
  intros Hk Hty Hdef. unfold Get. rewrite Hk, Hty, Hdef.
  destruct (rd_attrs d !! k) as [v|]; [destruct v|]; cbn; eauto.
Qed.

Lemma getString_image_id (st : state) :
  getString "image_id" st = (Ret (imageIdOf (st_d st)), st).
Proof.
  unfold getString, imageIdOf. munfold.
  destruct (Get_string (st_d st) "image_id" _ eq_refl eq_refl eq_refl) as [s Hs].
  now rewrite Hs.
Qed.
(** ** Reading the block devices back *)

Lemma isRootMapping_classOf (root : string) (bdm : autoscaling_BlockDeviceMapping) :
  isRootMapping root bdm = bool_decide (classOf root bdm = RootDevice).
Proof.
  unfold isRootMapping, classOf.
  destruct (DeviceName bdm) as [n|]; [destruct (String.eqb_spec n root) as [->|Hne]|];
    repeat case_bool_decide; destruct (VirtualName bdm); congruence.
Qed.

Lemma putIf_lookup_ne (k k' : string) (p : option value) (m : gmap string value) :
  k <> k' -> putIf k p m !! k' = m !! k'.
Proof. intros Hne. destruct p; cbn; [now rewrite lookup_insert_ne | reflexivity]. Qed.

Lemma putIf_lookup_eq (k : string) (p : option value) (m : gmap string value) :
  m !! k = None -> putIf k p m !! k = p.
Proof. intros Hm. destruct p; cbn; [now rewrite lookup_insert_eq | exact Hm]. Qed.

Lemma readBlockDevice_common_names (bdm : autoscaling_BlockDeviceMapping) :
  readBlockDevice_common bdm !! "device_name" = None
  /\ readBlockDevice_common bdm !! "virtual_name" = None.
Proof.
  unfold readBlockDevice_common. split; now rewrite !putIf_lookup_ne by discriminate.
Qed.

Lemma descriptionOf_describes (bdm : autoscaling_BlockDeviceMapping) :
  describes bdm (descriptionOf bdm).
Proof.
  destruct (readBlockDevice_common_names bdm) as [Hd Hv].
  unfold describes, descriptionOf.
  destruct (VirtualName bdm) as [vn|] eqn:Hvn; cbn.
  - unfold ephemeralDescription. split.
    + rewrite lookup_insert_ne by discriminate.
      rewrite putIf_lookup_eq; [reflexivity|]. now rewrite putIf_lookup_ne by discriminate.
    + now rewrite lookup_insert_eq.
  - unfold ebsDescription. split.
    + rewrite putIf_lookup_ne by discriminate.
      rewrite putIf_lookup_eq; [reflexivity|]. now rewrite putIf_lookup_ne by discriminate.
    + now rewrite !putIf_lookup_ne by discriminate.
Qed.

(** The loop, from any map whose three entries are in place. *)
Lemma readBlockDevices_loop_spec (root : string) (bdms : list autoscaling_BlockDeviceMapping) :
  forall (m : gmap string value) (ebs eph : list (gmap string value)) (r : value),
    m !! "ebs" = Some (VMaps ebs) ->
    m !! "ephemeral" = Some (VMaps eph) ->
    m !! "root" = Some r ->
    exists m',
      readBlockDevices_loop root (Some <$> bdms) m = Ret m'
      /\ m' !! "ebs" = Some (VMaps (ebs ++ (descriptionOf <$> devicesOf EbsDevice root bdms)))
      /\ m' !! "ephemeral"
         = Some (VMaps (eph ++ (descriptionOf <$> devicesOf EphemeralDevice root bdms)))
      /\ m' !! "root"
         = Some (default r ((fun bdm => VMap (readBlockDevice_common bdm))
                              <$> last (devicesOf RootDevice root bdms))).
Proof.
  induction bdms as [|bdm bdms IH]; intros m ebs eph r Hebs Heph Hroot.
  - exists m. cbn. rewrite !app_nil_r. auto.
  - cbn [fmap list_fmap readBlockDevices_loop deref]. munfold.
    rewrite isRootMapping_classOf. unfold devicesOf in *.
    destruct (classOf root bdm) eqn:Hclass.
    + rewrite bool_decide_eq_true_2 by reflexivity.
      edestruct (IH (<["root" := VMap (readBlockDevice_common bdm)]> m) ebs eph)
        as (m' & Hrun & He & Hp & Hr).
      * now rewrite lookup_insert_ne by discriminate.
      * now rewrite lookup_insert_ne by discriminate.
      * now rewrite lookup_insert_eq.
      * exists m'. split; [exact Hrun|].
        rewrite (filter_cons_False (fun b => classOf root b = EbsDevice)) by congruence.
        rewrite (filter_cons_False (fun b => classOf root b = EphemeralDevice)) by congruence.
        rewrite (filter_cons_True (fun b => classOf root b = RootDevice)) by assumption.
        repeat split; [exact He | exact Hp |].
        rewrite Hr. f_equal.
        destruct (filter (fun b => classOf root b = RootDevice) bdms) as [|x l] eqn:Hf;
          [reflexivity|].
        rewrite last_cons_cons.
        destruct (last (x :: l)) eqn:Hlast; [reflexivity|].
        now apply last_None in Hlast.
    + rewrite bool_decide_eq_false_2 by discriminate.
      assert (exists vn, VirtualName bdm = Some vn) as [vn Hvn].
      { unfold classOf in Hclass. destruct (bool_decide _); [discriminate|].
        destruct (VirtualName bdm); [eauto | discriminate]. }
      rewrite Hvn. unfold mapIndex. rewrite Heph. cbn [default assertMaps].
      edestruct (IH (<["ephemeral" := VMaps (eph ++ [ephemeralDescription bdm vn])]> m)
                    ebs (eph ++ [ephemeralDescription bdm vn]) r)
        as (m' & Hrun & He & Hp & Hr).
      * now rewrite lookup_insert_ne by discriminate.
      * now rewrite lookup_insert_eq.
      * now rewrite lookup_insert_ne by discriminate.
      * exists m'. split; [exact Hrun|].
        rewrite (filter_cons_False (fun b => classOf root b = EbsDevice)) by congruence.
        rewrite (filter_cons_True (fun b => classOf root b = EphemeralDevice)) by assumption.
        rewrite (filter_cons_False (fun b => classOf root b = RootDevice)) by congruence.
        repeat split; [exact He | | exact Hr].
        rewrite Hp, <- app_assoc. do 3 f_equal. rewrite fmap_cons.
        cbn [app]. f_equal. unfold descriptionOf. now rewrite Hvn.
    + rewrite bool_decide_eq_false_2 by discriminate.
      assert (VirtualName bdm = None) as Hvn.
      { unfold classOf in Hclass. destruct (bool_decide _); [discriminate|].
        destruct (VirtualName bdm); [discriminate | reflexivity]. }
      rewrite Hvn. unfold mapIndex. rewrite Hebs. cbn [default assertMaps].
      edestruct (IH (<["ebs" := VMaps (ebs ++ [ebsDescription bdm])]> m)
                    (ebs ++ [ebsDescription bdm]) eph r)
        as (m' & Hrun & He & Hp & Hr).
      * now rewrite lookup_insert_eq.
      * now rewrite lookup_insert_ne by discriminate.
      * now rewrite lookup_insert_ne by discriminate.
      * exists m'. split; [exact Hrun|].
        rewrite (filter_cons_True (fun b => classOf root b = EbsDevice)) by assumption.
        rewrite (filter_cons_False (fun b => classOf root b = EphemeralDevice)) by congruence.
        rewrite (filter_cons_False (fun b => classOf root b = RootDevice)) by congruence.
        repeat split; [ | exact Hp | exact Hr].
        rewrite He, <- app_assoc. do 3 f_equal. rewrite fmap_cons.
        cbn [app]. f_equal. unfold descriptionOf. now rewrite Hvn.
Qed.

Lemma descriptions_describe (l : list autoscaling_BlockDeviceMapping) :
  Forall2 describes l (descriptionOf <$> l).
Proof.
  apply Forall2_fmap_r, Forall_Forall2_diag, Forall_forall.
  intros bdm _. apply descriptionOf_describes.
Qed.

Lemma descriptions_not_root (c : deviceClass) (root : string)
    (bdms : list autoscaling_BlockDeviceMapping) :
  c <> RootDevice ->
  Forall (fun bd : gmap string value => bd !! "device_name" <> Some (VString root))
         (descriptionOf <$> devicesOf c root bdms).
Proof.
  intros Hc. apply Forall_fmap, Forall_forall. intros bdm Hin.
  apply list_elem_of_filter in Hin as [Hclass _]. cbn.
  destruct (descriptionOf_describes bdm) as [Hname _]. rewrite Hname.
  unfold classOf in Hclass. case_bool_decide as Hroot; [congruence|].
  destruct (DeviceName bdm); cbn; congruence.
Qed.

(** What readBlockDevicesFromLaunchConfiguration returns once the
    root-device name has been looked up. *)
Lemma readBlockDevices_run (remote : Remote) (st : state)
    (lc : autoscaling_LaunchConfiguration) (bdms : list autoscaling_BlockDeviceMapping)
    (name : option string) :
  BlockDeviceMappings lc = Some <$> bdms ->
  bdms <> [] ->
  rootDeviceNameOf remote (st_calls st) (imageIdOf (st_d st)) = (name, None) ->
  let root := default EmptyString name in
  exists m : gmap string value,
    readBlockDevicesFromLaunchConfiguration remote lc st
    = (Ret (m, None), called st (CallFetchRootDeviceName (imageIdOf (st_d st))))
    /\ m !! "ebs" = Some (VMaps (descriptionOf <$> devicesOf EbsDevice root bdms))
    /\ m !! "ephemeral" = Some (VMaps (descriptionOf <$> devicesOf EphemeralDevice root bdms))
    /\ m !! "root"
       = Some (default VNil ((fun bdm => VMap (readBlockDevice_common bdm))
                               <$> last (devicesOf RootDevice root bdms))).
Proof.
  intros Hlc Hne Hreply root.
  destruct (readBlockDevices_loop_spec root bdms
              (<["root" := VNil]> (<["ephemeral" := VMaps []]> (<["ebs" := VMaps []]> ∅)))
              [] [] VNil) as (m & Hrun & Hebs & Heph & Hroot); [reflexivity..|].
  exists m. split; [|repeat split; assumption].
  unfold readBlockDevicesFromLaunchConfiguration. rewrite Hlc.
  destruct bdms as [|bdm bdms']; [contradiction|]. rewrite fmap_cons.
  rewrite <- (fmap_cons Some bdm bdms').
  change ((v ← d_Get "image_id"; lift (assertString v)) : M string)
    with (getString "image_id").
  rewrite (bind_run _ _ _ _ _ (getString_image_id st)).
  unfold fetchRootDeviceName. rewrite (bind_run _ _ _ _ _ (issue_run _ _ st)).
  rewrite Hreply. fold root. munfold. now rewrite Hrun.
Qed.

(** C6: when the launch configuration has block-device mappings and the
    lookup of the image's root-device name succeeds (no name counting
    as the empty name), readBlockDevicesFromLaunchConfiguration returns
    a map in which the EBS list describes, in order, exactly the
    mappings that are not named as the root device and have no virtual
    name, the ephemeral list exactly those that are not named as the
    root device and have a virtual name, and the root entry is filled
    from the mappings named as the root device (the last one, when
    there are several) and is nil when there is none; no description in
    either list carries the root-device name. *)
Theorem readBlockDevices_classifies (remote : Remote) (st : state)
    (lc : autoscaling_LaunchConfiguration) (bdms : list autoscaling_BlockDeviceMapping)
    (name : option string) :
  BlockDeviceMappings lc = Some <$> bdms ->
  bdms <> [] ->
  rootDeviceNameOf remote (st_calls st) (imageIdOf (st_d st)) = (name, None) ->
  let root := default EmptyString name in
  exists (m : gmap string value) (ebs eph : list (gmap string value)),
    readBlockDevicesFromLaunchConfiguration remote lc st
    = (Ret (m, None), called st (CallFetchRootDeviceName (imageIdOf (st_d st))))
    /\ m !! "ebs" = Some (VMaps ebs)
    /\ m !! "ephemeral" = Some (VMaps eph)
    /\ Forall2 describes (devicesOf EbsDevice root bdms) ebs
    /\ Forall2 describes (devicesOf EphemeralDevice root bdms) eph
    /\ m !! "root"
       = Some (default VNil ((fun bdm => VMap (readBlockDevice_common bdm))
                               <$> last (devicesOf RootDevice root bdms)))
    /\ Forall (fun bd : gmap string value => bd !! "device_name" <> Some (VString root))
              (ebs ++ eph).
Proof.
  intros Hlc Hne Hreply root.
  destruct (readBlockDevices_run remote st lc bdms name Hlc Hne Hreply)
    as (m & Hrun & Hebs & Heph & Hroot).
  exists m, (descriptionOf <$> devicesOf EbsDevice root bdms),
    (descriptionOf <$> devicesOf EphemeralDevice root bdms).
  repeat split; try assumption.
  - apply descriptions_describe.
  - apply descriptions_describe.
  - apply Forall_app. split; now apply descriptions_not_root.
Qed.

(** C6 at a launch configuration with /dev/sdb, the root device
    /dev/sda1 and an ephemeral device. *)
Lemma readBlockDevices_classifies_witness :
  let lc := Sample.launchConfiguration "lc" [Some Sample.sdb; Some Sample.sda1;
                                              Some Sample.ephemeral0] in
  let st := Sample.start Sample.baseAttrs in
  exists (m : gmap string value) (ebs eph : list (gmap string value)),
    readBlockDevicesFromLaunchConfiguration
      (Sample.services (Some "/dev/sda1") None None []) lc st
    = (Ret (m, None), called st (CallFetchRootDeviceName "ami-0abc"))
    /\ m !! "ebs" = Some (VMaps ebs)
    /\ m !! "ephemeral" = Some (VMaps eph)
    /\ Forall2 describes [Sample.sdb] ebs
    /\ Forall2 describes [Sample.ephemeral0] eph
    /\ m !! "root" = Some (VMap (readBlockDevice_common Sample.sda1))
    /\ Forall (fun bd : gmap string value => bd !! "device_name" <> Some (VString "/dev/sda1"))
              (ebs ++ eph).
Proof.
  intros lc st.
  exact (readBlockDevices_classifies (Sample.services (Some "/dev/sda1") None None []) st lc
           [Sample.sdb; Sample.sda1; Sample.ephemeral0] (Some "/dev/sda1")
           eq_refl ltac:(discriminate) eq_refl).
Defined.
(** ** Translating [block_device_mapping] to the request *)

(** Every element of the slice made by
    [make([]*autoscaling.BlockDeviceMapping, len(in), len(in))] is the
    nil pointer: a store through any of them panics. *)
Lemma assignThrough_fresh (n i : nat)
    (store : autoscaling_BlockDeviceMapping -> autoscaling_BlockDeviceMapping) :
  assignThrough (replicate n None) i store = Panic.
Proof.
  unfold assignThrough.
  destruct (replicate n None !! i) as [p|] eqn:Hi; [|reflexivity].
  apply lookup_replicate in Hi as [-> _]. reflexivity.
Qed.

Lemma store_fresh {A} (o : outcome A) (n i : nat)
    (store : A -> autoscaling_BlockDeviceMapping -> autoscaling_BlockDeviceMapping)
    (st : state) :
  (x ← lift o; lift (assignThrough (replicate n None) i (store x))) st = (Panic, st).
Proof. destruct o; munfold; [now rewrite assignThrough_fresh | reflexivity]. Qed.

(** One turn of the loop on the fresh slice: it panics, or the element
    has none of the keys and the slice is left as it was. *)
Lemma expand_entry_fresh (remote : Remote) (amiId : string) (i n : nat) (bdm : value)
    (st : state) :
  let r := expand_entry remote amiId i bdm (replicate n None) st in
  r.1 = Panic
  \/ (r.1 = Ret (replicate n None, None) /\ exists m, bdm = VMap m /\ ~ storesField m).
Proof.
  unfold expand_entry.
  destruct bdm as [| | | | | | |m|]; try (left; reflexivity).
  cbn [assertMap]. munfold. unfold fetchRootDeviceName, issue.
  destruct (m !! "is_root_device") as [v|] eqn:Hroot.
  - destruct v as [| |[|]| | | | | |]; try (left; reflexivity).
    + left. cbn. destruct (rootDeviceNameOf _ _ _). now rewrite assignThrough_fresh.
    + cbn.
      destruct (m !! "device_name") as [v1|] eqn:H1.
      { left. destruct v1; cbn; try reflexivity. now rewrite assignThrough_fresh. }
      destruct (m !! "ebs") as [v2|] eqn:H2.
      { left. destruct (assertList v2) as [l|]; cbn; [|reflexivity].
        destruct (expandAutoscalingEbs l); cbn; [|reflexivity].
        now rewrite assignThrough_fresh. }
      destruct (m !! "no_device") as [v3|] eqn:H3.
      { left. destruct v3; cbn; try reflexivity. now rewrite assignThrough_fresh. }
      destruct (m !! "virtual_name") as [v4|] eqn:H4.
      { left. destruct v4; cbn; try reflexivity. now rewrite assignThrough_fresh. }
      right. split; [reflexivity|]. exists m. split; [reflexivity|].
      unfold storesField. rewrite Hroot, H1, H2, H3, H4.
      intros [?|[[? ?]|[[? ?]|[[? ?]|[? ?]]]]]; discriminate.
  - cbn.
    destruct (m !! "device_name") as [v1|] eqn:H1.
    { left. destruct v1; cbn; try reflexivity. now rewrite assignThrough_fresh. }
    destruct (m !! "ebs") as [v2|] eqn:H2.
    { left. destruct (assertList v2) as [l|]; cbn; [|reflexivity].
      destruct (expandAutoscalingEbs l); cbn; [|reflexivity].
      now rewrite assignThrough_fresh. }
    destruct (m !! "no_device") as [v3|] eqn:H3.
    { left. destruct v3; cbn; try reflexivity. now rewrite assignThrough_fresh. }
    destruct (m !! "virtual_name") as [v4|] eqn:H4.
    { left. destruct v4; cbn; try reflexivity. now rewrite assignThrough_fresh. }
    right. split; [reflexivity|]. exists m. split; [reflexivity|].
    unfold storesField. rewrite Hroot, H1, H2, H3, H4.
    intros [?|[[? ?]|[[? ?]|[[? ?]|[? ?]]]]]; discriminate.
Qed.

Lemma expand_loop_fresh (remote : Remote) (amiId : string) (n : nat) (inp : list value) :
  forall (i : nat) (st : state),
    let r := expand_loop remote amiId i inp (replicate n None) st in
    r.1 = Panic
    \/ (r.1 = Ret (replicate n None, None)
        /\ Forall (fun bdm => exists m, bdm = VMap m /\ ~ storesField m) inp).
Proof.
  induction inp as [|bdm rest IH]; intros i st; cbn zeta.
  - right. split; [reflexivity | constructor].
  - cbn [expand_loop].
    pose proof (expand_entry_fresh remote amiId i n bdm st) as Hentry. cbn zeta in Hentry.
    destruct (expand_entry remote amiId i bdm (replicate n None) st) as [o st'] eqn:Hrun.
    cbn [fst] in Hentry. destruct Hentry as [->|[-> Hbdm]].
    + left. now rewrite (bind_panic _ _ _ _ Hrun).
    + rewrite (bind_run _ _ _ _ _ Hrun).
      destruct (IH (S i) st') as [Hrest|[Hrest Hall]].
      * left. exact Hrest.
      * right. split; [exact Hrest | now constructor].
Qed.

(** expandAutoscalingBlockDeviceMappings never returns a mapping: on a
    list that is not empty and does not start with nil it panics, or
    returns as many nil pointers as the list has elements (when no
    element has any of the keys). *)
Lemma expand_fresh (remote : Remote) (amiId : string) (inp : list value) (st : state) :
  inp <> [] -> head inp <> Some VNil ->
  let r := expandAutoscalingBlockDeviceMappings remote inp amiId st in
  r.1 = Panic
  \/ (r.1 = Ret (replicate (length inp) None, None)
      /\ Forall (fun bdm => exists m, bdm = VMap m /\ ~ storesField m) inp).
Proof.
  intros Hne Hhead.
  destruct inp as [|v rest]; [contradiction|].
  unfold expandAutoscalingBlockDeviceMappings.
  destruct v; try apply expand_loop_fresh. now contradiction Hhead.
Qed.

(** The first turn of the loop of flattenAutoscalingBlockDeviceMappings
    on a nil pointer panics. *)
Lemma flatten_nil_pointer (remote : Remote) (amiId : string)
    (rest : list (option autoscaling_BlockDeviceMapping)) (st : state) :
  flattenAutoscalingBlockDeviceMappings remote (None :: rest) amiId st = (Panic, st).
Proof. reflexivity. Qed.

(** C3 fails on the code: for every list of [block_device_mapping]
    elements that is not empty and does not start with nil, the
    translation to the SDK's form and back panics, so that no device
    name, size, type, iops or root flag comes back. *)
Theorem expand_then_flatten_panics (remote : Remote) (inp : list value) (amiId : string)
    (st : state) :
  inp <> [] -> head inp <> Some VNil ->
  (expand_then_flatten remote inp amiId st).1 = Panic.
Proof.
  intros Hne Hhead. unfold expand_then_flatten.
  pose proof (expand_fresh remote amiId inp st Hne Hhead) as Hexp. cbn zeta in Hexp.
  destruct (expandAutoscalingBlockDeviceMappings remote inp amiId st) as [o st'] eqn:Hrun.
  cbn [fst] in Hexp. destruct Hexp as [->|[-> _]].
  - now rewrite (bind_panic _ _ _ _ Hrun).
  - rewrite (bind_run _ _ _ _ _ Hrun).
    destruct inp as [|v rest]; [contradiction|]. cbn [length replicate].
    now rewrite flatten_nil_pointer.
Qed.

(** C3 at one mapping of /dev/sdb to a 10 GiB volume. *)
Lemma expand_then_flatten_panics_witness :
  (expand_then_flatten (Sample.services (Some "/dev/sda1") None None [])
     [VMap Sample.mapping] "ami-0abc" (Sample.start Sample.withMapping)).1 = Panic.
Proof.
  apply expand_then_flatten_panics; discriminate.
Defined.
(** ** Create: reading the attributes *)

Lemma Get_stored (d : ResourceData) (k : string) (s : Schema) (v : value) :
  lookupKey k resourceAwsLaunchConfiguration_Schema = Some s ->
  rd_attrs d !! k = Some v -> hasType (Type_ s) v = true ->
  Get d k = v.
Proof. intros Hk Hv Hty. unfold Get. now rewrite Hk, Hv, Hty. Qed.

Lemma getString_readsOnly (k : string) (s : Schema) :
  lookupKey k resourceAwsLaunchConfiguration_Schema = Some s ->
  Type_ s = TypeString -> defaultOf s = None ->
  readsOnly (getString k).
Proof.
  intros Hk Hty Hdef st. unfold getString. munfold.
  destruct (Get_string (st_d st) k s Hk Hty Hdef) as [x Hx]. rewrite Hx. eauto.
Qed.

Lemma getBool_readsOnly (k : string) (s : Schema) (b0 : bool) :
  lookupKey k resourceAwsLaunchConfiguration_Schema = Some s ->
  Type_ s = TypeBool -> default (VBool false) (defaultOf s) = VBool b0 ->
  readsOnly (getBool k).
Proof.
  intros Hk Hty Hdef st. unfold getBool. munfold.
  destruct (Get_bool (st_d st) k s b0 Hk Hty Hdef) as [x Hx]. rewrite Hx. eauto.
Qed.

Lemma whenOk_string_readsOnly {B} (k : string) (s : Schema) (conv : string -> B) (unset : B) :
  lookupKey k resourceAwsLaunchConfiguration_Schema = Some s ->
  Type_ s = TypeString -> defaultOf s = None ->
  readsOnly (whenOk k assertString conv unset).
Proof.
  intros Hk Hty Hdef st. unfold whenOk. munfold. unfold GetOk. cbn beta iota.
  destruct (Get_string (st_d st) k s Hk Hty Hdef) as [x Hx]. rewrite Hx.
  destruct (negb _); eauto.
Qed.

Lemma whenOk_bool_readsOnly {B} (k : string) (s : Schema) (b0 : bool)
    (conv : bool -> B) (unset : B) :
  lookupKey k resourceAwsLaunchConfiguration_Schema = Some s ->
  Type_ s = TypeBool -> default (VBool false) (defaultOf s) = VBool b0 ->
  readsOnly (whenOk k assertBool conv unset).
Proof.
  intros Hk Hty Hdef st. unfold whenOk. munfold. unfold GetOk. cbn beta iota.
  destruct (Get_bool (st_d st) k s b0 Hk Hty Hdef) as [x Hx]. rewrite Hx.
  destruct (negb _); eauto.
Qed.

Lemma whenOk_set_readsOnly {B} (k : string) (s : Schema) (conv : list value -> B) (unset : B) :
  lookupKey k resourceAwsLaunchConfiguration_Schema = Some s ->
  Type_ s = TypeSet -> defaultOf s = None ->
  readsOnly (whenOk k assertSet conv unset).
Proof.
  intros Hk Hty Hdef st. unfold whenOk. munfold. unfold GetOk. cbn beta iota.
  destruct (Get_set (st_d st) k s Hk Hty Hdef) as [x Hx]. rewrite Hx.
  destruct (negb _); eauto.
Qed.

Lemma bind_readsOnly {A B} (m : M A) (k : A -> M B) (st : state) :
  readsOnly m -> exists a, (m ≫= k) st = k a st.
Proof. intros Hm. destruct (Hm st) as [a Ha]. exists a. now apply bind_run. Qed.

(** Steps over one attribute read at the head of the goal. *)
Ltac read_attribute :=
  match goal with
  | |- context [mbind ?k ?m ?st] =>
      let a := fresh "a" in
      let Ha := fresh "Ha" in
      destruct (bind_readsOnly m k st) as [a Ha];
      [ first [ eapply getString_readsOnly | eapply getBool_readsOnly
              | eapply whenOk_string_readsOnly | eapply whenOk_bool_readsOnly
              | eapply whenOk_set_readsOnly ]; reflexivity
      | rewrite Ha; clear Ha ]
  end.

(** Create reads its first fourteen attributes and goes on to the
    block devices (lines 369-418 never fail). *)
Lemma create_request_attributes (remote : Remote) (base64Encode : string -> string)
    (expandStringList : list value -> list (option string))
    (uid : string) (puid : string -> string) (st : state) :
  exists rest,
    create_request remote base64Encode expandStringList uid puid st
    = (create_block_device_mappings remote ≫= rest) st
    /\ (forall bdms e st', rest (bdms, Some e) st' = (Ret (inr e), st'))
    /\ (forall bdms st', exists opts lcName,
          rest (bdms, None) st' = (Ret (inl (opts, lcName)), st')
          /\ opts_BlockDeviceMappings opts = bdms
          /\ opts_LaunchConfigurationName opts = Some lcName).
Proof.
  unfold create_request.
  do 14 read_attribute.
  eexists. split; [reflexivity|]. split.
  - reflexivity.
  - intros bdms st'. cbn beta iota.
    match goal with
    | |- context [mbind ?k ?m ?s] => destruct (bind_readsOnly m k s) as [lcName Hname]
    end.
    + intros st0. munfold. unfold GetOk. cbn beta iota.
      destruct (Get_string (st_d st0) "name" _ eq_refl eq_refl eq_refl) as [x Hx].
      destruct (Get_string (st_d st0) "name_prefix" _ eq_refl eq_refl eq_refl) as [y Hy].
      rewrite Hx. destruct (negb _); cbn beta iota; [eauto|].
      rewrite Hy. destruct (negb _); cbn beta iota; eauto.
    + rewrite Hname. eexists _, lcName. split; [reflexivity|]. split; reflexivity.
Qed.
(** ** Create: the block devices *)

(** Create with a [block_device_mapping]: the set read from the record
    is asserted to be a list, which panics before any call. *)
Lemma create_block_device_mappings_set (remote : Remote) (st : state) (l : list value) :
  rd_attrs (st_d st) !! "block_device_mapping" = Some (VSet l) -> l <> [] ->
  create_block_device_mappings remote st = (Panic, st).
Proof.
  intros Hl Hne. unfold create_block_device_mappings.
  assert (Hok : d_GetOk "block_device_mapping" st = (Ret (VSet l, true), st)).
  { unfold d_GetOk, GetOk.
    rewrite (Get_stored (st_d st) "block_device_mapping" _ (VSet l) eq_refl Hl eq_refl).
    destruct l; [contradiction | reflexivity]. }
  rewrite (bind_run _ _ _ _ _ Hok). cbn beta iota.
  rewrite (bind_run _ _ _ _ _ (getString_image_id st)).
  reflexivity.
Qed.

Lemma create_ebs_block_device_wellFormed (root : string) (v : value) :
  wellFormedEbs v ->
  (namesDevice root v /\ create_ebs_block_device root v = Ret (inr (rootAsEbsError root)))
  \/ (~ namesDevice root v /\ exists bdm, create_ebs_block_device root v = Ret (inl bdm)).
Proof.
  intros (m & b & n & -> & Hdot & Hname).
  assert (Hd : mapIndex m "delete_on_termination" = VBool b)
    by (unfold mapIndex; now rewrite Hdot).
  assert (Hn : mapIndex m "device_name" = VString n)
    by (unfold mapIndex; now rewrite Hname).
  unfold create_ebs_block_device. munfold. cbn [assertMap].
  rewrite Hd, Hn. cbn [assertBool assertString].
  destruct (String.eqb_spec n root) as [->|Hne].
  - left. split; [now exists m | reflexivity].
  - right. split; [|eauto]. intros (m' & Hm' & Hname'). congruence.
Qed.

Lemma create_ebs_block_devices_root (root : string) (vL : list value) :
  Forall wellFormedEbs vL -> Exists (namesDevice root) vL ->
  forall blockDevices,
    exists blockDevices',
      create_ebs_block_devices root vL blockDevices
      = Ret (blockDevices', Some (rootAsEbsError root)).
Proof.
  intros Hwf Hex. induction Hwf as [|v vL Hv Hwf IH]; intros blockDevices.
  - inversion Hex.
  - cbn [create_ebs_block_devices]. munfold.
    destruct (create_ebs_block_device_wellFormed root v Hv) as [[_ ->]|[Hnot [bdm ->]]].
    + eauto.
    + apply Exists_cons in Hex as [Hhere|Hlater]; [contradiction|].
      apply (IH Hlater).
Qed.

(** The block-device part of Create when the root device is declared
    as an [ebs_block_device]: the root-device name of the image is
    looked up, and the error is returned. *)
Lemma create_block_device_mappings_root_as_ebs (remote : Remote) (st : state)
    (vL : list value) (name : option string) :
  (GetOk (st_d st) "block_device_mapping").2 = false ->
  Get (st_d st) "ebs_block_device" = VSet vL ->
  Forall wellFormedEbs vL ->
  rootDeviceNameOf remote (st_calls st) (imageIdOf (st_d st)) = (name, None) ->
  Exists (namesDevice (default EmptyString name)) vL ->
  create_block_device_mappings remote st
  = (Ret ([], Some (rootAsEbsError (default EmptyString name))),
     called st (CallFetchRootDeviceName (imageIdOf (st_d st)))).
Proof.
  intros Hbdm Hebs Hwf Hreply Hex. unfold create_block_device_mappings.
  assert (Hok : d_GetOk "block_device_mapping" st
                = (Ret (Get (st_d st) "block_device_mapping", false), st)).
  { unfold d_GetOk. f_equal. f_equal. unfold GetOk in *. cbn [snd] in Hbdm. now rewrite Hbdm. }
  rewrite (bind_run _ _ _ _ _ Hok). cbn beta iota.
  rewrite (bind_run _ _ _ _ _ (getString_image_id st)).
  unfold fetchRootDeviceName. rewrite (bind_run _ _ _ _ _ (issue_run _ _ st)).
  rewrite Hreply. cbn beta iota zeta.
  destruct (create_ebs_block_devices_root _ vL Hwf Hex []) as [bds Hloop].
  munfold. unfold GetOk. cbn [called st_d]. rewrite Hebs.
  destruct vL as [|v vL']; [inversion Hex|]. cbn [isZero negb assertSet].
  now rewrite Hloop.
Qed.

Section Create.

Variable remote : Remote.
Variable isAWSErr : error -> string -> string -> bool.
Variable base64Encode : string -> string.
Variable expandStringList : list value -> list (option string).
Variable resource_UniqueId : string.
Variable resource_PrefixedUniqueId : string -> string.
Variable attemptsWithin : Z -> nat.

Let Create : M (option error) :=
  resourceAwsLaunchConfigurationCreate remote isAWSErr base64Encode expandStringList
    resource_UniqueId resource_PrefixedUniqueId attemptsWithin.

(** Create ends where its block-device part panics or returns an
    error. *)
Lemma Create_stops_at_block_devices (st st' : state) :
  (create_block_device_mappings remote st = (Panic, st') -> Create st = (Panic, st'))
  /\ (forall bdms e,
        create_block_device_mappings remote st = (Ret (bdms, Some e), st') ->
        Create st = (Ret (Some e), st')).
Proof.
  unfold Create, resourceAwsLaunchConfigurationCreate.
  destruct (create_request_attributes remote base64Encode expandStringList
              resource_UniqueId resource_PrefixedUniqueId st)
    as (rest & Hrun & Herr & _).
  split.
  - intros Hpanic. apply bind_panic. rewrite Hrun. now apply bind_panic.
  - intros bdms e Hret.
    assert (Hreq : create_request remote base64Encode expandStringList
                     resource_UniqueId resource_PrefixedUniqueId st
                   = (Ret (inr e), st')).
    { rewrite Hrun, (bind_run _ _ _ _ _ Hret). apply Herr. }
    now rewrite (bind_run _ _ _ _ _ Hreq).
Qed.

(** C4: for every record whose [block_device_mapping] is a non-empty
    set, Create panics without having issued any remote call, the
    creation request included; and expandAutoscalingBlockDeviceMappings
    itself panics on every list whose first element sets one of the
    keys it stores, since the elements of its output slice are nil. *)
Theorem Create_block_device_mapping_panics (st : state) (l : list value) :
  rd_attrs (st_d st) !! "block_device_mapping" = Some (VSet l) -> l <> [] ->
  Create st = (Panic, st)
  /\ (forall (m : gmap string value) (rest : list value) (amiId : string) (st' : state),
        storesField m ->
        (expandAutoscalingBlockDeviceMappings remote (VMap m :: rest) amiId st').1 = Panic).
Proof.
  intros Hl Hne. split.
  - apply Create_stops_at_block_devices. now apply (create_block_device_mappings_set _ _ l).
  - intros m rest amiId st' Hm.
    destruct (expand_fresh remote amiId (VMap m :: rest) st') as [Hp|[_ Hall]];
      [discriminate | discriminate | exact Hp |].
    apply Forall_cons in Hall as [(m' & Heq & Hnot) _].
    injection Heq as <-. contradiction.
Qed.

(** C1, amended: when [block_device_mapping] is not set, the elements
    of [ebs_block_device] are shaped as the schema has them and one of
    them names the image's root device (the empty name when the image
    has none), Create looks the root-device name up and then returns
    the error; the lookup is the only remote call, no request goes to
    the Auto Scaling service and the record is left as it was. *)
Theorem Create_rejects_root_as_ebs (st : state) (vL : list value) (name : option string) :
  (GetOk (st_d st) "block_device_mapping").2 = false ->
  Get (st_d st) "ebs_block_device" = VSet vL ->
  Forall wellFormedEbs vL ->
  rootDeviceNameOf remote (st_calls st) (imageIdOf (st_d st)) = (name, None) ->
  Exists (namesDevice (default EmptyString name)) vL ->
  Create st
  = (Ret (Some (rootAsEbsError (default EmptyString name))),
     called st (CallFetchRootDeviceName (imageIdOf (st_d st)))).
Proof.
  intros Hbdm Hebs Hwf Hreply Hex.
  eapply Create_stops_at_block_devices.
  now apply (create_block_device_mappings_root_as_ebs remote st vL name).
Qed.

End Create.

(** C4 at a record with one [block_device_mapping]. *)
Lemma Create_block_device_mapping_panics_witness :
  Sample.create (Sample.services (Some "/dev/sda1") None None [])
    (Sample.start Sample.withMapping)
  = (Panic, Sample.start Sample.withMapping).
Proof.
  refine (proj1 (Create_block_device_mapping_panics _ _ _ _ _ _ _
                   (Sample.start Sample.withMapping) [VMap Sample.mapping] _ _));
    [reflexivity | discriminate].
Defined.

(** C1, as the spec states it, fails: the rejection comes after a
    remote call, the lookup of the image's root-device name. *)
Lemma Create_rejects_after_lookup :
  let r := Sample.create (Sample.services (Some "/dev/sda1") None None [])
             (Sample.start Sample.rootAsEbs) in
  r.1 = Ret (Some (rootAsEbsError "/dev/sda1"))
  /\ st_calls r.2 = [CallFetchRootDeviceName "ami-0abc"]
  /\ st_calls r.2 <> [].
Proof. vm_compute. repeat split. discriminate. Qed.

(** C1, amended, at the same record. *)
Lemma Create_rejects_root_as_ebs_witness :
  Sample.create (Sample.services (Some "/dev/sda1") None None [])
    (Sample.start Sample.rootAsEbs)
  = (Ret (Some (rootAsEbsError "/dev/sda1")),
     called (Sample.start Sample.rootAsEbs) (CallFetchRootDeviceName "ami-0abc")).
Proof.
  refine (Create_rejects_root_as_ebs _ _ _ _ _ _ _ (Sample.start Sample.rootAsEbs)
            [VMap (<["device_name" := VString "/dev/sda1"]>
                     (<["delete_on_termination" := VBool true]> ∅))]
            (Some "/dev/sda1") _ _ _ _ _).
  - reflexivity.
  - reflexivity.
  - constructor; [|constructor]. eexists _, true, "/dev/sda1". repeat split; reflexivity.
  - reflexivity.
  - constructor. eexists. split; reflexivity.
Defined.
(** ** An image without a root-device name *)

Lemma flatten_without_root_name (remote : Remote) (st : state) (amiId : string)
    (bdm : autoscaling_BlockDeviceMapping)
    (rest : list (option autoscaling_BlockDeviceMapping)) (n : string) :
  rootDeviceNameOf remote (st_calls st) amiId = (None, None) ->
  DeviceName bdm = Some n ->
  flattenAutoscalingBlockDeviceMappings remote (Some bdm :: rest) amiId st
  = (Panic, called st (CallFetchRootDeviceName amiId)).
Proof.
  intros Hreply Hname.
  unfold flattenAutoscalingBlockDeviceMappings. cbn [flatten_loop].
  unfold flatten_entry, fetchRootDeviceName. munfold. cbn [deref].
  rewrite Hname, Hreply. reflexivity.
Qed.

(** C10: on an image whose root-device-name lookup yields neither a
    name nor an error, flattenAutoscalingBlockDeviceMappings panics at
    the first mapping that has a device name, right after the lookup,
    whereas readBlockDevicesFromLaunchConfiguration goes on with the
    empty name (its root entry is filled from the mappings named by the
    empty string) and so does Create (an [ebs_block_device] with the
    empty device name is rejected as the root device). *)
Theorem flatten_panics_without_root_name (remote : Remote) :
  (forall calls amiId, rootDeviceNameOf remote calls amiId = (None, None)) ->
  (forall st amiId bdm rest n,
     DeviceName bdm = Some n ->
     flattenAutoscalingBlockDeviceMappings remote (Some bdm :: rest) amiId st
     = (Panic, called st (CallFetchRootDeviceName amiId)))
  /\ (forall st lc bdms,
        BlockDeviceMappings lc = Some <$> bdms -> bdms <> [] ->
        exists m : gmap string value,
          readBlockDevicesFromLaunchConfiguration remote lc st
          = (Ret (m, None), called st (CallFetchRootDeviceName (imageIdOf (st_d st))))
          /\ m !! "root"
             = Some (default VNil ((fun bdm => VMap (readBlockDevice_common bdm))
                                     <$> last (devicesOf RootDevice EmptyString bdms))))
  /\ (forall st vL,
        (GetOk (st_d st) "block_device_mapping").2 = false ->
        Get (st_d st) "ebs_block_device" = VSet vL ->
        Forall wellFormedEbs vL ->
        Exists (namesDevice EmptyString) vL ->
        create_block_device_mappings remote st
        = (Ret ([], Some (rootAsEbsError EmptyString)),
           called st (CallFetchRootDeviceName (imageIdOf (st_d st))))).
Proof.
  intros Hnone. repeat split.
  - intros st amiId bdm rest n Hname.
    now apply (flatten_without_root_name remote st amiId bdm rest n).
  - intros st lc bdms Hlc Hne.
    destruct (readBlockDevices_run remote st lc bdms None Hlc Hne (Hnone _ _))
      as (m & Hrun & _ & _ & Hroot).
    exists m. split; assumption.
  - intros st vL Hbdm Hebs Hwf Hex.
    now apply (create_block_device_mappings_root_as_ebs remote st vL None).
Qed.

(** C10 at the mapping of /dev/sdb, read back from a launch
    configuration whose image has no root-device name. *)
Lemma flatten_panics_without_root_name_witness :
  let remote := Sample.services None None None [] in
  let st := Sample.start Sample.baseAttrs in
  flattenAutoscalingBlockDeviceMappings remote [Some Sample.sdb] "ami-0abc" st
  = (Panic, called st (CallFetchRootDeviceName "ami-0abc"))
  /\ exists m : gmap string value,
       readBlockDevicesFromLaunchConfiguration remote
         (Sample.launchConfiguration "lc" [Some Sample.sdb]) st
       = (Ret (m, None), called st (CallFetchRootDeviceName "ami-0abc"))
       /\ m !! "root" = Some VNil.
Proof.
  intros remote st.
  pose proof (flatten_panics_without_root_name remote (fun _ _ => eq_refl)) as [Hf [Hr _]].
  split.
  - exact (Hf st "ami-0abc" Sample.sdb [] "/dev/sdb" eq_refl).
  - exact (Hr st (Sample.launchConfiguration "lc" [Some Sample.sdb]) [Sample.sdb]
             eq_refl ltac:(discriminate)).
Defined.
(** ** Counting remote calls *)

Lemma countCalls_app (p : call -> bool) (l1 l2 : list call) :
  countCalls p (l1 ++ l2) = (countCalls p l1 + countCalls p l2)%nat.
Proof. unfold countCalls. now rewrite List.filter_app, length_app. Qed.

Lemma adds_weaken (p : call -> bool) (lo lo' hi hi' : nat) {A} (m : M A) :
  (lo' <= lo)%nat -> (hi <= hi')%nat -> adds p lo hi m -> adds p lo' hi' m.
Proof.
  intros Hlo Hhi Hm st. destruct (Hm st) as (new & Hnew & H1 & H2).
  exists new. repeat split; [exact Hnew | lia | lia].
Qed.

Lemma adds_bind (p : call -> bool) (lo hi hi' : nat) {A B} (m : M A) (k : A -> M B) :
  adds p lo hi m -> (forall a, adds p 0 hi' (k a)) -> adds p lo (hi + hi') (m ≫= k).
Proof.
  intros Hm Hk st. destruct (Hm st) as (new & Hnew & H1 & H2).
  unfold mbind, M_bind. destruct (m st) as [[a|] st'] eqn:Hrun; cbn [snd] in Hnew.
  - destruct (Hk a st') as (new' & Hnew' & _ & H2').
    exists (new ++ new'). rewrite Hnew', Hnew, app_assoc, countCalls_app.
    repeat split; lia.
  - exists new. cbn [snd]. repeat split; [exact Hnew | lia | lia].
Qed.

Lemma silent_bind (p : call -> bool) {A B} (m : M A) (k : A -> M B) :
  silent p m -> (forall a, silent p (k a)) -> silent p (m ≫= k).
Proof. intros Hm Hk. apply (adds_bind p 0 0 0); assumption. Qed.

Lemma silent_still {A} (p : call -> bool) (m : M A) :
  (forall st, st_calls (m st).2 = st_calls st) -> silent p m.
Proof.
  intros Hm st. exists []. rewrite Hm, app_nil_r. cbn. repeat split; lia.
Qed.

Lemma silent_ret (p : call -> bool) {A} (a : A) : silent p (mret a : M A).
Proof. now apply silent_still. Qed.

Lemma silent_lift (p : call -> bool) {A} (o : outcome A) : silent p (lift o).
Proof. now apply silent_still. Qed.

Lemma silent_d_Id (p : call -> bool) : silent p d_Id.
Proof. now apply silent_still. Qed.

Lemma silent_d_SetId (p : call -> bool) (id : string) : silent p (d_SetId id).
Proof. now apply silent_still. Qed.

Lemma silent_d_Get (p : call -> bool) (k : string) : silent p (d_Get k).
Proof. now apply silent_still. Qed.

Lemma silent_d_Set (p : call -> bool) (k : string) (v : value) : silent p (d_Set k v).
Proof. apply silent_still. intros st. unfold d_Set. now destruct (SetAttr _ _ _). Qed.

Lemma adds_issue (p : call -> bool) {A} (c : call) (reply : list call -> A) :
  adds p (if p c then 1 else 0) (if p c then 1 else 0) (issue c reply).
Proof.
  intros st. exists [c]. split; [reflexivity|].
  unfold countCalls. cbn. destruct (p c); cbn; lia.
Qed.

Lemma silent_issue (p : call -> bool) {A} (c : call) (reply : list call -> A) :
  p c = false -> silent p (issue c reply).
Proof. intros Hc. pose proof (adds_issue p c reply) as H. now rewrite Hc in H. Qed.

(** Walks through a step made of binds, matches and the primitives. *)
Ltac silent_step :=
  match goal with
  | |- silent _ (mbind _ _) => apply silent_bind; [|intros ?; cbn beta]
  | |- silent _ (mret _) => apply silent_ret
  | |- silent _ (lift _) => apply silent_lift
  | |- silent _ d_Id => apply silent_d_Id
  | |- silent _ (d_SetId _) => apply silent_d_SetId
  | |- silent _ (d_Get _) => apply silent_d_Get
  | |- silent _ (d_Set _ _) => apply silent_d_Set
  | |- silent _ (issue _ _) => apply silent_issue; reflexivity
  | |- silent _ (match ?x with _ => _ end) => destruct x
  | |- silent _ (let _ := _ in _) => cbn zeta
  end.

Section Silent.

Variable remote : Remote.
Variable p : call -> bool.
Hypothesis p_lookup : forall amiId, p (CallFetchRootDeviceName amiId) = false.

Lemma silent_fetchRootDeviceName (amiId : string) :
  silent p (fetchRootDeviceName remote amiId).
Proof. apply silent_issue, p_lookup. Qed.

Lemma silent_flatten (inp : list (option autoscaling_BlockDeviceMapping)) (amiId : string) :
  silent p (flattenAutoscalingBlockDeviceMappings remote inp amiId).
Proof.
  assert (Hentry : forall q, silent p (flatten_entry remote amiId q)).
  { intros q. unfold flatten_entry.
    repeat first [apply silent_fetchRootDeviceName | silent_step]. }
  assert (Hloop : forall l i out, silent p (flatten_loop remote amiId i l out)).
  { induction l as [|q l IH]; intros i out; cbn [flatten_loop].
    - apply silent_ret.
    - apply silent_bind; [apply Hentry|]. intros [m [e|]]; [apply silent_ret | apply IH]. }
  unfold flattenAutoscalingBlockDeviceMappings.
  destruct inp; [apply silent_ret | apply Hloop].
Qed.

Lemma silent_readLCBlockDevices (lc : autoscaling_LaunchConfiguration) :
  silent p (readLCBlockDevices remote lc).
Proof.
  unfold readLCBlockDevices, readBlockDevicesFromLaunchConfiguration.
  repeat first [apply silent_fetchRootDeviceName | silent_step].
Qed.

End Silent.

Lemma Read_describes_once (remote : Remote) :
  adds isDescribeCall 1 1 (resourceAwsLaunchConfigurationRead remote).
Proof.
  intros st. unfold resourceAwsLaunchConfigurationRead.
  assert (Hid : d_Id st = (Ret (rd_Id (st_d st)), st)) by reflexivity.
  rewrite (bind_run _ _ _ _ _ Hid).
  match goal with
  | |- context [mbind ?k ?m st] => assert (H : adds isDescribeCall 1 (1 + 0) (m ≫= k))
  end.
  { apply adds_bind; [apply (adds_issue isDescribeCall)|].
    intros [describConfs err].
    match goal with |- adds ?p 0 0 ?m => change (silent p m) end.
    repeat first [ apply silent_flatten; reflexivity
                 | apply silent_readLCBlockDevices; reflexivity
                 | silent_step ]. }
  exact (H st).
Qed.

Lemma Read_creates_nothing (remote : Remote) :
  silent isCreateCall (resourceAwsLaunchConfigurationRead remote).
Proof.
  unfold resourceAwsLaunchConfigurationRead, autoscalingconn_DescribeLaunchConfigurations.
  repeat first [ apply silent_flatten; reflexivity
               | apply silent_readLCBlockDevices; reflexivity
               | silent_step ].
Qed.

Section Retry.

Variable p : call -> bool.
Variable f : M (option RetryError).
Variables lo hi : nat.
Hypothesis f_adds : adds p lo hi f.

(** [resource.Retry] runs its function at least once and at most once
    more than the attempts that fit in the window. *)
Lemma retryLoop_adds (more : nat) : adds p lo (S more * hi) (retryLoop more f).
Proof.
  induction more as [|more IH].
  - cbn [retryLoop]. apply (adds_weaken p lo lo (hi + 0)); [lia | lia |].
    apply adds_bind; [exact f_adds|].
    intros [rerr|]; [destruct (Retryable rerr)|]; apply silent_ret.
  - cbn [retryLoop]. apply (adds_weaken p lo lo (hi + S more * hi)); [lia | lia |].
    apply adds_bind; [exact f_adds|].
    intros [rerr|]; [destruct (Retryable rerr)|].
    + apply (adds_weaken p lo 0 (S more * hi) (S more * hi)); [lia | lia | exact IH].
    + apply (adds_weaken p 0 0 0); [lia | lia | apply silent_ret].
    + apply (adds_weaken p 0 0 0); [lia | lia | apply silent_ret].
Qed.

End Retry.

(** ** Create: the creation request and the read-back *)

Section CreateRetry.

Variable remote : Remote.
Variable isAWSErr : error -> string -> string -> bool.
Variable base64Encode : string -> string.
Variable expandStringList : list value -> list (option string).
Variable resource_UniqueId : string.
Variable resource_PrefixedUniqueId : string -> string.
Variable attemptsWithin : Z -> nat.

Let Create : M (option error) :=
  resourceAwsLaunchConfigurationCreate remote isAWSErr base64Encode expandStringList
    resource_UniqueId resource_PrefixedUniqueId attemptsWithin.
Let attempt := create_attempt remote isAWSErr.
Let createAndReadBack := create_and_read_back remote isAWSErr attemptsWithin.
Let readBack : M (option error) :=
  resource_Retry attemptsWithin 30 (read_back_attempt remote).
Let reply (st : state) (opts : autoscaling_CreateLaunchConfigurationInput) : option error :=
  createLaunchConfigurationReply remote (st_calls st) opts.

Lemma create_attempt_run (opts : autoscaling_CreateLaunchConfigurationInput) (st : state) :
  attempt opts st
  = (Ret (match reply st opts with
          | Some e => Some {| Err := e; Retryable := notYetPropagated isAWSErr e |}
          | None => None
          end),
     called st (CallCreateLaunchConfiguration opts)).
Proof.
  unfold attempt, create_attempt, autoscalingconn_CreateLaunchConfiguration, reply,
    notYetPropagated.
  munfold. destruct (createLaunchConfigurationReply _ _ _) as [e|]; [|reflexivity].
  destruct (isAWSErr e "ValidationError" "Invalid IamInstanceProfile"); [reflexivity|].
  now destruct (isAWSErr e "ValidationError" _).
Qed.

Lemma create_attempt_creates_once (opts : autoscaling_CreateLaunchConfigurationInput) :
  adds isCreateCall 1 1 (attempt opts).
Proof.
  intros st. rewrite create_attempt_run. exists [CallCreateLaunchConfiguration opts].
  split; [reflexivity|]. cbn. lia.
Qed.

Lemma create_attempt_describes_nothing (opts : autoscaling_CreateLaunchConfigurationInput) :
  silent isDescribeCall (attempt opts).
Proof.
  intros st. rewrite create_attempt_run. exists [CallCreateLaunchConfiguration opts].
  split; [reflexivity|]. cbn. lia.
Qed.

Lemma read_back_describes_once : adds isDescribeCall 1 1 (read_back_attempt remote).
Proof.
  unfold read_back_attempt. apply (adds_bind isDescribeCall 1 1 0).
  - apply Read_describes_once.
  - intros [e|]; apply silent_ret.
Qed.

Lemma read_back_creates_nothing : silent isCreateCall (read_back_attempt remote).
Proof.
  unfold read_back_attempt. apply silent_bind; [apply Read_creates_nothing|].
  intros [e|]; apply silent_ret.
Qed.

Lemma readBack_describes : adds isDescribeCall 1 (S (attemptsWithin 30)) readBack.
Proof.
  unfold readBack, resource_Retry.
  apply (adds_weaken isDescribeCall 1 1 (S (attemptsWithin 30) * 1)); [lia | lia |].
  apply retryLoop_adds, read_back_describes_once.
Qed.

Lemma createAndReadBack_run (opts : autoscaling_CreateLaunchConfigurationInput)
    (lcName : string) (st st' : state) (err : option error) :
  resource_Retry attemptsWithin 90 (attempt opts) st = (Ret err, st') ->
  createAndReadBack opts lcName st
  = match err with
    | Some e => (Ret (Some (creationError e)), st')
    | None => readBack (withId lcName st')
    end.
Proof.
  intros Hretry. unfold createAndReadBack, create_and_read_back.
  fold attempt. rewrite (bind_run _ _ _ _ _ Hretry).
  destruct err as [e|]; reflexivity.
Qed.

Lemma createAndReadBack_calls (opts : autoscaling_CreateLaunchConfigurationInput)
    (lcName : string) (st : state) :
  exists new,
    st_calls (createAndReadBack opts lcName st).2 = st_calls st ++ new
    /\ (1 <= countCalls isCreateCall new <= S (attemptsWithin 90))%nat
    /\ (countCalls isDescribeCall new <= S (attemptsWithin 30))%nat.
Proof.
  assert (Hc : adds isCreateCall 1 (S (attemptsWithin 90) * 1 + 0)
                 (createAndReadBack opts lcName)).
  { unfold createAndReadBack, create_and_read_back. apply adds_bind.
    - apply retryLoop_adds, create_attempt_creates_once.
    - intros [e|]; [apply silent_ret|].
      apply silent_bind; [apply silent_d_SetId|]. intros _.
      apply (adds_weaken isCreateCall 0 0 (S (attemptsWithin 30) * 0)); [lia | lia |].
      apply retryLoop_adds, read_back_creates_nothing. }
  assert (Hd : adds isDescribeCall 0 (S (attemptsWithin 90) * 0 + S (attemptsWithin 30))
                 (createAndReadBack opts lcName)).
  { unfold createAndReadBack, create_and_read_back. apply adds_bind.
    - apply retryLoop_adds, create_attempt_describes_nothing.
    - intros [e|].
      + apply (adds_weaken isDescribeCall 0 0 0); [lia | lia | apply silent_ret].
      + apply (adds_weaken isDescribeCall 0 0 (0 + S (attemptsWithin 30))); [lia | lia |].
        apply adds_bind; [apply silent_d_SetId|]. intros _.
        apply (adds_weaken isDescribeCall 1 0 (S (attemptsWithin 30)) _); [lia | lia |].
        apply readBack_describes. }
  destruct (Hc st) as (new & Hnew & Hc1 & Hc2).
  destruct (Hd st) as (new' & Hnew' & _ & Hd2).
  rewrite Hnew in Hnew'. apply app_inv_head in Hnew'. subst new'.
  exists new. repeat split; [exact Hnew | lia | lia | lia].
Qed.


End CreateRetry.

(** Two runs of Create on the sample configuration: a creation request
    that keeps failing with Invalid IamInstanceProfile is issued three
    times when two further attempts fit in the window, and the last
    error is returned wrapped; a request that succeeds is followed by
    one describe request. *)
Example Create_retries_profile_error :
  let e := awserr_Error "ValidationError" "Invalid IamInstanceProfile: web" in
  let r := Sample.create (Sample.services None (Some e) None []) (Sample.start Sample.baseAttrs) in
  r.1 = Ret (Some (creationError e))
  /\ countCalls isCreateCall (st_calls r.2) = 3%nat
  /\ countCalls isDescribeCall (st_calls r.2) = 0%nat.
Proof. vm_compute. repeat split. Qed.

Example Create_reads_back :
  let lc := Sample.launchConfiguration "terraform-0001" [] in
  let r := Sample.create (Sample.services None None None [Some lc])
             (Sample.start Sample.baseAttrs) in
  r.1 = Ret None
  /\ rd_Id (st_d r.2) = "terraform-0001"
  /\ countCalls isCreateCall (st_calls r.2) = 1%nat
  /\ countCalls isDescribeCall (st_calls r.2) = 1%nat.
Proof. vm_compute. repeat split. Qed.


(** * Further properties *)

(** ** expandAutoscalingEbs and flattenAutoscalingEbs *)

(** X1: expandAutoscalingEbs returns nil exactly on the empty list and
    on a list that starts with nil, and panics exactly when the first
    element is something else than a map with a boolean
    [delete_on_termination]; on such a map it returns a structure. *)
Theorem expandAutoscalingEbs_outcomes (inp : list value) :
  (expandAutoscalingEbs inp = Ret None <-> inp = [] \/ head inp = Some VNil)
  /\ (expandAutoscalingEbs inp = Panic <->
      exists v, head inp = Some v /\ v <> VNil
                /\ forall m b, v = VMap m -> m !! "delete_on_termination" <> Some (VBool b))
  /\ ((exists ebs, expandAutoscalingEbs inp = Ret (Some ebs)) <->
      exists m b, head inp = Some (VMap m) /\ m !! "delete_on_termination" = Some (VBool b)).
Proof.
  destruct inp as [|v rest].
  - cbn. split; [|split].
    + split; auto.
    + split; [discriminate|]. intros (v & Hv & _). discriminate.
    + split; [intros [? ?]; discriminate|]. intros (m & b & Hv & _). discriminate.
  - assert (Hcase : v = VNil
                    \/ (exists m b, v = VMap m /\ m !! "delete_on_termination" = Some (VBool b))
                    \/ (v <> VNil
                        /\ forall m b, v = VMap m ->
                                       m !! "delete_on_termination" <> Some (VBool b))).
    { destruct v as [| | | | | | |m|]; try (right; right; split; [discriminate|];
                                             intros ? ? ?; discriminate).
      - now left.
      - destruct (m !! "delete_on_termination") as [[| |b| | | | | |]|] eqn:Hd;
          try (right; right; split; [discriminate|];
               intros m' b' Hm'; injection Hm' as <-; rewrite Hd; discriminate).
        right; left. eauto. }
    destruct Hcase as [->|[(m & b & -> & Hd)|[Hnil Hbad]]].
    + cbn. split; [|split].
      * split; auto.
      * split; [discriminate|]. intros (v & Hv & Hne & _). now injection Hv as <-.
      * split; [intros [? ?]; discriminate|]. intros (m & b & Hv & _). discriminate.
    + assert (Hrun : exists ebs, expandAutoscalingEbs (VMap m :: rest) = Ret (Some ebs)).
      { unfold expandAutoscalingEbs. munfold. cbn [assertMap]. unfold mapIndex at 1.
        rewrite Hd. cbn. eauto. }
      destruct Hrun as [ebs Hrun]. rewrite Hrun. split; [|split].
      * split; [discriminate|]. intros [?|?]; discriminate.
      * split; [discriminate|]. intros (v & Hv & _ & Hbad). injection Hv as <-.
        now contradiction (Hbad m b eq_refl).
      * split; [|eauto]. intros _. exists m, b. auto.
    + assert (Hrun : expandAutoscalingEbs (v :: rest) = Panic).
      { unfold expandAutoscalingEbs. destruct v as [| | | | | | |m|]; try reflexivity.
        - contradiction.
        - munfold. cbn [assertMap]. unfold mapIndex at 1.
          destruct (m !! "delete_on_termination") as [[| |b| | | | | |]|] eqn:Hd;
            try reflexivity.
          now contradiction (Hbad m b eq_refl). }
      rewrite Hrun. split; [|split].
      * split; [discriminate|]. intros [?|Hh]; [discriminate|]. cbn in Hh. congruence.
      * split; [|reflexivity]. intros _. exists v. auto.
      * split; [intros [? ?]; discriminate|]. intros (m & b & Hv & Hd).
        cbn in Hv. injection Hv as ->. now contradiction (Hbad m b eq_refl).
Qed.

(** X2: for an EBS description with its [delete_on_termination] flag,
    expandAutoscalingEbs followed by flattenAutoscalingEbs gives back
    one map: the flag as it was; [snapshot_id] and [volume_type] when
    they were non-empty strings; [encrypted] when it was true;
    [volume_size] when it was an [int] other than zero and [iops] when it
    was an [int] above zero, both as [int64]; every other key is gone. *)
Theorem expand_flatten_Ebs (m : gmap string value) (b : bool) :
  m !! "delete_on_termination" = Some (VBool b) ->
  exists (ebs : autoscaling_Ebs) (m' : gmap string value),
    expandAutoscalingEbs [VMap m] = Ret (Some ebs)
    /\ flattenAutoscalingEbs (Some ebs) = [VMap m']
    /\ m' !! "delete_on_termination" = Some (VBool b)
    /\ m' !! "snapshot_id" = keptString (m !! "snapshot_id")
    /\ m' !! "volume_type" = keptString (m !! "volume_type")
    /\ m' !! "encrypted" = keptTrue (m !! "encrypted")
    /\ m' !! "volume_size" = keptNumber (fun n => negb (n =? 0)) (m !! "volume_size")
    /\ m' !! "iops" = keptNumber (fun n => 0 <? n) (m !! "iops")
    /\ forall k, k ∉ ["delete_on_termination"; "snapshot_id"; "volume_type"; "encrypted";
                      "volume_size"; "iops"] -> m' !! k = None.
Proof.
  intros Hd.
  assert (Hrun : mapIndex m "delete_on_termination" = VBool b)
    by (unfold mapIndex; now rewrite Hd).
  unfold expandAutoscalingEbs. munfold. cbn [assertMap]. rewrite Hrun. cbn [assertBool].
  eexists _, _. split; [reflexivity|]. split; [reflexivity|].
  cbn [DeleteOnTermination Encrypted Iops SnapshotId VolumeSize VolumeType fmap option_fmap
         option_map putIf].
  unfold mapIndex.
  repeat split.
  - rewrite !putIf_lookup_ne by discriminate. now rewrite lookup_insert_eq.
  - rewrite !putIf_lookup_ne by discriminate.
    rewrite putIf_lookup_eq
      by (rewrite !putIf_lookup_ne by discriminate; now rewrite lookup_insert_ne).
    destruct (m !! "snapshot_id") as [[]|]; cbn; try reflexivity.
    now destruct (nonEmpty _).
  - rewrite putIf_lookup_eq
      by (rewrite !putIf_lookup_ne by discriminate; now rewrite lookup_insert_ne).
    destruct (m !! "volume_type") as [[]|]; cbn; try reflexivity.
    now destruct (nonEmpty _).
  - rewrite !putIf_lookup_ne by discriminate.
    rewrite putIf_lookup_eq by (now rewrite lookup_insert_ne).
    destruct (m !! "encrypted") as [[| |[]| | | | | |]|]; reflexivity.
  - rewrite !putIf_lookup_ne by discriminate.
    rewrite putIf_lookup_eq
      by (rewrite !putIf_lookup_ne by discriminate; now rewrite lookup_insert_ne).
    destruct (m !! "volume_size") as [[]|]; cbn; try reflexivity.
    now destruct (negb _).
  - rewrite !putIf_lookup_ne by discriminate.
    rewrite putIf_lookup_eq
      by (rewrite !putIf_lookup_ne by discriminate; now rewrite lookup_insert_ne).
    destruct (m !! "iops") as [[]|]; cbn; try reflexivity.
    now destruct (0 <? _).
  - intros k Hk.
    rewrite !putIf_lookup_ne by (intros <-; apply Hk; set_solver).
    rewrite lookup_insert_ne by (intros <-; apply Hk; set_solver).
    apply lookup_empty.
Qed.

(** X2 at an EBS description with 8 GiB and 100 iops. *)
Lemma expand_flatten_Ebs_witness :
  exists (ebs : autoscaling_Ebs) (m' : gmap string value),
    expandAutoscalingEbs [VMap Sample.ebsVolume] = Ret (Some ebs)
    /\ flattenAutoscalingEbs (Some ebs) = [VMap m']
    /\ m' !! "delete_on_termination" = Some (VBool true)
    /\ m' !! "volume_size" = Some (VInt64 8)
    /\ m' !! "iops" = Some (VInt64 100).
Proof.
  destruct (expand_flatten_Ebs Sample.ebsVolume true eq_refl)
    as (ebs & m' & H1 & H2 & H3 & _ & _ & _ & H4 & H5 & _).
  exists ebs, m'. repeat split; assumption.
Defined.

(** ** expandAutoscalingBlockDeviceMappings and flattenAutoscalingBlockDeviceMappings *)

(** X3: whatever expandAutoscalingBlockDeviceMappings returns, it is
    never an error and never a mapping: the slice it returns holds nil
    pointers only (none at all for an empty list or one that starts
    with nil, in which case no lookup is made either). *)
Theorem expand_returns_nil_pointers (remote : Remote) (inp : list value) (amiId : string)
    (st st' : state) (bdms : list (option autoscaling_BlockDeviceMapping))
    (err : option error) :
  expandAutoscalingBlockDeviceMappings remote inp amiId st = (Ret (bdms, err), st') ->
  err = None
  /\ Forall (fun p => p = None) bdms
  /\ (inp = [] \/ head inp = Some VNil -> bdms = [] /\ st' = st)
  /\ (inp <> [] -> head inp <> Some VNil -> length bdms = length inp).
Proof.
  intros Hrun.
  destruct inp as [|v rest].
  - cbn in Hrun. injection Hrun as <- <- <-. repeat split; auto.
  - assert (Hv : v = VNil \/ v <> VNil)
      by (destruct v; (now left) || (right; discriminate)).
    destruct Hv as [->|Hv].
    + cbn in Hrun. injection Hrun as <- <- <-. repeat split; auto.
      intros _ Hhead. now contradiction Hhead.
    + destruct (expand_fresh remote amiId (v :: rest) st) as [Hp|[Hret _]];
        [discriminate | cbn; congruence | rewrite Hrun in Hp; discriminate |].
      rewrite Hrun in Hret. cbn [fst] in Hret. injection Hret as -> ->.
      split; [reflexivity|]. split; [|split].
      * apply Forall_forall. intros p Hp.
        change (None :: replicate (length rest) None)
          with (replicate (S (length rest)) (@None autoscaling_BlockDeviceMapping)) in Hp.
        now apply elem_of_replicate in Hp as [-> _].
      * intros [?|Hhead]; [discriminate|]. cbn in Hhead. congruence.
      * intros _ _. cbn. now rewrite length_replicate.
Qed.

(** X3 at a list of one empty map. *)
Lemma expand_returns_nil_pointers_witness :
  let st := Sample.start Sample.baseAttrs in
  expandAutoscalingBlockDeviceMappings (Sample.services None None None []) [VMap ∅]
    "ami-0abc" st = (Ret ([None], None), st)
  /\ Forall (fun p : option autoscaling_BlockDeviceMapping => p = None) [None].
Proof.
  intros st. split; [reflexivity|].
  exact (proj1 (proj2 (expand_returns_nil_pointers (Sample.services None None None [])
                         [VMap ∅] "ami-0abc" st st [None] None eq_refl))).
Defined.

Lemma calledAll_nil (st : state) : calledAll st [] = st.
Proof. destruct st as [d calls]. unfold calledAll. cbn. now rewrite app_nil_r. Qed.

Lemma calledAll_app (st : state) (l1 l2 : list call) :
  calledAll (calledAll st l1) l2 = calledAll st (l1 ++ l2).
Proof. unfold calledAll. cbn. now rewrite app_assoc. Qed.

Lemma called_calledAll (st : state) (c : call) : called st c = calledAll st [c].
Proof. reflexivity. Qed.

Lemma flatten_map_flattened (root : string) (bdm : autoscaling_BlockDeviceMapping) :
  flattened root bdm (VMap (flatten_map root bdm)).
Proof.
  exists (flatten_map root bdm). split; [reflexivity|].
  unfold flatten_map.
  destruct (DeviceName bdm) as [n|], (Ebs bdm) as [e|];
    cbn [fmap option_fmap option_map];
    (repeat split;
     [ rewrite !putIf_lookup_ne by discriminate;
       rewrite ?lookup_insert_ne by discriminate;
       rewrite ?lookup_insert_eq; reflexivity
     | rewrite !putIf_lookup_ne by discriminate;
       rewrite ?lookup_insert_ne by discriminate;
       rewrite ?lookup_insert_eq; reflexivity
     | rewrite !putIf_lookup_ne by discriminate;
       rewrite ?lookup_insert_eq; reflexivity
     | rewrite putIf_lookup_ne by discriminate;
       apply putIf_lookup_eq;
       rewrite ?lookup_insert_ne by discriminate; reflexivity
     | apply putIf_lookup_eq; rewrite putIf_lookup_ne by discriminate;
       rewrite ?lookup_insert_ne by discriminate; reflexivity ]).
Qed.

Section Flatten.

Variable remote : Remote.
Variable amiId : string.

(** One turn of the loop when the lookup yields a name. *)
Lemma flatten_entry_run (root : string) (bdm : autoscaling_BlockDeviceMapping) (st : state) :
  (forall calls, rootDeviceNameOf remote calls amiId = (Some root, None)) ->
  flatten_entry remote amiId (Some bdm) st
  = (Ret (flatten_map root bdm, None), calledAll st (flattenLookups amiId [bdm])).
Proof.
  intros Hroot. unfold flatten_entry, fetchRootDeviceName, flatten_map, flattenLookups.
  munfold. cbn [deref flat_map].
  destruct (DeviceName bdm) as [n|].
  - rewrite Hroot. cbn [deref app]. reflexivity.
  - cbn [app]. now rewrite calledAll_nil.
Qed.

Lemma flatten_loop_run (root : string) (bdms : list autoscaling_BlockDeviceMapping) :
  (forall calls, rootDeviceNameOf remote calls amiId = (Some root, None)) ->
  forall (i : nat) (out : list value) (st : state),
    length out = (i + length bdms)%nat ->
    flatten_loop remote amiId i (Some <$> bdms) out st
    = (Ret (take i out ++ ((fun bdm => VMap (flatten_map root bdm)) <$> bdms), None),
       calledAll st (flattenLookups amiId bdms)).
Proof.
  intros Hroot. induction bdms as [|bdm bdms IH]; intros i out st Hlen.
  - cbn in *. rewrite calledAll_nil, app_nil_r, take_ge by lia. reflexivity.
  - cbn [fmap list_fmap flatten_loop]. cbn [length] in Hlen.
    rewrite (bind_run _ _ _ _ _ (flatten_entry_run root bdm st Hroot)). cbn beta iota.
    rewrite IH by (rewrite length_insert; lia).
    rewrite calledAll_app.
    rewrite (take_S_r _ i (VMap (flatten_map root bdm)))
      by (apply list_lookup_insert_eq; lia).
    rewrite take_insert_ge by lia. rewrite <- app_assoc.
    unfold flattenLookups. cbn [flat_map]. now rewrite app_nil_r.
Qed.

Lemma flatten_run (root : string) (bdms : list autoscaling_BlockDeviceMapping) (st : state) :
  (forall calls, rootDeviceNameOf remote calls amiId = (Some root, None)) ->
  flattenAutoscalingBlockDeviceMappings remote (Some <$> bdms) amiId st
  = (Ret ((fun bdm => VMap (flatten_map root bdm)) <$> bdms, None),
     calledAll st (flattenLookups amiId bdms)).
Proof.
  intros Hroot. unfold flattenAutoscalingBlockDeviceMappings.
  destruct bdms as [|bdm bdms'] eqn:Hbdms.
  - cbn. now rewrite calledAll_nil.
  - rewrite <- Hbdms. destruct (Some <$> bdms) eqn:Hl; [now subst|]. rewrite <- Hl.
    rewrite (flatten_loop_run root bdms Hroot 0)
      by (now rewrite length_replicate, length_fmap).
    reflexivity.
Qed.

(** X4: when the lookup of the image's root-device name yields a name,
    flattenAutoscalingBlockDeviceMappings returns one map for each
    mapping, in order, with the mapping's device name, virtual name,
    no-device flag and flattened EBS description, and the root flag
    that tells whether the device name is the image's root-device
    name; it looks the root-device name up once for every mapping that
    has a device name, and issues no other call. *)
Theorem flatten_describes_every_mapping (root : string)
    (bdms : list autoscaling_BlockDeviceMapping) (st : state) :
  (forall calls, rootDeviceNameOf remote calls amiId = (Some root, None)) ->
  exists out : list value,
    flattenAutoscalingBlockDeviceMappings remote (Some <$> bdms) amiId st
    = (Ret (out, None), calledAll st (flattenLookups amiId bdms))
    /\ Forall2 (flattened root) bdms out.
Proof.
  intros Hroot.
  exists ((fun bdm => VMap (flatten_map root bdm)) <$> bdms). split.
  - now apply flatten_run.
  - apply Forall2_fmap_r, Forall_Forall2_diag, Forall_forall.
    intros bdm _. apply flatten_map_flattened.
Qed.

(** X5: when the lookup of the root-device name fails,
    flattenAutoscalingBlockDeviceMappings gives up at the first mapping
    that has a device name: it returns the lookup's error and no list,
    after that single lookup. *)
Theorem flatten_returns_lookup_error (e : error)
    (bdms : list autoscaling_BlockDeviceMapping) (st : state) :
  (forall calls, (rootDeviceNameOf remote calls amiId).2 = Some e) ->
  Exists (fun bdm => is_Some (DeviceName bdm)) bdms ->
  flattenAutoscalingBlockDeviceMappings remote (Some <$> bdms) amiId st
  = (Ret ([], Some e), called st (CallFetchRootDeviceName amiId)).
Proof.
  intros Herr Hex.
  assert (Hentry : forall bdm st0,
             flatten_entry remote amiId (Some bdm) st0
             = match DeviceName bdm with
               | Some n => (Ret (<["device_name" := VString n]> ∅, Some e),
                            called st0 (CallFetchRootDeviceName amiId))
               | None => (Ret (flatten_map EmptyString bdm, None), st0)
               end).
  { intros bdm st0. unfold flatten_entry, fetchRootDeviceName, flatten_map. munfold.
    cbn [deref]. destruct (DeviceName bdm) as [n|]; [|reflexivity].
    specialize (Herr (st_calls st0)).
    destruct (rootDeviceNameOf remote (st_calls st0) amiId) as [name err].
    cbn in Herr. subst err. reflexivity. }
  assert (Hloop : forall i out st0,
             flatten_loop remote amiId i (Some <$> bdms) out st0
             = (Ret ([], Some e), called st0 (CallFetchRootDeviceName amiId))).
  { induction Hex as [bdm bdms [n Hn]|bdm bdms Hex IH]; intros i out st0;
      cbn [fmap list_fmap flatten_loop].
    - unfold mbind, M_bind. now rewrite Hentry, Hn.
    - unfold mbind, M_bind. rewrite Hentry.
      destruct (DeviceName bdm) as [n|]; [reflexivity|]. apply IH. }
  unfold flattenAutoscalingBlockDeviceMappings.
  destruct bdms as [|bdm bdms']; [inversion Hex|].
  rewrite fmap_cons. rewrite <- (fmap_cons Some bdm bdms'). apply Hloop.
Qed.

End Flatten.

(** X4 at the three sample mappings on an image whose root device is
    /dev/sda1. *)
Lemma flatten_describes_every_mapping_witness :
  let remote := Sample.services (Some "/dev/sda1") None None [] in
  let st := Sample.start Sample.baseAttrs in
  let lookup := CallFetchRootDeviceName "ami-0abc" in
  exists out : list value,
    flattenAutoscalingBlockDeviceMappings remote
      [Some Sample.sdb; Some Sample.sda1; Some Sample.ephemeral0] "ami-0abc" st
    = (Ret (out, None), calledAll st [lookup; lookup; lookup])
    /\ Forall2 (flattened "/dev/sda1") [Sample.sdb; Sample.sda1; Sample.ephemeral0] out.
Proof.
  intros remote st lookup.
  exact (flatten_describes_every_mapping remote "ami-0abc" "/dev/sda1"
           [Sample.sdb; Sample.sda1; Sample.ephemeral0] st (fun _ => eq_refl)).
Defined.

(** X5 at a lookup that is refused. *)
Lemma flatten_returns_lookup_error_witness :
  let e := awserr_Error "UnauthorizedOperation" "not allowed" in
  let remote := Fixture.refusing e in
  let st := Sample.start Sample.baseAttrs in
  flattenAutoscalingBlockDeviceMappings remote [Some Sample.sdb; Some Sample.sda1] "ami-0abc" st
  = (Ret ([], Some e), called st (CallFetchRootDeviceName "ami-0abc")).
Proof.
  intros e remote st.
  apply (flatten_returns_lookup_error remote "ami-0abc" e [Sample.sdb; Sample.sda1] st).
  - reflexivity.
  - constructor. now exists "/dev/sdb".
Defined.

(** ** readLCBlockDevices *)

Lemma d_Set_run (k : string) (v v' : value) (s : Schema) (st : state) :
  lookupKey k resourceAwsLaunchConfiguration_Schema = Some s ->
  coerce (Type_ s) v = Some v' ->
  d_Set k v st = (Ret None, stored k v' st).
Proof. intros Hk Hc. unfold d_Set, SetAttr. rewrite Hk. cbn. now rewrite Hc. Qed.

Lemma coerce_ofStringPtr (p : option string) :
  coerce TypeString (ofStringPtr p) = Some (storedString p).
Proof. now destruct p. Qed.

Lemma coerce_ofBoolPtr (p : option bool) :
  coerce TypeBool (ofBoolPtr p) = Some (storedBool p).
Proof. now destruct p. Qed.

(** Steps over one [d.Set] at the head of the goal. *)
Ltac set_attribute :=
  match goal with
  | |- context [mbind ?k (d_Set ?key ?v) ?st] =>
      let H := fresh "Hset" in
      eassert (H : d_Set key v st = (Ret None, stored key _ st))
        by (eapply d_Set_run;
            [ reflexivity
            | first [ apply coerce_ofStringPtr | apply coerce_ofBoolPtr | reflexivity ] ]);
      rewrite (bind_run _ _ _ _ _ H); clear H; cbn beta iota
  end.

Lemma imageIdOf_stored_ne (k : string) (v : value) (st : state) :
  k <> "image_id" -> imageIdOf (st_d (stored k v st)) = imageIdOf (st_d st).
Proof.
  intros Hk. unfold imageIdOf, Get, stored. cbn. now rewrite lookup_insert_ne.
Qed.

Lemma imageIdOf_stored_eq (s : string) (st : state) :
  imageIdOf (st_d (stored "image_id" (VString s) st)) = s.
Proof. unfold imageIdOf, Get, stored. cbn. now rewrite lookup_insert_eq. Qed.

Lemma attributeOf_stored_ne (k k' : string) (v : value) (st : state) :
  k <> k' -> attributeOf (stored k v st) k' = attributeOf st k'.
Proof. intros Hk. unfold attributeOf, stored. cbn. now rewrite lookup_insert_ne. Qed.

Lemma attributeOf_stored_eq (k : string) (v : value) (st : state) :
  attributeOf (stored k v st) k = Some v.
Proof. unfold attributeOf, stored. cbn. now rewrite lookup_insert_eq. Qed.

Lemma readLCBlockDevices_run (remote : Remote) (st : state)
    (lc : autoscaling_LaunchConfiguration) (bdms : list autoscaling_BlockDeviceMapping)
    (name : option string) :
  BlockDeviceMappings lc = Some <$> bdms ->
  (bdms <> [] ->
   rootDeviceNameOf remote (st_calls st) (imageIdOf (st_d st)) = (name, None)) ->
  let root := default EmptyString name in
  readLCBlockDevices remote lc st
  = (Ret None,
     stored "root_block_device" (VList (rootDescription root bdms))
       (stored "ephemeral_block_device" (VSet (descriptionsOf EphemeralDevice root bdms))
          (stored "ebs_block_device" (VSet (descriptionsOf EbsDevice root bdms))
             (calledAll st (readLookups (imageIdOf (st_d st)) bdms))))).
Proof.
  intros Hlc Hreply root. unfold readLCBlockDevices.
  destruct bdms as [|bdm bdms'].
  - unfold readBlockDevicesFromLaunchConfiguration. rewrite Hlc.
    cbn [fmap list_fmap readLookups]. rewrite calledAll_nil. reflexivity.
  - assert (Hlookups : readLookups (imageIdOf (st_d st)) (bdm :: bdms')
                       = [CallFetchRootDeviceName (imageIdOf (st_d st))]) by reflexivity.
    rewrite Hlookups. clear Hlookups.
    assert (Hne : bdm :: bdms' <> []) by discriminate.
    remember (bdm :: bdms') as bdms eqn:Hbdms. clear Hbdms.
    destruct (readBlockDevices_run remote st lc bdms name Hlc Hne (Hreply Hne))
      as (m & Hrun & Hebs & Heph & Hroot).
    rewrite (bind_run _ _ _ _ _ Hrun). cbn beta iota.
    unfold mapIndex. rewrite Hebs, Heph, Hroot. cbn [default].
    do 2 set_attribute.
    fold root. unfold rootDescription, descriptionsOf. rewrite called_calledAll.
    destruct (last (devicesOf RootDevice root bdms)) as [rootBdm|];
      cbn [fmap option_fmap option_map default id]; cbn beta iota.
    + set_attribute. reflexivity.
    + set_attribute. reflexivity.
Qed.



(** ** Read *)

(** Steps over a value that is at hand. *)
Ltac returned_value :=
  match goal with
  | |- context [mbind ?k (lift (Ret ?a)) ?st] =>
      rewrite (bind_run (lift (Ret a)) k st a st eq_refl); cbn beta iota
  end.

Lemma imageIdOf_calledAll (st : state) (calls : list call) :
  imageIdOf (st_d (calledAll st calls)) = imageIdOf (st_d st).
Proof. reflexivity. Qed.

(** Read on a launch configuration that carries the resource's
    identifier, its monitoring and its image, when the lookups of the
    root-device name yield a name. *)
Lemma Read_run (remote : Remote) (st : state) (lc : autoscaling_LaunchConfiguration)
    (others : list (option autoscaling_LaunchConfiguration))
    (monitoring : autoscaling_InstanceMonitoring) (imageId root : string)
    (bdms : list autoscaling_BlockDeviceMapping) :
  let id := rd_Id (st_d st) in
  describeLaunchConfigurationsReply remote (st_calls st) [Some id] = (Some lc :: others, None) ->
  LaunchConfigurationName lc = Some id ->
  InstanceMonitoring lc = Some monitoring ->
  ImageId lc = Some imageId ->
  BlockDeviceMappings lc = Some <$> bdms ->
  (forall calls, rootDeviceNameOf remote calls imageId = (Some root, None)) ->
  resourceAwsLaunchConfigurationRead remote st
  = (Ret None,
     stored "root_block_device" (VList (rootDescription root bdms))
       (stored "ephemeral_block_device" (VSet (descriptionsOf EphemeralDevice root bdms))
          (stored "ebs_block_device" (VSet (descriptionsOf EbsDevice root bdms))
             (calledAll
                (stored "block_device_mapping"
                   (VSet ((fun bdm => VMap (flatten_map root bdm)) <$> bdms))
                   (calledAll
                      (storedAll (simpleAttributes lc monitoring)
                         (called st (CallDescribeLaunchConfigurations [Some id])))
                      (flattenLookups imageId bdms)))
                (readLookups imageId bdms))))).
Proof.
  intros id Hreply Hname Hmon Himg Hbdms Hroot. subst id.
  unfold resourceAwsLaunchConfigurationRead, autoscalingconn_DescribeLaunchConfigurations.
  assert (Hid : forall s, d_Id s = (Ret (rd_Id (st_d s)), s)) by reflexivity.
  rewrite (bind_run _ _ _ _ _ (Hid st)).
  rewrite (bind_run _ _ _ _ _ (issue_run _ _ st)). rewrite Hreply. cbn beta iota.
  cbn [deref]. returned_value. rewrite Hname. cbn [deref]. returned_value.
  rewrite (bind_run _ _ _ _ _ (Hid _)). cbn [called st_d].
  rewrite String.eqb_refl. cbn [negb].
  do 7 set_attribute.
  rewrite Hmon. cbn [deref]. returned_value.
  do 5 set_attribute.
  rewrite Himg at 1. cbn [deref]. returned_value.
  rewrite Hbdms.
  rewrite (bind_run _ _ _ _ _ (flatten_run remote imageId root bdms _ Hroot)).
  cbn beta iota.
  set_attribute.
  match goal with
  | |- context [mbind ?k (readLCBlockDevices remote lc) ?s] =>
      assert (Himage : imageIdOf (st_d s) = imageId)
        by (rewrite imageIdOf_stored_ne by discriminate; rewrite imageIdOf_calledAll;
            rewrite !imageIdOf_stored_ne by discriminate;
            rewrite Himg; apply imageIdOf_stored_eq);
      assert (Hlookup : rootDeviceNameOf remote (st_calls s) (imageIdOf (st_d s))
                        = (Some root, None))
        by (rewrite Himage; apply Hroot);
      rewrite (bind_run _ k s _ _
                 (readLCBlockDevices_run remote s lc bdms (Some root) Hbdms
                    (fun _ => Hlookup)))
  end.
  cbn beta iota. cbn [default]. rewrite Himage.
  unfold storedAll, simpleAttributes. cbn [foldl fst snd]. rewrite ?Hname.
  reflexivity.
Qed.

Lemma attributeOf_calledAll (st : state) (calls : list call) (k : string) :
  attributeOf (calledAll st calls) k = attributeOf st k.
Proof. reflexivity. Qed.

(** Looks an attribute up in a state built by [stored] and [calledAll]. *)
Ltac attribute_lookup :=
  repeat first [ rewrite attributeOf_stored_eq; reflexivity
               | rewrite attributeOf_stored_ne by discriminate
               | rewrite attributeOf_calledAll ].



(** ** What a callback leaves as it was *)

Section Keeps.

Context {X : Type}.
Variable f : state -> X.

(** The observation looks at the record only. *)
Hypothesis f_record : forall st st', st_d st = st_d st' -> f st = f st'.

Lemma keeps_bind {A B} (m : M A) (k : A -> M B) :
  keeps f m -> (forall a, keeps f (k a)) -> keeps f (m ≫= k).
Proof.
  intros Hm Hk st. unfold mbind, M_bind. specialize (Hm st).
  destruct (m st) as [[a|] st']; cbn [snd] in *; [|exact Hm].
  now rewrite Hk.
Qed.

Lemma keeps_record {A} (m : M A) : (forall st, st_d (m st).2 = st_d st) -> keeps f m.
Proof. intros Hm st. now apply f_record. Qed.

Lemma keeps_ret {A} (a : A) : keeps f (mret a : M A).
Proof. now apply keeps_record. Qed.

Lemma keeps_lift {A} (o : outcome A) : keeps f (lift o).
Proof. now apply keeps_record. Qed.

Lemma keeps_d_Id : keeps f d_Id.
Proof. now apply keeps_record. Qed.

Lemma keeps_d_Get (k : string) : keeps f (d_Get k).
Proof. now apply keeps_record. Qed.

Lemma keeps_d_GetOk (k : string) : keeps f (d_GetOk k).
Proof. now apply keeps_record. Qed.

Lemma keeps_issue {A} (c : call) (reply : list call -> A) : keeps f (issue c reply).
Proof. now apply keeps_record. Qed.

Lemma keeps_d_Set (k : string) (v : value) :
  (forall v' st, f (stored k v' st) = f st) -> keeps f (d_Set k v).
Proof.
  intros Hk st. unfold d_Set, SetAttr.
  destruct (lookupKey k resourceAwsLaunchConfiguration_Schema ≫= _) as [v'|]; cbn [snd].
  - apply (Hk v' st).
  - now apply f_record.
Qed.

Lemma keeps_d_SetId (id : string) :
  (forall st, f (withId id st) = f st) -> keeps f (d_SetId id).
Proof. intros Hid st. apply (Hid st). Qed.

End Keeps.

(** Walks through a step made of binds, matches and the primitives
    that do not write to the record. *)
Ltac keeps_step :=
  match goal with
  | |- keeps _ (mbind _ _) => apply keeps_bind; [|intros ?; cbn beta]
  | |- keeps _ (mret _) => apply keeps_ret
  | |- keeps _ (lift _) => apply keeps_lift
  | |- keeps _ d_Id => apply keeps_d_Id
  | |- keeps _ (d_Get _) => apply keeps_d_Get
  | |- keeps _ (d_GetOk _) => apply keeps_d_GetOk
  | |- keeps _ (issue _ _) => apply keeps_issue
  | |- keeps _ (match ?x with _ => _ end) => destruct x
  | |- keeps _ (let _ := _ in _) => cbn zeta
  | |- forall st st', st_d st = st_d st' -> _ => assumption
  end.

Section KeepsFlatten.

Context {X : Type}.
Variable f : state -> X.
Hypothesis f_record : forall st st', st_d st = st_d st' -> f st = f st'.
Variable remote : Remote.

Lemma keeps_flatten (inp : list (option autoscaling_BlockDeviceMapping)) (amiId : string) :
  keeps f (flattenAutoscalingBlockDeviceMappings remote inp amiId).
Proof.
  assert (Hentry : forall q, keeps f (flatten_entry remote amiId q)).
  { intros q. unfold flatten_entry, fetchRootDeviceName. repeat keeps_step. }
  assert (Hloop : forall l i out, keeps f (flatten_loop remote amiId i l out)).
  { induction l as [|q l IH]; intros i out; cbn [flatten_loop].
    - now apply keeps_ret.
    - apply keeps_bind; [apply Hentry|].
      intros [m [e|]]; [now apply keeps_ret | apply IH]. }
  unfold flattenAutoscalingBlockDeviceMappings.
  destruct inp; [now apply keeps_ret | apply Hloop].
Qed.

Lemma keeps_readBlockDevices (lc : autoscaling_LaunchConfiguration) :
  keeps f (readBlockDevicesFromLaunchConfiguration remote lc).
Proof.
  unfold readBlockDevicesFromLaunchConfiguration, fetchRootDeviceName.
  repeat keeps_step.
Qed.

End KeepsFlatten.

(** ** Read: what it does not touch *)

Lemma attributeOf_record (k : string) (st st' : state) :
  st_d st = st_d st' -> attributeOf st k = attributeOf st' k.
Proof. unfold attributeOf. now intros ->. Qed.

Lemma identifierOf_record (st st' : state) :
  st_d st = st_d st' -> identifierOf st = identifierOf st'.
Proof. unfold identifierOf. now intros ->. Qed.

(** Finds an element in a list that is written out. *)
Ltac in_list := repeat first [apply list_elem_of_here | apply list_elem_of_further].

(** X8: Read writes to its sixteen attributes only: whatever the
    services answer, and whether Read returns or panics, every other
    attribute of the record ([user_data], [placement_tenancy] and
    [name_prefix] among them) is left as it was. *)
Theorem Read_writes_only_its_attributes (remote : Remote) (st : state) (k : string) :
  k ∉ readAttributes ->
  attributeOf (resourceAwsLaunchConfigurationRead remote st).2 k = attributeOf st k.
Proof.
  intros Hk. unfold readAttributes in Hk.
  assert (Hrec : forall st st', st_d st = st_d st' -> attributeOf st k = attributeOf st' k)
    by apply attributeOf_record.
  assert (Hset : forall k' v, k' ∈ readAttributes ->
                              keeps (fun st => attributeOf st k) (d_Set k' v)).
  { intros k' v Hk'. apply keeps_d_Set; [exact Hrec|].
    intros v' st0. apply attributeOf_stored_ne. intros <-. now apply Hk. }
  assert (Hread : keeps (fun st => attributeOf st k)
                    (resourceAwsLaunchConfigurationRead remote)).
  { unfold resourceAwsLaunchConfigurationRead, autoscalingconn_DescribeLaunchConfigurations,
      readLCBlockDevices.
    repeat match goal with
           | |- keeps _ (flattenAutoscalingBlockDeviceMappings _ _ _) =>
               apply keeps_flatten; exact Hrec
           | |- keeps _ (readBlockDevicesFromLaunchConfiguration _ _) =>
               apply keeps_readBlockDevices; exact Hrec
           | |- keeps _ (d_Set _ _) => apply Hset; unfold readAttributes; in_list
           | |- keeps _ (d_SetId _) => apply keeps_d_SetId; reflexivity
           | _ => keeps_step
           end. }
  exact (Hread st).
Qed.

(** X8 at [user_data], on the sample launch configuration. *)
Lemma Read_writes_only_its_attributes_witness :
  let lc := Sample.launchConfiguration "lc" [Some Sample.sdb] in
  let remote := Sample.services (Some "/dev/sda1") None None [Some lc] in
  let st := {| st_d := {| rd_Id := "lc"; rd_attrs := <["user_data" := VString "#!/bin/sh"]> ∅ |};
               st_calls := [] |} in
  attributeOf (resourceAwsLaunchConfigurationRead remote st).2 "user_data"
  = Some (VString "#!/bin/sh").
Proof.
  intros lc remote st.
  refine (Read_writes_only_its_attributes remote st "user_data" _).
  unfold readAttributes. intros Hin.
  repeat (apply elem_of_cons in Hin as [Hin|Hin]; [discriminate|]).
  inversion Hin.
Defined.

(** ** Read: nothing described, or a response without a field *)

Lemma keeps_identifier_d_Set (k : string) (v : value) : keeps identifierOf (d_Set k v).
Proof. apply keeps_d_Set; [apply identifierOf_record | reflexivity]. Qed.

(** X9: when the describe request fails, Read returns its error
    wrapped as "Error retrieving launch configuration" and leaves the
    record as it was; when the request succeeds with no launch
    configuration, Read clears the identifier, so that the resource
    is taken for gone, returns no error and leaves the attributes as
    they were; in every other case, whatever else happens, the
    identifier stays as it was. *)
Theorem Read_clears_identifier_when_gone (remote : Remote) (st : state) :
  let id := rd_Id (st_d st) in
  let request := CallDescribeLaunchConfigurations [Some id] in
  let reply := describeLaunchConfigurationsReply remote (st_calls st) [Some id] in
  (forall confs e,
     reply = (confs, Some e) ->
     resourceAwsLaunchConfigurationRead remote st
     = (Ret (Some (fmt_Errorf "Error retrieving launch configuration: %s" [ArgError e])),
        called st request))
  /\ (reply = ([], None) ->
      resourceAwsLaunchConfigurationRead remote st
      = (Ret None, withId EmptyString (called st request)))
  /\ (reply <> ([], None) ->
      identifierOf (resourceAwsLaunchConfigurationRead remote st).2 = id).
Proof.
  intros id request reply. subst id request reply.
  assert (Hid : forall s, d_Id s = (Ret (rd_Id (st_d s)), s)) by reflexivity.
  unfold resourceAwsLaunchConfigurationRead, autoscalingconn_DescribeLaunchConfigurations.
  rewrite (bind_run _ _ _ _ _ (Hid st)).
  rewrite (bind_run _ _ _ _ _ (issue_run _ _ st)).
  destruct (describeLaunchConfigurationsReply remote (st_calls st) [Some (rd_Id (st_d st))])
    as [confs err].
  split; [|split].
  - intros confs' e [= -> ->]. reflexivity.
  - intros [= -> ->]. reflexivity.
  - intros Hne. destruct err as [e|]; [reflexivity|].
    destruct confs as [|first others]; [contradiction|]. cbn beta iota.
    match goal with
    | |- identifierOf (?m ?s).2 = _ => assert (Hkeeps : keeps identifierOf m)
    end.
    { unfold readLCBlockDevices.
      repeat first [ apply keeps_flatten; apply identifierOf_record
                   | apply keeps_readBlockDevices; apply identifierOf_record
                   | apply keeps_identifier_d_Set
                   | apply identifierOf_record
                   | keeps_step ]. }
    apply Hkeeps.
Qed.

(** X9 at a record whose launch configuration is gone. *)
Lemma Read_clears_identifier_when_gone_witness :
  let st := {| st_d := {| rd_Id := "lc"; rd_attrs := Sample.baseAttrs |}; st_calls := [] |} in
  resourceAwsLaunchConfigurationRead (Sample.services None None None []) st
  = (Ret None, withId EmptyString (called st (CallDescribeLaunchConfigurations [Some "lc"]))).
Proof.
  intros st.
  exact (proj1 (proj2 (Read_clears_identifier_when_gone
                         (Sample.services None None None []) st)) eq_refl).
Defined.

(** X10: Read dereferences the first launch configuration of the
    response, its name and, once the name is found to be the
    identifier, its monitoring and its image without testing them:
    when one of them is nil Read panics, after the describe request
    and no other call. *)
Theorem Read_panics_on_missing_field (remote : Remote) (st : state)
    (first : option autoscaling_LaunchConfiguration)
    (others : list (option autoscaling_LaunchConfiguration)) :
  let id := rd_Id (st_d st) in
  describeLaunchConfigurationsReply remote (st_calls st) [Some id] = (first :: others, None) ->
  lacksField id first ->
  (resourceAwsLaunchConfigurationRead remote st).1 = Panic
  /\ st_calls (resourceAwsLaunchConfigurationRead remote st).2
     = st_calls st ++ [CallDescribeLaunchConfigurations [Some id]].
Proof.
  intros id Hreply Hlacks. subst id.
  assert (Hid : forall s, d_Id s = (Ret (rd_Id (st_d s)), s)) by reflexivity.
  unfold resourceAwsLaunchConfigurationRead, autoscalingconn_DescribeLaunchConfigurations.
  rewrite (bind_run _ _ _ _ _ (Hid st)).
  rewrite (bind_run _ _ _ _ _ (issue_run _ _ st)). rewrite Hreply. cbn beta iota.
  destruct first as [lc|]; [|split; reflexivity].
  cbn [deref]. returned_value.
  destruct Hlacks as [Hname|[Hname Hfield]]; rewrite Hname; [split; reflexivity|].
  cbn [deref]. returned_value.
  rewrite (bind_run _ _ _ _ _ (Hid _)). cbn [called st_d].
  rewrite String.eqb_refl. cbn [negb].
  do 7 set_attribute.
  destruct (InstanceMonitoring lc) as [monitoring|]; [|split; reflexivity].
  destruct Hfield as [Hmon|Himg]; [discriminate|].
  cbn [deref]. returned_value.
  do 5 set_attribute.
  rewrite Himg. split; reflexivity.
Qed.

(** X10 at a response whose launch configuration has no monitoring. *)
Lemma Read_panics_on_missing_field_witness :
  let lc := {| LaunchConfigurationName := Some "lc"; ImageId := Some "ami-0abc";
               InstanceType := Some "t2.micro"; KeyName := None; IamInstanceProfile := None;
               EbsOptimized := None; SpotPrice := None; InstanceMonitoring := None;
               SecurityGroups := []; AssociatePublicIpAddress := None;
               ClassicLinkVPCId := None; ClassicLinkVPCSecurityGroups := [];
               BlockDeviceMappings := [] |} in
  let st := {| st_d := {| rd_Id := "lc"; rd_attrs := ∅ |}; st_calls := [] |} in
  let r := resourceAwsLaunchConfigurationRead (Sample.services None None None [Some lc]) st in
  r.1 = Panic /\ st_calls r.2 = [CallDescribeLaunchConfigurations [Some "lc"]].
Proof.
  intros lc st r.
  refine (Read_panics_on_missing_field (Sample.services None None None [Some lc]) st
            (Some lc) [] eq_refl _).
  right. split; [reflexivity|]. now left.
Defined.

(** ** Create: the deprecated block-device attributes *)

Lemma d_GetOk_unset (k : string) (st : state) :
  (GetOk (st_d st) k).2 = false ->
  d_GetOk k st = (Ret (Get (st_d st) k, false), st).
Proof.
  intros Hk. unfold d_GetOk. f_equal. f_equal. unfold GetOk in *. cbn [snd] in Hk.
  now rewrite Hk.
Qed.

Lemma create_ebs_block_device_run (root : string) (v : value) :
  wellFormedEbs v -> ~ namesDevice root v ->
  exists bdm, create_ebs_block_device root v = Ret (inl bdm) /\ ebsMapping v bdm.
Proof.
  intros (m & b & n & -> & Hdot & Hname) Hnot.
  assert (Hd : mapIndex m "delete_on_termination" = VBool b)
    by (unfold mapIndex; now rewrite Hdot).
  assert (Hn : mapIndex m "device_name" = VString n)
    by (unfold mapIndex; now rewrite Hname).
  assert (Hne : String.eqb n root = false).
  { apply String.eqb_neq. intros ->. apply Hnot. now exists m. }
  unfold create_ebs_block_device. munfold. cbn [assertMap].
  rewrite Hd, Hn. cbn [assertBool assertString]. rewrite Hne.
  eexists. split; [reflexivity|].
  eexists m, n, _. split; [reflexivity|]. split; [exact Hname|]. split; [reflexivity|].
  now apply numbersCarried_intro.
Qed.

Lemma create_ebs_block_devices_run (root : string) (vL : list value) :
  Forall wellFormedEbs vL -> Forall (fun v => ~ namesDevice root v) vL ->
  forall blockDevices,
    exists ebs,
      create_ebs_block_devices root vL blockDevices
      = Ret (blockDevices ++ (Some <$> ebs), None)
      /\ Forall2 ebsMapping vL ebs.
Proof.
  intros Hwf. induction Hwf as [|v vL Hv Hwf IH]; intros Hnot blockDevices.
  - exists []. cbn. rewrite app_nil_r. split; [reflexivity | constructor].
  - apply Forall_cons in Hnot as [Hnotv Hnot].
    destruct (create_ebs_block_device_run root v Hv Hnotv) as (bdm & Hrun & Hbdm).
    destruct (IH Hnot (blockDevices ++ [Some bdm])) as (ebs & Hloop & Hebs).
    exists (bdm :: ebs). cbn [create_ebs_block_devices]. munfold. rewrite Hrun, Hloop.
    split; [|now constructor]. now rewrite <- app_assoc.
Qed.

Lemma create_ephemeral_block_devices_run (vL : list value) :
  Forall wellFormedEphemeral vL ->
  forall blockDevices,
    exists eph,
      create_ephemeral_block_devices vL blockDevices = Ret (blockDevices ++ (Some <$> eph))
      /\ Forall2 ephemeralMapping vL eph.
Proof.
  intros Hwf. induction Hwf as [|v vL Hv Hwf IH]; intros blockDevices.
  - exists []. cbn. rewrite app_nil_r. split; [reflexivity | constructor].
  - destruct Hv as (m & n & vn & -> & Hname & Hvirtual).
    assert (Hn : mapIndex m "device_name" = VString n)
      by (unfold mapIndex; now rewrite Hname).
    assert (Hv : mapIndex m "virtual_name" = VString vn)
      by (unfold mapIndex; now rewrite Hvirtual).
    destruct (IH (blockDevices
                    ++ [Some {| DeviceName := Some n; Ebs := None; NoDevice := None;
                                VirtualName := Some vn |}])) as (eph & Hloop & Heph).
    eexists (_ :: eph). cbn [create_ephemeral_block_devices].
    unfold create_ephemeral_block_device. munfold. cbn [assertMap]. rewrite Hn, Hv.
    cbn [assertString]. rewrite Hloop. split; [now rewrite <- app_assoc|].
    constructor; [|exact Heph]. now exists m, n, vn.
Qed.

Section RootBlockDevices.

Variable remote : Remote.
Variable root : string.
Variable imageId : string.
Hypothesis lookup_root : forall calls, rootDeviceNameOf remote calls imageId = (Some root, None).

Lemma create_root_block_devices_run (vL : list value) :
  Forall wellFormedRoot vL ->
  forall blockDevices st,
    imageIdOf (st_d st) = imageId ->
    exists roots,
      create_root_block_devices remote vL blockDevices st
      = (Ret (blockDevices ++ (Some <$> roots), None),
         calledAll st (replicate (length vL) (CallFetchRootDeviceName imageId)))
      /\ Forall2 (rootMapping root) vL roots.
Proof.
  intros Hwf. induction Hwf as [|v vL Hv Hwf IH]; intros blockDevices st Himage.
  - exists []. cbn. rewrite app_nil_r, calledAll_nil. split; [reflexivity | constructor].
  - destruct Hv as (m & b & -> & Hdot).
    assert (Hd : mapIndex m "delete_on_termination" = VBool b)
      by (unfold mapIndex; now rewrite Hdot).
    cbn [create_root_block_devices assertMap]. returned_value. rewrite Hd.
    cbn [assertBool]. returned_value.
    rewrite (bind_run _ _ _ _ _ (getString_image_id st)). rewrite Himage.
    unfold fetchRootDeviceName. rewrite (bind_run _ _ _ _ _ (issue_run _ _ st)).
    rewrite lookup_root. cbn beta iota.
    match goal with
    | |- context [create_root_block_devices remote vL ?acc ?s] =>
        destruct (IH acc s Himage) as (roots & Hloop & Hroots); rewrite Hloop
    end.
    eexists (_ :: roots). split.
    + rewrite called_calledAll, calledAll_app, <- app_assoc. reflexivity.
    + constructor; [|exact Hroots].
      eexists m, _. do 4 (split; [reflexivity|]). now apply numbersCarried_intro.
Qed.

End RootBlockDevices.

Lemma d_GetOk_set (k : string) (st : state) (l : list value) :
  Get (st_d st) k = VSet l ->
  d_GetOk k st = (Ret (VSet l, negb (bool_decide (l = []))), st).
Proof.
  intros Hk. unfold d_GetOk, GetOk. rewrite Hk. now destruct l.
Qed.

Lemma d_GetOk_list (k : string) (st : state) (l : list value) :
  Get (st_d st) k = VList l ->
  d_GetOk k st = (Ret (VList l, negb (bool_decide (l = []))), st).
Proof.
  intros Hk. unfold d_GetOk, GetOk. rewrite Hk. now destruct l.
Qed.

(** The block-device part of Create on the deprecated attributes. *)
Lemma create_block_device_mappings_legacy (remote : Remote) (st : state)
    (ebsL ephL rootL : list value) (root : string) :
  let d := st_d st in
  (GetOk d "block_device_mapping").2 = false ->
  Get d "ebs_block_device" = VSet ebsL ->
  Forall wellFormedEbs ebsL ->
  Forall (fun v => ~ namesDevice root v) ebsL ->
  Get d "ephemeral_block_device" = VSet ephL ->
  Forall wellFormedEphemeral ephL ->
  Get d "root_block_device" = VList rootL ->
  Forall wellFormedRoot rootL ->
  (forall calls, rootDeviceNameOf remote calls (imageIdOf d) = (Some root, None)) ->
  exists ebs eph roots,
    create_block_device_mappings remote st
    = (Ret (Some <$> (ebs ++ eph ++ roots), None),
       calledAll st (replicate (S (length rootL)) (CallFetchRootDeviceName (imageIdOf d))))
    /\ Forall2 ebsMapping ebsL ebs
    /\ Forall2 ephemeralMapping ephL eph
    /\ Forall2 (rootMapping root) rootL roots.
Proof.
  intros d Hbdm Hebs Hwfebs Hnot Heph Hwfeph Hroot Hwfroot Hlookup. subst d.
  destruct (create_ebs_block_devices_run root ebsL Hwfebs Hnot []) as (ebs & Hrunebs & Hebs').
  destruct (create_ephemeral_block_devices_run ephL Hwfeph ([] ++ (Some <$> ebs)))
    as (eph & Hruneph & Heph').
  exists ebs, eph.
  unfold create_block_device_mappings.
  rewrite (bind_run _ _ _ _ _ (d_GetOk_unset _ st Hbdm)). cbn beta iota.
  rewrite (bind_run _ _ _ _ _ (getString_image_id st)).
  unfold fetchRootDeviceName. rewrite (bind_run _ _ _ _ _ (issue_run _ _ st)).
  rewrite Hlookup. cbn beta iota zeta. cbn [default].
  set (st1 := called st (CallFetchRootDeviceName (imageIdOf (st_d st)))).
  assert (Hebs1 : (('(v, ok) ← d_GetOk "ebs_block_device";
                    if ok : bool then
                      vL ← lift (assertSet v);
                      lift (create_ebs_block_devices root vL [])
                    else mret ([], None)) : M _) st1
                  = (Ret ([] ++ (Some <$> ebs), None), st1)).
  { rewrite (bind_run _ _ _ _ _ (d_GetOk_set _ st1 ebsL Hebs)). cbn beta iota.
    destruct ebsL as [|v ebsL'].
    - cbn in Hrunebs. injection Hrunebs as <-. reflexivity.
    - cbn [bool_decide decide_rel negb assertSet]. rewrite bool_decide_eq_false_2 by discriminate.
      cbn [negb]. returned_value. unfold lift. now rewrite Hrunebs. }
  rewrite (bind_run _ _ _ _ _ Hebs1). cbn beta iota.
  assert (Heph1 : (('(v, ok) ← d_GetOk "ephemeral_block_device";
                    if ok : bool then
                      vL ← lift (assertSet v);
                      lift (create_ephemeral_block_devices vL ([] ++ (Some <$> ebs)))
                    else mret ([] ++ (Some <$> ebs))) : M _) st1
                  = (Ret (([] ++ (Some <$> ebs)) ++ (Some <$> eph)), st1)).
  { rewrite (bind_run _ _ _ _ _ (d_GetOk_set _ st1 ephL Heph)). cbn beta iota.
    destruct ephL as [|v ephL'].
    - cbn in Hruneph. injection Hruneph as Hruneph. cbn. now rewrite <- Hruneph at 1.
    - rewrite bool_decide_eq_false_2 by discriminate.
      cbn [negb assertSet]. returned_value. unfold lift. now rewrite Hruneph. }
  rewrite (bind_run _ _ _ _ _ Heph1). cbn beta iota.
  destruct (create_root_block_devices_run remote root (imageIdOf (st_d st)) Hlookup rootL
              Hwfroot (([] ++ (Some <$> ebs)) ++ (Some <$> eph)) st1 eq_refl)
    as (roots & Hrunroot & Hroots).
  exists roots.
  assert (Hroot1 : (('(v, ok) ← d_GetOk "root_block_device";
                     if ok : bool then
                       vL ← lift (assertList v);
                       create_root_block_devices remote vL
                         (([] ++ (Some <$> ebs)) ++ (Some <$> eph))
                     else mret (([] ++ (Some <$> ebs)) ++ (Some <$> eph), None)) : M _) st1
                   = (Ret ((([] ++ (Some <$> ebs)) ++ (Some <$> eph)) ++ (Some <$> roots), None),
                      calledAll st1 (replicate (length rootL)
                                       (CallFetchRootDeviceName (imageIdOf (st_d st)))))).
  { rewrite (bind_run _ _ _ _ _ (d_GetOk_list _ st1 rootL Hroot)). cbn beta iota.
    destruct rootL as [|v rootL'].
    - cbn in Hrunroot. injection Hrunroot as Hrunroot. cbn [length replicate].
      rewrite calledAll_nil. cbn. now rewrite <- Hrunroot at 1.
    - rewrite bool_decide_eq_false_2 by discriminate.
      cbn [negb assertList]. returned_value. exact Hrunroot. }
  rewrite (bind_run _ _ _ _ _ Hroot1). cbn beta iota.
  split; [|repeat split; assumption].
  unfold mret, M_ret. f_equal.
  - cbn [app]. now rewrite !fmap_app, app_assoc.
  - unfold st1. now rewrite called_calledAll, calledAll_app.
Qed.

Lemma devicesOf_all (c : deviceClass) (root : string)
    (l : list autoscaling_BlockDeviceMapping) :
  Forall (fun bdm => classOf root bdm = c) l -> devicesOf c root l = l.
Proof.
  unfold devicesOf. induction 1 as [|bdm l Hbdm _ IH]; [reflexivity|].
  rewrite filter_cons_True by assumption. now rewrite IH.
Qed.

Lemma devicesOf_none (c : deviceClass) (root : string)
    (l : list autoscaling_BlockDeviceMapping) :
  Forall (fun bdm => classOf root bdm <> c) l -> devicesOf c root l = [].
Proof.
  unfold devicesOf. induction 1 as [|bdm l Hbdm _ IH]; [reflexivity|].
  now rewrite filter_cons_False by assumption.
Qed.

Lemma devicesOf_app (c : deviceClass) (root : string)
    (l1 l2 : list autoscaling_BlockDeviceMapping) :
  devicesOf c root (l1 ++ l2) = devicesOf c root l1 ++ devicesOf c root l2.
Proof. apply filter_app. Qed.

Lemma ebsMapping_class (root : string) (vL : list value)
    (ebs : list autoscaling_BlockDeviceMapping) :
  Forall2 ebsMapping vL ebs -> Forall (fun v => ~ namesDevice root v) vL ->
  Forall (fun bdm => classOf root bdm = EbsDevice) ebs.
Proof.
  induction 1 as [|v bdm vL ebs (m & n & e & -> & Hname & -> & _) _ IH]; intros Hnot;
    [constructor|].
  apply Forall_cons in Hnot as [Hnotv Hnot]. constructor; [|now apply IH].
  unfold classOf. cbn. rewrite bool_decide_eq_false_2; [reflexivity|].
  intros [= ->]. apply Hnotv. now exists m.
Qed.

Lemma ephemeralMapping_class (root : string) (vL : list value)
    (eph : list autoscaling_BlockDeviceMapping) :
  Forall2 ephemeralMapping vL eph -> Forall (fun v => ~ namesDevice root v) vL ->
  Forall (fun bdm => classOf root bdm = EphemeralDevice) eph.
Proof.
  induction 1 as [|v bdm vL eph (m & n & vn & -> & Hname & _ & ->) _ IH]; intros Hnot;
    [constructor|].
  apply Forall_cons in Hnot as [Hnotv Hnot]. constructor; [|now apply IH].
  unfold classOf. cbn. rewrite bool_decide_eq_false_2; [reflexivity|].
  intros [= ->]. apply Hnotv. now exists m.
Qed.

Lemma rootMapping_class (root : string) (vL : list value)
    (roots : list autoscaling_BlockDeviceMapping) :
  Forall2 (rootMapping root) vL roots ->
  Forall (fun bdm => classOf root bdm = RootDevice) roots.
Proof.
  induction 1 as [|v bdm vL roots (m & e & -> & -> & _) _ IH]; constructor; [|exact IH].
  unfold classOf. cbn. now rewrite bool_decide_eq_true_2.
Qed.

Lemma class_differs (c c' : deviceClass) (root : string)
    (l : list autoscaling_BlockDeviceMapping) :
  c <> c' -> Forall (fun bdm => classOf root bdm = c) l ->
  Forall (fun bdm => classOf root bdm <> c') l.
Proof. intros Hc Hl. eapply Forall_impl; [exact Hl|]. cbn. congruence. Qed.

(** The three kinds of mappings, sorted back. *)
Lemma legacy_devicesOf (root : string) (ebsL ephL rootL : list value)
    (ebs eph roots : list autoscaling_BlockDeviceMapping) :
  Forall2 ebsMapping ebsL ebs -> Forall (fun v => ~ namesDevice root v) ebsL ->
  Forall2 ephemeralMapping ephL eph -> Forall (fun v => ~ namesDevice root v) ephL ->
  Forall2 (rootMapping root) rootL roots ->
  devicesOf EbsDevice root (ebs ++ eph ++ roots) = ebs
  /\ devicesOf EphemeralDevice root (ebs ++ eph ++ roots) = eph
  /\ devicesOf RootDevice root (ebs ++ eph ++ roots) = roots.
Proof.
  intros Hebs Hnotebs Heph Hnoteph Hroots.
  pose proof (ebsMapping_class root ebsL ebs Hebs Hnotebs) as Hc1.
  pose proof (ephemeralMapping_class root ephL eph Heph Hnoteph) as Hc2.
  pose proof (rootMapping_class root rootL roots Hroots) as Hc3.
  rewrite !devicesOf_app.
  rewrite (devicesOf_all EbsDevice root ebs Hc1).
  rewrite (devicesOf_all EphemeralDevice root eph Hc2).
  rewrite (devicesOf_all RootDevice root roots Hc3).
  rewrite (devicesOf_none EbsDevice root eph)
    by (now apply (class_differs EphemeralDevice)).
  rewrite (devicesOf_none EbsDevice root roots)
    by (now apply (class_differs RootDevice)).
  rewrite (devicesOf_none EphemeralDevice root ebs)
    by (now apply (class_differs EbsDevice)).
  rewrite (devicesOf_none EphemeralDevice root roots)
    by (now apply (class_differs RootDevice)).
  rewrite (devicesOf_none RootDevice root ebs)
    by (now apply (class_differs EbsDevice)).
  rewrite (devicesOf_none RootDevice root eph)
    by (now apply (class_differs EphemeralDevice)).
  cbn [app]. now rewrite !app_nil_r.
Qed.

Section CreateLegacy.

Variable remote : Remote.
Variable isAWSErr : error -> string -> string -> bool.
Variable base64Encode : string -> string.
Variable expandStringList : list value -> list (option string).
Variable resource_UniqueId : string.
Variable resource_PrefixedUniqueId : string -> string.
Variable attemptsWithin : Z -> nat.

Let Create : M (option error) :=
  resourceAwsLaunchConfigurationCreate remote isAWSErr base64Encode expandStringList
    resource_UniqueId resource_PrefixedUniqueId attemptsWithin.
Let createAndReadBack := create_and_read_back remote isAWSErr attemptsWithin.

(** X11: when [block_device_mapping] is not set and the lookup of the
    image's root-device name fails, Create returns the lookup's error
    as it is; the lookup is the only remote call, no request goes to
    the Auto Scaling service and the record is left as it was. *)
Theorem Create_returns_lookup_error (st : state) (name : option string) (e : error) :
  (GetOk (st_d st) "block_device_mapping").2 = false ->
  rootDeviceNameOf remote (st_calls st) (imageIdOf (st_d st)) = (name, Some e) ->
  Create st = (Ret (Some e), called st (CallFetchRootDeviceName (imageIdOf (st_d st)))).
Proof.
  intros Hbdm Hreply.
  eapply Create_stops_at_block_devices.
  unfold create_block_device_mappings.
  rewrite (bind_run _ _ _ _ _ (d_GetOk_unset _ st Hbdm)). cbn beta iota.
  rewrite (bind_run _ _ _ _ _ (getString_image_id st)).
  unfold fetchRootDeviceName. rewrite (bind_run _ _ _ _ _ (issue_run _ _ st)).
  rewrite Hreply. reflexivity.
Qed.

(** X12: when the configuration declares a [root_block_device] (and
    none of the other block-device attributes) and the image has no
    root-device name, Create returns the error "Expected to find a
    Root Device name" after two lookups of the name, without any
    request to the Auto Scaling service, and leaves the record as it
    was. *)
Theorem Create_needs_root_device_name (st : state) (v : value) (rest : list value) :
  let d := st_d st in
  let lookup := CallFetchRootDeviceName (imageIdOf d) in
  (GetOk d "block_device_mapping").2 = false ->
  (GetOk d "ebs_block_device").2 = false ->
  (GetOk d "ephemeral_block_device").2 = false ->
  Get d "root_block_device" = VList (v :: rest) ->
  wellFormedRoot v ->
  (forall calls, rootDeviceNameOf remote calls (imageIdOf d) = (None, None)) ->
  Create st = (Ret (Some (noRootDeviceNameError (imageIdOf d))), calledAll st [lookup; lookup]).
Proof.
  intros d lookup Hbdm Hebs Heph Hroot (m & b & -> & Hdot) Hreply. subst d lookup.
  assert (Hd : mapIndex m "delete_on_termination" = VBool b)
    by (unfold mapIndex; now rewrite Hdot).
  eapply Create_stops_at_block_devices.
  unfold create_block_device_mappings.
  rewrite (bind_run _ _ _ _ _ (d_GetOk_unset _ st Hbdm)). cbn beta iota.
  rewrite (bind_run _ _ _ _ _ (getString_image_id st)).
  unfold fetchRootDeviceName. rewrite (bind_run _ _ _ _ _ (issue_run _ _ st)).
  rewrite Hreply. cbn beta iota zeta.
  set (st1 := called st (CallFetchRootDeviceName (imageIdOf (st_d st)))).
  match goal with
  | |- context [mbind ?K (mbind ?k (d_GetOk "ebs_block_device")) st1] =>
      assert (Hebs1 : (d_GetOk "ebs_block_device" ≫= k) st1 = (Ret ([], None), st1))
        by (now rewrite (bind_run _ _ _ _ _ (d_GetOk_unset _ st1 Hebs)));
      rewrite (bind_run _ K st1 _ _ Hebs1)
  end.
  cbn beta iota.
  match goal with
  | |- context [mbind ?K (mbind ?k (d_GetOk "ephemeral_block_device")) st1] =>
      assert (Heph1 : (d_GetOk "ephemeral_block_device" ≫= k) st1 = (Ret [], st1))
        by (now rewrite (bind_run _ _ _ _ _ (d_GetOk_unset _ st1 Heph)));
      rewrite (bind_run _ K st1 _ _ Heph1)
  end.
  cbn beta iota.
  match goal with
  | |- context [mbind ?K (mbind ?k (d_GetOk "root_block_device")) st1] =>
      assert (Hroot1 : (d_GetOk "root_block_device" ≫= k) st1
                       = (Ret ([], Some (noRootDeviceNameError (imageIdOf (st_d st)))),
                          called st1 (CallFetchRootDeviceName (imageIdOf (st_d st)))));
      [|rewrite (bind_run _ K st1 _ _ Hroot1); cbn beta iota; unfold st1;
        rewrite !called_calledAll, calledAll_app; reflexivity]
  end.
  rewrite (bind_run _ _ _ _ _ (d_GetOk_list _ st1 _ Hroot)). cbn beta iota.
  rewrite bool_decide_eq_false_2 by discriminate. cbn [negb assertList]. returned_value.
  cbn [create_root_block_devices assertMap]. returned_value. rewrite Hd.
  cbn [assertBool]. returned_value.
  rewrite (bind_run _ _ _ _ _ (getString_image_id st1)). unfold fetchRootDeviceName.
  rewrite (bind_run _ _ _ _ _ (issue_run _ _ st1)). cbn [st1 called st_d].
  rewrite Hreply. cbn beta iota.
  match goal with
  | |- context [mbind ?k (getString "image_id") ?s] =>
      rewrite (bind_run _ k s _ _ (getString_image_id s))
  end.
  reflexivity.
Qed.

(** X13: when [block_device_mapping] is not set, the elements of the
    three deprecated attributes are shaped as the schema has them, no
    [ebs_block_device] names the image's root device and the lookups
    of its name yield that name, Create builds a request whose
    mappings are, in this order, one for each [ebs_block_device], one
    for each [ephemeral_block_device] and one for each
    [root_block_device], the last under the root-device name of the
    image; it looks the name up once, and once more for each
    [root_block_device], and goes on to the creation request. *)
Theorem Create_sends_legacy_block_devices (st : state)
    (ebsL ephL rootL : list value) (root : string) :
  let d := st_d st in
  (GetOk d "block_device_mapping").2 = false ->
  Get d "ebs_block_device" = VSet ebsL ->
  Forall wellFormedEbs ebsL ->
  Forall (fun v => ~ namesDevice root v) ebsL ->
  Get d "ephemeral_block_device" = VSet ephL ->
  Forall wellFormedEphemeral ephL ->
  Get d "root_block_device" = VList rootL ->
  Forall wellFormedRoot rootL ->
  (forall calls, rootDeviceNameOf remote calls (imageIdOf d) = (Some root, None)) ->
  exists ebs eph roots opts lcName,
    Create st
    = createAndReadBack opts lcName
        (calledAll st (replicate (S (length rootL)) (CallFetchRootDeviceName (imageIdOf d))))
    /\ opts_BlockDeviceMappings opts = Some <$> (ebs ++ eph ++ roots)
    /\ Forall2 ebsMapping ebsL ebs
    /\ Forall2 ephemeralMapping ephL eph
    /\ Forall2 (rootMapping root) rootL roots.
Proof.
  intros d Hbdm Hebs Hwfebs Hnot Heph Hwfeph Hroot Hwfroot Hlookup.
  destruct (create_block_device_mappings_legacy remote st ebsL ephL rootL root
              Hbdm Hebs Hwfebs Hnot Heph Hwfeph Hroot Hwfroot Hlookup)
    as (ebs & eph & roots & Hrun & Hebs' & Heph' & Hroots).
  destruct (create_request_attributes remote base64Encode expandStringList
              resource_UniqueId resource_PrefixedUniqueId st)
    as (rest & Hreq & _ & Hok).
  match type of Hrun with
  | _ = (Ret (?bdms, None), ?st') =>
      destruct (Hok bdms st') as (opts & lcName & Hrest & Hopts & _)
  end.
  exists ebs, eph, roots, opts, lcName.
  split; [|repeat split; assumption].
  unfold Create, resourceAwsLaunchConfigurationCreate.
  match type of Hrest with
  | _ = (?r, ?st') =>
      assert (Hrequest : create_request remote base64Encode expandStringList
                           resource_UniqueId resource_PrefixedUniqueId st = (r, st'))
        by (rewrite Hreq, (bind_run _ _ _ _ _ Hrun); exact Hrest)
  end.
  now rewrite (bind_run _ _ _ _ _ Hrequest).
Qed.

End CreateLegacy.

(** X14: the mappings Create sends for the deprecated attributes are
    sorted by readBlockDevicesFromLaunchConfiguration into the
    attributes they came from: when a launch configuration carries
    them as they were sent and no [ephemeral_block_device] names the
    root device either, the EBS list describes the mappings of the
    [ebs_block_device] elements, the ephemeral list those of the
    [ephemeral_block_device] elements, and the root entry the mapping
    of the last [root_block_device]. *)
Theorem legacy_block_devices_read_back (remote : Remote) (st : state)
    (lc : autoscaling_LaunchConfiguration) (ebsL ephL rootL : list value)
    (ebs eph roots : list autoscaling_BlockDeviceMapping) (root : string) :
  Forall2 ebsMapping ebsL ebs ->
  Forall (fun v => ~ namesDevice root v) ebsL ->
  Forall2 ephemeralMapping ephL eph ->
  Forall (fun v => ~ namesDevice root v) ephL ->
  Forall2 (rootMapping root) rootL roots ->
  BlockDeviceMappings lc = Some <$> (ebs ++ eph ++ roots) ->
  ebs ++ eph ++ roots <> [] ->
  rootDeviceNameOf remote (st_calls st) (imageIdOf (st_d st)) = (Some root, None) ->
  exists m : gmap string value,
    readBlockDevicesFromLaunchConfiguration remote lc st
    = (Ret (m, None), called st (CallFetchRootDeviceName (imageIdOf (st_d st))))
    /\ m !! "ebs" = Some (VMaps (descriptionOf <$> ebs))
    /\ m !! "ephemeral" = Some (VMaps (descriptionOf <$> eph))
    /\ m !! "root"
       = Some (default VNil ((fun bdm => VMap (readBlockDevice_common bdm)) <$> last roots)).
Proof.
  intros Hebs Hnotebs Heph Hnoteph Hroots Hlc Hne Hreply.
  destruct (readBlockDevices_run remote st lc (ebs ++ eph ++ roots) (Some root)
              Hlc Hne Hreply) as (m & Hrun & Hmebs & Hmeph & Hmroot).
  destruct (legacy_devicesOf root ebsL ephL rootL ebs eph roots
              Hebs Hnotebs Heph Hnoteph Hroots) as (H1 & H2 & H3).
  change (default EmptyString (Some root)) with root in Hmebs, Hmeph, Hmroot.
  rewrite H1 in Hmebs. rewrite H2 in Hmeph.
  rewrite H3 in Hmroot.
  exists m. repeat split; assumption.
Qed.

(** ** Create: the request *)

Lemma isZero_string (s : string) : negb (isZero (VString s)) = nonEmpty s.
Proof. now destruct s. Qed.

Lemma getString_run (k : string) (s : Schema) (st : state) :
  lookupKey k resourceAwsLaunchConfiguration_Schema = Some s ->
  Type_ s = TypeString -> defaultOf s = None ->
  getString k st = (Ret (stringOf (st_d st) k), st).
Proof.
  intros Hk Hty Hdef. unfold getString, stringOf. munfold.
  destruct (Get_string (st_d st) k s Hk Hty Hdef) as [x ->]. reflexivity.
Qed.

Lemma getBool_run (k : string) (s : Schema) (b0 : bool) (st : state) :
  lookupKey k resourceAwsLaunchConfiguration_Schema = Some s ->
  Type_ s = TypeBool -> default (VBool false) (defaultOf s) = VBool b0 ->
  getBool k st = (Ret (boolOf (st_d st) k), st).
Proof.
  intros Hk Hty Hdef. unfold getBool, boolOf. munfold.
  destruct (Get_bool (st_d st) k s b0 Hk Hty Hdef) as [x ->]. reflexivity.
Qed.

Lemma whenOk_string_run {B} (k : string) (s : Schema) (conv : string -> B) (unset : B)
    (st : state) :
  lookupKey k resourceAwsLaunchConfiguration_Schema = Some s ->
  Type_ s = TypeString -> defaultOf s = None ->
  whenOk k assertString conv unset st
  = (Ret (if nonEmpty (stringOf (st_d st) k) then conv (stringOf (st_d st) k) else unset), st).
Proof.
  intros Hk Hty Hdef. unfold whenOk, stringOf. munfold. unfold GetOk. cbn beta iota.
  destruct (Get_string (st_d st) k s Hk Hty Hdef) as [x ->].
  rewrite isZero_string. now destruct (nonEmpty x).
Qed.

Lemma whenOk_bool_run {B} (k : string) (s : Schema) (b0 : bool) (conv : bool -> B) (unset : B)
    (st : state) :
  lookupKey k resourceAwsLaunchConfiguration_Schema = Some s ->
  Type_ s = TypeBool -> default (VBool false) (defaultOf s) = VBool b0 ->
  whenOk k assertBool conv unset st
  = (Ret (if boolOf (st_d st) k then conv true else unset), st).
Proof.
  intros Hk Hty Hdef. unfold whenOk, boolOf. munfold. unfold GetOk. cbn beta iota.
  destruct (Get_bool (st_d st) k s b0 Hk Hty Hdef) as [x ->]. now destruct x.
Qed.

Lemma whenOk_set_run {B} (k : string) (s : Schema) (conv : list value -> B) (unset : B)
    (st : state) :
  lookupKey k resourceAwsLaunchConfiguration_Schema = Some s ->
  Type_ s = TypeSet -> defaultOf s = None ->
  whenOk k assertSet conv unset st
  = (Ret (match setOf (st_d st) k with [] => unset | l => conv l end), st).
Proof.
  intros Hk Hty Hdef. unfold whenOk, setOf. munfold. unfold GetOk. cbn beta iota.
  destruct (Get_set (st_d st) k s Hk Hty Hdef) as [x ->]. now destruct x.
Qed.

(** Steps over one attribute read at the head of the goal, keeping
    the value read. *)
Ltac read_value :=
  match goal with
  | |- context [mbind ?k (getString ?key) ?st] =>
      rewrite (bind_run _ k st _ _ (getString_run key _ st eq_refl eq_refl eq_refl))
  | |- context [mbind ?k (getBool ?key) ?st] =>
      rewrite (bind_run _ k st _ _ (getBool_run key _ _ st eq_refl eq_refl eq_refl))
  | |- context [mbind ?k (whenOk ?key assertString ?conv ?unset) ?st] =>
      rewrite (bind_run _ k st _ _
                 (whenOk_string_run key _ conv unset st eq_refl eq_refl eq_refl))
  | |- context [mbind ?k (whenOk ?key assertBool ?conv ?unset) ?st] =>
      rewrite (bind_run _ k st _ _
                 (whenOk_bool_run key _ _ conv unset st eq_refl eq_refl eq_refl))
  | |- context [mbind ?k (whenOk ?key assertSet ?conv ?unset) ?st] =>
      rewrite (bind_run _ k st _ _
                 (whenOk_set_run key _ conv unset st eq_refl eq_refl eq_refl))
  end; cbn beta iota.

(** The request Create builds once the block-device mappings are at
    hand. *)
Lemma create_request_run (remote : Remote) (base64Encode : string -> string)
    (expandStringList : list value -> list (option string))
    (uid : string) (puid : string -> string) (st st' : state)
    (bdms : list (option autoscaling_BlockDeviceMapping)) :
  create_block_device_mappings remote st = (Ret (bdms, None), st') ->
  st_d st' = st_d st ->
  create_request remote base64Encode expandStringList uid puid st
  = (Ret (inl (requestOf base64Encode expandStringList uid puid (st_d st) bdms,
               launchConfigurationName uid puid (st_d st))), st').
Proof.
  intros Hrun Hrecord. unfold create_request.
  do 14 read_value.
  rewrite (bind_run _ _ _ _ _ Hrun). cbn beta iota.
  match goal with
  | |- context [mbind ?k ?m st'] =>
      assert (Hname : m st' = (Ret (launchConfigurationName uid puid (st_d st)), st'))
  end.
  { unfold launchConfigurationName, stringOf. rewrite <- Hrecord.
    munfold. unfold GetOk. cbn beta iota.
    destruct (Get_string (st_d st') "name" _ eq_refl eq_refl eq_refl) as [x Hx].
    destruct (Get_string (st_d st') "name_prefix" _ eq_refl eq_refl eq_refl) as [y Hy].
    rewrite Hx, Hy, isZero_string. destruct (nonEmpty x); [reflexivity|]. cbn beta iota.
    rewrite Hy, isZero_string. now destruct (nonEmpty y). }
  rewrite (bind_run _ _ _ _ _ Hname). cbn beta iota.
  unfold requestOf, whenSet.
  repeat match goal with
         | |- context [nonEmpty ?s] => destruct (nonEmpty s)
         end; reflexivity.
Qed.

(** ** Create: before the creation request *)

Section KeepsCreate.

Context {X : Type}.
Variable f : state -> X.
Hypothesis f_record : forall st st', st_d st = st_d st' -> f st = f st'.
Variable remote : Remote.

Lemma keeps_expand (inp : list value) (amiId : string) :
  keeps f (expandAutoscalingBlockDeviceMappings remote inp amiId).
Proof.
  assert (Hentry : forall i v out, keeps f (expand_entry remote amiId i v out)).
  { intros i v out. unfold expand_entry, fetchRootDeviceName. repeat keeps_step. }
  assert (Hloop : forall l i out, keeps f (expand_loop remote amiId i l out)).
  { induction l as [|v l IH]; intros i out; cbn [expand_loop].
    - now apply keeps_ret.
    - apply keeps_bind; [apply Hentry|].
      intros [out' [e|]]; [now apply keeps_ret | apply IH]. }
  unfold expandAutoscalingBlockDeviceMappings.
  destruct inp as [|v inp']; [now apply keeps_ret|].
  destruct v; first [now apply keeps_ret | apply Hloop].
Qed.

Lemma keeps_create_root_block_devices (vL : list value) :
  forall blockDevices, keeps f (create_root_block_devices remote vL blockDevices).
Proof.
  induction vL as [|v vL IH]; intros blockDevices; cbn [create_root_block_devices].
  - now apply keeps_ret.
  - unfold getString, fetchRootDeviceName.
    repeat first [apply IH | keeps_step].
Qed.

Lemma keeps_create_block_device_mappings : keeps f (create_block_device_mappings remote).
Proof.
  unfold create_block_device_mappings, getString, fetchRootDeviceName.
  repeat first [ apply keeps_expand | apply keeps_create_root_block_devices | keeps_step ].
Qed.

End KeepsCreate.

Lemma silent_d_GetOk (p : call -> bool) (k : string) : silent p (d_GetOk k).
Proof. now apply silent_still. Qed.

Section SilentCreate.

Variable remote : Remote.
Variable p : call -> bool.
Hypothesis p_lookup : forall amiId, p (CallFetchRootDeviceName amiId) = false.

Lemma silent_expand (inp : list value) (amiId : string) :
  silent p (expandAutoscalingBlockDeviceMappings remote inp amiId).
Proof.
  assert (Hentry : forall i v out, silent p (expand_entry remote amiId i v out)).
  { intros i v out. unfold expand_entry.
    repeat first [apply silent_fetchRootDeviceName; exact p_lookup | silent_step]. }
  assert (Hloop : forall l i out, silent p (expand_loop remote amiId i l out)).
  { induction l as [|v l IH]; intros i out; cbn [expand_loop].
    - apply silent_ret.
    - apply silent_bind; [apply Hentry|].
      intros [out' [e|]]; [apply silent_ret | apply IH]. }
  unfold expandAutoscalingBlockDeviceMappings.
  destruct inp as [|v inp']; [apply silent_ret|].
  destruct v; first [apply silent_ret | apply Hloop].
Qed.

Lemma silent_create_root_block_devices (vL : list value) :
  forall blockDevices, silent p (create_root_block_devices remote vL blockDevices).
Proof.
  induction vL as [|v vL IH]; intros blockDevices; cbn [create_root_block_devices].
  - apply silent_ret.
  - unfold getString.
    repeat first [ apply IH | apply silent_fetchRootDeviceName; exact p_lookup
                 | silent_step ].
Qed.

Lemma silent_create_block_device_mappings : silent p (create_block_device_mappings remote).
Proof.
  unfold create_block_device_mappings, getString.
  repeat first [ apply silent_expand | apply silent_create_root_block_devices
               | apply silent_fetchRootDeviceName; exact p_lookup
               | apply silent_d_GetOk | silent_step ].
Qed.

End SilentCreate.

Lemma create_block_device_mappings_record (remote : Remote) (st st' : state)
    (r : outcome (list (option autoscaling_BlockDeviceMapping) * option error)) :
  create_block_device_mappings remote st = (r, st') -> st_d st' = st_d st.
Proof.
  intros Hrun.
  pose proof (keeps_create_block_device_mappings st_d (fun _ _ H => H) remote st) as Hk.
  now rewrite Hrun in Hk.
Qed.

Section CreateRequest.

Variable remote : Remote.
Variable isAWSErr : error -> string -> string -> bool.
Variable base64Encode : string -> string.
Variable expandStringList : list value -> list (option string).
Variable resource_UniqueId : string.
Variable resource_PrefixedUniqueId : string -> string.
Variable attemptsWithin : Z -> nat.

Let Create : M (option error) :=
  resourceAwsLaunchConfigurationCreate remote isAWSErr base64Encode expandStringList
    resource_UniqueId resource_PrefixedUniqueId attemptsWithin.
Let request :=
  create_request remote base64Encode expandStringList resource_UniqueId
    resource_PrefixedUniqueId.

Lemma keeps_request : keeps st_d request.
Proof.
  unfold request, create_request, getString, getBool, whenOk.
  repeat first [ apply keeps_create_block_device_mappings; exact (fun _ _ H => H)
               | exact (fun _ _ H => H)
               | keeps_step ].
Qed.

Lemma silent_request : silent isAutoscalingCall request.
Proof.
  unfold request, create_request, getString, getBool, whenOk.
  repeat first [ apply silent_create_block_device_mappings; reflexivity
               | apply silent_d_GetOk | silent_step ].
Qed.


End CreateRequest.

(** ** Create: when the retries run out *)

(** [resource.Retry] on a function that keeps failing with a
    retryable error: the function is run once more than the attempts
    that fit in the window, and its error is returned. *)
Lemma retryLoop_exhausted (P : state -> Prop) (f : M (option RetryError)) (c : call)
    (e : error) :
  (forall st, P st ->
              f st = (Ret (Some (resource_RetryableError e)), called st c)
              /\ P (called st c)) ->
  forall (more : nat) (st : state),
    P st ->
    retryLoop more f st = (Ret (Some e), calledAll st (replicate (S more) c)).
Proof.
  intros Hf. induction more as [|more IH]; intros st Hst;
    destruct (Hf st Hst) as [Hrun Hnext]; cbn [retryLoop];
    rewrite (bind_run _ _ _ _ _ Hrun); cbn.
  - reflexivity.
  - rewrite (IH _ Hnext). now rewrite called_calledAll, calledAll_app.
Qed.

Section CreateExhausted.

Variable remote : Remote.
Variable isAWSErr : error -> string -> string -> bool.
Variable base64Encode : string -> string.
Variable expandStringList : list value -> list (option string).
Variable resource_UniqueId : string.
Variable resource_PrefixedUniqueId : string -> string.
Variable attemptsWithin : Z -> nat.

Let Create : M (option error) :=
  resourceAwsLaunchConfigurationCreate remote isAWSErr base64Encode expandStringList
    resource_UniqueId resource_PrefixedUniqueId attemptsWithin.
Let requestFor (d : ResourceData) (bdms : list (option autoscaling_BlockDeviceMapping)) :=
  requestOf base64Encode expandStringList resource_UniqueId resource_PrefixedUniqueId d bdms.
Let nameFor (d : ResourceData) :=
  launchConfigurationName resource_UniqueId resource_PrefixedUniqueId d.

(** Create, from the point where the block-device mappings are at hand. *)
Lemma Create_from_block_devices (st st' : state)
    (bdms : list (option autoscaling_BlockDeviceMapping)) :
  create_block_device_mappings remote st = (Ret (bdms, None), st') ->
  Create st
  = create_and_read_back remote isAWSErr attemptsWithin (requestFor (st_d st) bdms)
      (nameFor (st_d st)) st'.
Proof.
  intros Hrun.
  pose proof (create_block_device_mappings_record remote st st' _ Hrun) as Hrecord.
  unfold Create, resourceAwsLaunchConfigurationCreate.
  now rewrite (bind_run _ _ _ _ _
                 (create_request_run remote base64Encode expandStringList resource_UniqueId
                    resource_PrefixedUniqueId st st' bdms Hrun Hrecord)).
Qed.

(** X15: once its block-device part has given the mappings, Create
    goes on to the creation request with a request built from the
    record: the image, the instance type, the EBS optimisation and
    the monitoring flag are always sent; the user data (encoded in
    base 64), the instance profile, the tenancy, the key name, the
    spot price and the ClassicLink VPC only when they are not empty;
    the public-address flag only when it is true; the security groups
    only when there are some.  The launch configuration is named by
    [name]; without it, by a unique name that starts with
    [name_prefix]; without either, by a unique name. *)
Theorem Create_request_fields (st st' : state)
    (bdms : list (option autoscaling_BlockDeviceMapping)) :
  create_block_device_mappings remote st = (Ret (bdms, None), st') ->
  let d := st_d st in
  let lcName := launchConfigurationName resource_UniqueId resource_PrefixedUniqueId d in
  st_d st' = d
  /\ Create st
     = create_and_read_back remote isAWSErr attemptsWithin
         (requestOf base64Encode expandStringList resource_UniqueId
            resource_PrefixedUniqueId d bdms)
         lcName st'.
Proof.
  intros Hrun d lcName. split.
  - exact (create_block_device_mappings_record remote st st' _ Hrun).
  - exact (Create_from_block_devices st st' bdms Hrun).
Qed.

Lemma create_succeeds (opts : autoscaling_CreateLaunchConfigurationInput) (st : state) :
  createLaunchConfigurationReply remote (st_calls st) opts = None ->
  resource_Retry attemptsWithin 90 (create_attempt remote isAWSErr opts) st
  = (Ret None, called st (CallCreateLaunchConfiguration opts)).
Proof.
  intros Hcreate. unfold resource_Retry.
  destruct (attemptsWithin 90); cbn [retryLoop];
    rewrite (bind_run _ _ _ _ _ (create_attempt_run remote isAWSErr opts st));
    now rewrite Hcreate.
Qed.

(** X17: when the service keeps refusing the creation request with
    one of the two validation errors that are retried, Create issues
    the request exactly once more than the attempts that fit in 90
    seconds; then it returns the error, wrapped as "Error creating
    launch configuration", and neither the identifier nor anything
    else in the record has been set. *)
Theorem Create_gives_up_after_window (st st' : state)
    (bdms : list (option autoscaling_BlockDeviceMapping)) (e : error) :
  let opts := requestFor (st_d st) bdms in
  create_block_device_mappings remote st = (Ret (bdms, None), st') ->
  (forall calls, createLaunchConfigurationReply remote calls opts = Some e) ->
  notYetPropagated isAWSErr e = true ->
  Create st
  = (Ret (Some (creationError e)),
     calledAll st' (replicate (S (attemptsWithin 90)) (CallCreateLaunchConfiguration opts)))
  /\ st_d st' = st_d st.
Proof.
  intros opts Hrun Hreply Hretry.
  split; [|exact (create_block_device_mappings_record remote st st' _ Hrun)].
  rewrite (Create_from_block_devices st st' bdms Hrun). fold opts.
  apply (createAndReadBack_run remote isAWSErr attemptsWithin opts _ st' _ (Some e)).
  unfold resource_Retry.
  apply (retryLoop_exhausted (fun _ => True)); [|exact I].
  intros st0 _. split; [|exact I].
  rewrite create_attempt_run, Hreply, Hretry. reflexivity.
Qed.

(** X18: when the creation request succeeds and the describe request
    that follows finds no launch configuration, Create returns no
    error although nothing can be read back: the identifier, set to
    the name after the creation, is cleared again, and the attributes
    are as they were. *)
Theorem Create_succeeds_with_nothing_read_back (st st' : state)
    (bdms : list (option autoscaling_BlockDeviceMapping)) :
  let opts := requestFor (st_d st) bdms in
  let lcName := nameFor (st_d st) in
  let create := CallCreateLaunchConfiguration opts in
  let describe := CallDescribeLaunchConfigurations [Some lcName] in
  create_block_device_mappings remote st = (Ret (bdms, None), st') ->
  createLaunchConfigurationReply remote (st_calls st') opts = None ->
  describeLaunchConfigurationsReply remote (st_calls st' ++ [create]) [Some lcName]
  = ([], None) ->
  Create st = (Ret None, withId EmptyString (calledAll st' [create; describe])).
Proof.
  intros opts lcName create describe Hrun Hcreate Hdescribe.
  rewrite (Create_from_block_devices st st' bdms Hrun). fold opts lcName.
  rewrite (createAndReadBack_run remote isAWSErr attemptsWithin opts lcName st' _ None
             (create_succeeds opts st' Hcreate)).
  assert (Hread : read_back_attempt remote (withId lcName (called st' create))
                  = (Ret None, withId EmptyString (calledAll st' [create; describe]))).
  { unfold read_back_attempt, resourceAwsLaunchConfigurationRead,
      autoscalingconn_DescribeLaunchConfigurations.
    munfold. cbn [withId called st_d st_calls rd_Id]. fold create. rewrite Hdescribe.
    unfold withId, calledAll. cbn. now rewrite <- app_assoc. }
  unfold resource_Retry.
  destruct (attemptsWithin 30); cbn [retryLoop]; now rewrite (bind_run _ _ _ _ _ Hread).
Qed.

(** X19: when the creation request succeeds and every describe
    request fails, Create tries the read-back exactly once more than
    the attempts that fit in 30 seconds; then it returns the describe
    error, wrapped as "Error retrieving launch configuration" and not
    as a creation error, and the identifier stays set to the name of
    the launch configuration that was created. *)
Theorem Create_keeps_identifier_when_read_back_fails (st st' : state)
    (bdms : list (option autoscaling_BlockDeviceMapping)) (e : error) :
  let opts := requestFor (st_d st) bdms in
  let lcName := nameFor (st_d st) in
  let create := CallCreateLaunchConfiguration opts in
  let describe := CallDescribeLaunchConfigurations [Some lcName] in
  create_block_device_mappings remote st = (Ret (bdms, None), st') ->
  createLaunchConfigurationReply remote (st_calls st') opts = None ->
  (forall calls, (describeLaunchConfigurationsReply remote calls [Some lcName]).2 = Some e) ->
  Create st
  = (Ret (Some (fmt_Errorf "Error retrieving launch configuration: %s" [ArgError e])),
     withId lcName (calledAll st' (create :: replicate (S (attemptsWithin 30)) describe))).
Proof.
  intros opts lcName create describe Hrun Hcreate Hdescribe.
  rewrite (Create_from_block_devices st st' bdms Hrun). fold opts lcName.
  rewrite (createAndReadBack_run remote isAWSErr attemptsWithin opts lcName st' _ None
             (create_succeeds opts st' Hcreate)).
  unfold resource_Retry.
  rewrite (retryLoop_exhausted (fun s => rd_Id (st_d s) = lcName) (read_back_attempt remote)
             describe
             (fmt_Errorf "Error retrieving launch configuration: %s" [ArgError e])).
  - unfold withId, calledAll, called. cbn. now rewrite <- app_assoc.
  - intros s Hs. split; [|exact Hs].
    unfold read_back_attempt, resourceAwsLaunchConfigurationRead,
      autoscalingconn_DescribeLaunchConfigurations.
    munfold. rewrite Hs. specialize (Hdescribe (st_calls s)).
    destruct (describeLaunchConfigurationsReply remote (st_calls s) [Some lcName])
      as [confs err].
    cbn in Hdescribe. subst err. reflexivity.
  - reflexivity.
Qed.

End CreateExhausted.

(** ** Create on the sample settings *)

(** X11 at a lookup that is refused. *)
Lemma Create_returns_lookup_error_witness :
  let e := awserr_Error "UnauthorizedOperation" "not allowed" in
  let st := Sample.start Sample.baseAttrs in
  Sample.create (Fixture.refusing e) st
  = (Ret (Some e), called st (CallFetchRootDeviceName "ami-0abc")).
Proof.
  intros e st.
  exact (Create_returns_lookup_error (Fixture.refusing e) Sample.isAWSErr (fun s => s)
           Sample.expandStringList "terraform-0001" (fun p => p +:+ "0001") (fun _ => 2%nat)
           st None e eq_refl eq_refl).
Defined.

(** X12 at a [root_block_device] on an image without a root-device
    name. *)
Lemma Create_needs_root_device_name_witness :
  let st := Sample.start Fixture.rootOnly in
  let lookup := CallFetchRootDeviceName "ami-0abc" in
  Sample.create (Sample.services None None None []) st
  = (Ret (Some (noRootDeviceNameError "ami-0abc")), calledAll st [lookup; lookup]).
Proof.
  intros st lookup.
  refine (Create_needs_root_device_name (Sample.services None None None []) Sample.isAWSErr
            (fun s => s) Sample.expandStringList "terraform-0001" (fun p => p +:+ "0001")
            (fun _ => 2%nat) st (VMap Fixture.rootElement) []
            eq_refl eq_refl eq_refl eq_refl _ (fun _ => eq_refl)).
  now exists Fixture.rootElement, true.
Defined.

(** X13 at a configuration with one element in each deprecated
    attribute, on an image whose root device is /dev/sda1. *)
Lemma Create_sends_legacy_block_devices_witness :
  let remote := Sample.services (Some "/dev/sda1") None None [] in
  let st := Sample.start Fixture.legacy in
  let lookup := CallFetchRootDeviceName "ami-0abc" in
  exists ebs eph roots opts lcName,
    Sample.create remote st
    = create_and_read_back remote Sample.isAWSErr (fun _ => 2%nat) opts lcName
        (calledAll st [lookup; lookup])
    /\ opts_BlockDeviceMappings opts = Some <$> (ebs ++ eph ++ roots)
    /\ Forall2 ebsMapping [VMap Fixture.ebsElement] ebs
    /\ Forall2 ephemeralMapping [VMap Fixture.ephemeralElement] eph
    /\ Forall2 (rootMapping "/dev/sda1") [VMap Fixture.rootElement] roots.
Proof.
  intros remote st lookup.
  refine (Create_sends_legacy_block_devices remote Sample.isAWSErr
            (fun s => s) Sample.expandStringList "terraform-0001" (fun p => p +:+ "0001")
            (fun _ => 2%nat) st [VMap Fixture.ebsElement] [VMap Fixture.ephemeralElement]
            [VMap Fixture.rootElement] "/dev/sda1"
            eq_refl eq_refl _ _ eq_refl _ eq_refl _ (fun _ => eq_refl)).
  - constructor; [|constructor]. now exists Fixture.ebsElement, true, "/dev/sdb".
  - constructor; [|constructor]. intros (m & [= <-] & Hname). discriminate.
  - constructor; [|constructor]. now exists Fixture.ephemeralElement, "/dev/sdc", "ephemeral0".
  - constructor; [|constructor]. now exists Fixture.rootElement, true.
Defined.

(** X14 at the mappings of an ephemeral and a root element. *)
Lemma legacy_block_devices_read_back_witness :
  let lc := Sample.launchConfiguration "lc"
              [Some Fixture.ephemeralDevice; Some Fixture.rootDevice] in
  let st := Sample.start Sample.baseAttrs in
  exists m : gmap string value,
    readBlockDevicesFromLaunchConfiguration (Sample.services (Some "/dev/sda1") None None [])
      lc st
    = (Ret (m, None), called st (CallFetchRootDeviceName "ami-0abc"))
    /\ m !! "ebs" = Some (VMaps [])
    /\ m !! "ephemeral" = Some (VMaps [descriptionOf Fixture.ephemeralDevice])
    /\ m !! "root" = Some (VMap (readBlockDevice_common Fixture.rootDevice)).
Proof.
  intros lc st.
  refine (legacy_block_devices_read_back (Sample.services (Some "/dev/sda1") None None [])
            st lc [] [VMap Fixture.ephemeralElement] [VMap Fixture.rootElement]
            [] [Fixture.ephemeralDevice] [Fixture.rootDevice] "/dev/sda1"
            _ _ _ _ _ eq_refl _ eq_refl).
  - constructor.
  - constructor.
  - constructor; [|constructor]. now exists Fixture.ephemeralElement, "/dev/sdc", "ephemeral0".
  - constructor; [|constructor]. intros (m & [= <-] & Hname). discriminate.
  - constructor; [|constructor]. eexists Fixture.rootElement, _.
    do 4 (split; [reflexivity|]). now apply numbersCarried_intro.
  - discriminate.
Defined.

(** X15 at the sample configuration: the launch configuration gets a
    unique name. *)
Lemma Create_request_fields_witness :
  let remote := Sample.services (Some "/dev/sda1") None None [] in
  let st := Sample.start Sample.baseAttrs in
  let st' := called st (CallFetchRootDeviceName "ami-0abc") in
  Sample.create remote st
  = create_and_read_back remote Sample.isAWSErr (fun _ => 2%nat)
      (Fixture.request (st_d st) []) "terraform-0001" st'
  /\ opts_LaunchConfigurationName (Fixture.request (st_d st) []) = Some "terraform-0001"
  /\ opts_AssociatePublicIpAddress (Fixture.request (st_d st) []) = None.
Proof.
  intros remote st st'. split; [|split; reflexivity].
  exact (proj2 (Create_request_fields remote Sample.isAWSErr
                  (fun s => s) Sample.expandStringList "terraform-0001"
                  (fun p => p +:+ "0001") (fun _ => 2%nat) st st' [] eq_refl)).
Defined.

(** X17 at a creation request that keeps failing with Invalid
    IamInstanceProfile, when two further attempts fit in the window. *)
Lemma Create_gives_up_after_window_witness :
  let e := awserr_Error "ValidationError" "Invalid IamInstanceProfile: web" in
  let remote := Sample.services None (Some e) None [] in
  let st := Sample.start Sample.baseAttrs in
  let st' := called st (CallFetchRootDeviceName "ami-0abc") in
  let create := CallCreateLaunchConfiguration (Fixture.request (st_d st) []) in
  Sample.create remote st
  = (Ret (Some (creationError e)), calledAll st' [create; create; create]).
Proof.
  intros e remote st st' create.
  exact (proj1 (Create_gives_up_after_window remote Sample.isAWSErr
                  (fun s => s) Sample.expandStringList "terraform-0001"
                  (fun p => p +:+ "0001") (fun _ => 2%nat) st st' [] e
                  eq_refl (fun _ => eq_refl) eq_refl)).
Defined.

(** X18 at services that describe no launch configuration. *)
Lemma Create_succeeds_with_nothing_read_back_witness :
  let remote := Sample.services None None None [] in
  let st := Sample.start Sample.baseAttrs in
  let st' := called st (CallFetchRootDeviceName "ami-0abc") in
  let create := CallCreateLaunchConfiguration (Fixture.request (st_d st) []) in
  let describe := CallDescribeLaunchConfigurations [Some "terraform-0001"] in
  Sample.create remote st = (Ret None, withId EmptyString (calledAll st' [create; describe])).
Proof.
  intros remote st st' create describe.
  exact (Create_succeeds_with_nothing_read_back remote Sample.isAWSErr
           (fun s => s) Sample.expandStringList "terraform-0001"
           (fun p => p +:+ "0001") (fun _ => 2%nat) st st' [] eq_refl eq_refl eq_refl).
Defined.

(** X19 at services that fail to describe the launch configuration,
    when two further attempts fit in the window. *)
Lemma Create_keeps_identifier_when_read_back_fails_witness :
  let e := awserr_Error "Throttling" "Rate exceeded" in
  let remote := Fixture.undescribed e in
  let st := Sample.start Sample.baseAttrs in
  let st' := called st (CallFetchRootDeviceName "ami-0abc") in
  let create := CallCreateLaunchConfiguration (Fixture.request (st_d st) []) in
  let describe := CallDescribeLaunchConfigurations [Some "terraform-0001"] in
  Sample.create remote st
  = (Ret (Some (fmt_Errorf "Error retrieving launch configuration: %s" [ArgError e])),
     withId "terraform-0001" (calledAll st' [create; describe; describe; describe])).
Proof.
  intros e remote st st' create describe.
  exact (Create_keeps_identifier_when_read_back_fails remote Sample.isAWSErr
           (fun s => s) Sample.expandStringList "terraform-0001"
           (fun p => p +:+ "0001") (fun _ => 2%nat) st st' [] e
           eq_refl eq_refl (fun _ => eq_refl)).
Defined.

(** ** Create: the read-back *)

Section CreateReadBack.

Variable remote : Remote.
Variable isAWSErr : error -> string -> string -> bool.
Variable base64Encode : string -> string.
Variable expandStringList : list value -> list (option string).
Variable resource_UniqueId : string.
Variable resource_PrefixedUniqueId : string -> string.
Variable attemptsWithin : Z -> nat.

Let Create : M (option error) :=
  resourceAwsLaunchConfigurationCreate remote isAWSErr base64Encode expandStringList
    resource_UniqueId resource_PrefixedUniqueId attemptsWithin.


End CreateReadBack.

